(** * Range streaming and cache-tier handler of the celebrity media gateway

    A shallow embedding of [handlers/stream.ts] (with [utils/response.ts] and
    [middleware/cors.ts]) and the properties of its range arithmetic, cache
    tiers and request validation. *)

From Stdlib Require Import ZArith Lia Bool Ascii String List.
From stdpp Require Import base option strings gmap.

Local Open Scope string_scope.
Local Open Scope Z_scope.

(** ** JavaScript values used by the handler *)

(** A JS [number] as the handler uses it: object sizes, byte offsets and the
    result of [parseInt].  Every finite value the handler computes is an
    integer, and IEEE doubles are exact on integers up to
    [MAX_SAFE_INTEGER]; arithmetic is therefore written on [Z].  [NaN] is
    what [parseInt] returns on a string without a leading digit. *)
Inductive number : Type :=
| Num (z : Z)
| NaN.

Definition MAX_SAFE_INTEGER : Z := 2 ^ 53 - 1.

Module JsNum.

Definition add (a b : number) : number :=
  match a, b with
  | Num x, Num y => Num (x + y)
  | _, _ => NaN
  end.

Definition sub (a b : number) : number :=
  match a, b with
  | Num x, Num y => Num (x - y)
  | _, _ => NaN
  end.

(** Relational operators: any comparison with [NaN] is [false]. *)
Definition lt (a b : number) : bool :=
  match a, b with
  | Num x, Num y => x <? y
  | _, _ => false
  end.

Definition le (a b : number) : bool :=
  match a, b with
  | Num x, Num y => x <=? y
  | _, _ => false
  end.

Definition ge (a b : number) : bool :=
  match a, b with
  | Num x, Num y => x >=? y
  | _, _ => false
  end.

(** [a === b] on numbers. *)
Definition strict_eq (a b : number) : bool :=
  match a, b with
  | Num x, Num y => x =? y
  | _, _ => false
  end.

(** [Math.max] and [Math.min] return [NaN] as soon as one argument is. *)
Definition max (a b : number) : number :=
  match a, b with
  | Num x, Num y => Num (Z.max x y)
  | _, _ => NaN
  end.

Definition min (a b : number) : number :=
  match a, b with
  | Num x, Num y => Num (Z.min x y)
  | _, _ => NaN
  end.

End JsNum.

(** ** Decimal digits *)

Definition digit_value (c : ascii) : option Z :=
  let n := Z.of_N (N_of_ascii c) in
  if (48 <=? n) && (n <=? 57) then Some (n - 48) else None.

Definition is_digit (c : ascii) : bool :=
  match digit_value c with Some _ => true | None => false end.

Definition digit_char (d : Z) : ascii := ascii_of_N (Z.to_N (48 + d)).

(** The longest prefix of decimal digits, and what follows it: the greedy
    digit group of the range pattern, and the digits [parseInt] consumes. *)
Fixpoint span_digits (s : string) : string * string :=
  match s with
  | String c s' =>
      if is_digit c
      then let '(ds, rest) := span_digits s' in (String c ds, rest)
      else (EmptyString, s)
  | EmptyString => (EmptyString, EmptyString)
  end.

Fixpoint all_digits (s : string) : bool :=
  match s with
  | String c s' => is_digit c && all_digits s'
  | EmptyString => true
  end.

(** Value of a digit string read left to right from accumulator [acc]. *)
Fixpoint digits_value (s : string) (acc : Z) : Z :=
  match s with
  | String c s' =>
      match digit_value c with
      | Some d => digits_value s' (10 * acc + d)
      | None => acc
      end
  | EmptyString => acc
  end.

(** [parseInt(s, 10)] on the strings the handler passes, which are the
    digit groups of the pattern: the leading digits are read in base ten and
    a string that does not start with a digit gives [NaN].  The value is the
    integer the digits denote, which is the JS result up to
    [MAX_SAFE_INTEGER]; beyond it JS rounds to the nearest double, and
    gives [Infinity] on very long digit strings, which this definition
    does not follow. *)
Definition parseInt (s : string) : number :=
  match fst (span_digits s) with
  | EmptyString => NaN
  | ds => Num (digits_value ds 0)
  end.

(** Decimal rendering of a non-negative integer; [fuel] bounds the number of
    digits after the first. *)
Fixpoint decimal_digits (fuel : nat) (n : Z) (acc : string) : string :=
  let acc' := String (digit_char (n mod 10)) acc in
  match fuel with
  | O => acc'
  | S f => if n <? 10 then acc' else decimal_digits f (n / 10) acc'
  end.

Definition decimal (n : Z) : string :=
  decimal_digits (Z.to_nat (Z.log2 n)) n EmptyString.

(** [Number.prototype.toString], as template literals and [.toString()]
    apply it.  Integers are printed in full; JS does so below [1e21] and
    prints the exponent form from there on, which this definition does not
    follow. *)
Definition toString (x : number) : string :=
  match x with
  | Num z => if z <? 0 then "-" +:+ decimal (- z) else decimal z
  | NaN => "NaN"
  end.

(** ** Strings *)

(** [s.startsWith(p)]. *)
Definition startsWith (s p : string) : bool := String.prefix p s.

(** [s.includes(sub)]. *)
Fixpoint includes (s sub : string) : bool :=
  String.prefix sub s ||
  match s with
  | String _ s' => includes s' sub
  | EmptyString => false
  end.

(** Truthiness of a string: the empty string is falsy. *)
Definition truthy (s : string) : bool := negb (String.eqb s EmptyString).

(** ** The range pattern

    The handler matches the header against the literal [bytes=], a first
    group of zero or more digits, a hyphen and a second group of zero or
    more digits. *)

Fixpoint strip_prefix (p s : string) : option string :=
  match p, s with
  | EmptyString, _ => Some s
  | String a p', String b s' =>
      if Ascii.eqb a b then strip_prefix p' s' else None
  | String _ _, EmptyString => None
  end.

(** The pattern tried at the start of [s].  Each digit group is greedy; giving a
    digit back never helps, since the character that must follow is ['-'],
    so the greedy choice is the only one to try. *)
Definition range_match_here (s : string) : option (string * string) :=
  match strip_prefix "bytes=" s with
  | Some r =>
      let '(g1, r1) := span_digits r in
      match strip_prefix "-" r1 with
      | Some r2 => Some (g1, fst (span_digits r2))
      | None => None
      end
  | None => None
  end.

(** [rangeHeader.match] with the range pattern: the pattern is not
    anchored, the leftmost position where it matches wins; the result is the
    two capture groups. *)
Fixpoint range_match (s : string) : option (string * string) :=
  match range_match_here s with
  | Some m => Some m
  | None =>
      match s with
      | String _ s' => range_match s'
      | EmptyString => None
      end
  end.

(** ** Responses, collaborators and effects *)

(** A JS object literal with string values, in source order; a later entry
    for the same name overrides an earlier one. *)
Abbreviation JsObject := (list (string * string)).

(** [new Headers(init)].  Header names are kept as the source spells them;
    it spells each name one way throughout. *)
Definition Headers_of (init : JsObject) : gmap string string :=
  foldl (fun h kv => <[kv.1 := kv.2]> h) ∅ init.

(** middleware/cors.ts *)
Definition corsHeaders : JsObject :=
  [ ("Access-Control-Allow-Origin", "*");
    ("Access-Control-Allow-Methods", "GET, POST, DELETE, OPTIONS");
    ("Access-Control-Allow-Headers", "Content-Type, Authorization") ].

(** What a response body was built from.  [BodyJson o] stands for the text
    [JSON.stringify(o)]; [BodyBytes] is an [ArrayBuffer] or the bytes of a
    stream. *)
Inductive Body : Type :=
| BodyText (s : string)
| BodyJson (o : JsObject)
| BodyBytes (b : list Byte.byte).

Record Response : Type := mkResponse {
  status : Z;
  headers : gmap string string;
  resp_body : option Body
}.

(** [new Response(body, { status, headers })].  A textual body gets the
    platform's default content type when the init names none. *)
Definition new_Response (b : option Body) (st : Z) (h : gmap string string)
  : Response :=
  let h' :=
    match b, h !! "Content-Type" with
    | Some (BodyText _), None | Some (BodyJson _), None =>
        <["Content-Type" := "text/plain;charset=UTF-8"]> h
    | _, _ => h
    end in
  {| status := st; headers := h'; resp_body := b |}.

(** What a rejected promise or a [throw] carries. *)
Inductive Thrown : Type :=
| ErrorObject (message : string)
| NonError.

Inductive Completion (A : Type) : Type :=
| Return (a : A)
| Throw (e : Thrown).
Arguments Return {A} a.
Arguments Throw {A} e.

(** The collaborators are reached through [env], whose type [Env] is
    declared in [types.ts]; the records below follow the contracts of the
    object store and of the key-value tier, with a call that may also
    throw. *)

(** Object store: the result of [head], with
    [objectInfo.httpMetadata?.contentType] read as an option. *)
Record R2Object : Type := {
  info_size : number;
  info_contentType : option string
}.

(** Object store: the result of [get]; [body] may be absent. *)
Record R2ObjectBody : Type := {
  obj_body : option (list Byte.byte)
}.

(** Object store: [head(key)], [get(key)] and
    [get(key, { range: { offset, length } })], each giving an object or
    [null]. *)
Record R2Bucket : Type := {
  r2_head : string -> Completion (option R2Object);
  r2_get : string -> Completion (option R2ObjectBody);
  r2_get_range : string -> number -> number -> Completion (option R2ObjectBody)
}.

(** Key-value tier: [get(key, 'arrayBuffer')]. *)
Record KVNamespace : Type := {
  kv_get : string -> Completion (option (list Byte.byte))
}.

(** Modelled from the spec: the declaration of [Env] in [types.ts] is not
    among the sources.  The handler reads [env.bucket] and [env.KV], tests
    both for presence, and uses them as the object store and the key-value
    tier of the collaborator contracts. *)
Record Env : Type := {
  bucket : option R2Bucket;
  KV : option KVNamespace
}.

(** Calls the handler makes on its collaborators, in program order.  The
    two [Put] events are the writes started in the background: the handler
    attaches a [catch] to them and does not wait for them. *)
Inductive Event : Type :=
| CacheMatch (url : string)
| CachePut (url : string) (r : Response)
| BucketHead (key : string)
| BucketGet (key : string)
| BucketGetRange (key : string) (offset length : number)
| KVGet (key : string)
| KVPut (key : string) (value : list Byte.byte) (expirationTtl : Z).

(** An [async] computation: the calls made so far and how it completed. *)
Definition Eff (A : Type) : Type := list Event * Completion A.

Module Eff.

Definition pure {A} (a : A) : Eff A := ([], Return a).

Definition bind {A B} (m : Eff A) (k : A -> Eff B) : Eff B :=
  match m with
  | (t, Return a) => let '(t', r) := k a in ((t ++ t')%list, r)
  | (t, Throw e) => (t, Throw e)
  end.

(** An awaited call on a collaborator. *)
Definition call {A} (ev : Event) (c : Completion A) : Eff A := ([ev], c).

(** A call whose promise is not awaited. *)
Definition spawn (ev : Event) : Eff unit := ([ev], Return tt).

Definition throw {A} (e : Thrown) : Eff A := ([], Throw e).

(** [try { m } catch (error) { h error }] *)
Definition try_catch {A} (m : Eff A) (h : Thrown -> Eff A) : Eff A :=
  match m with
  | (t, Return a) => (t, Return a)
  | (t, Throw e) => let '(t', r) := h e in ((t ++ t')%list, r)
  end.

Definition trace {A} (m : Eff A) : list Event := fst m.
Definition result {A} (m : Eff A) : Completion A := snd m.

End Eff.

Notation "'do' x <- m ; k" := (Eff.bind m (fun x => k))
  (at level 10, x name, m at level 100, k at level 200).
Notation "'run' m ; k" := (Eff.bind m (fun _ => k))
  (at level 10, m at level 100, k at level 200).

(** [caches.default.match(new Request(url))] on the edge cache [caches]. *)
Definition cache_match (caches : gmap string Response) (url : string)
  : Eff (option Response) :=
  Eff.call (CacheMatch url) (Return (caches !! url)).

(** The edge cache once the background writes of [t] have completed. *)
Definition run_background (t : list Event) (caches : gmap string Response)
  : gmap string Response :=
  foldl (fun c ev =>
           match ev with
           | CachePut url r => <[url := r]> c
           | _ => c
           end) caches t.

(** ** handlers/stream.ts *)

Record Request : Type := {
  req_headers : gmap string string
}.

(** [request.headers.get('range')] *)
Definition header_range (request : Request) : option string :=
  req_headers request !! "range".

(** Truthiness of [string | null]. *)
Definition present (o : option string) : bool :=
  match o with
  | Some s => truthy s
  | None => false
  end.

Record CacheConfig : Type := {
  browserCache : string;
  kvTTL : Z;
  shouldCacheInKV : bool;
  maxKVSize : Z
}.

Module CACHE_CONFIGS.

Definition image : CacheConfig :=
  {| browserCache := "public, max-age=31536000, immutable";
     kvTTL := 31536000;
     shouldCacheInKV := true;
     maxKVSize := 5 * 1024 * 1024 |}.

Definition video : CacheConfig :=
  {| browserCache := "public, max-age=31536000, immutable";
     kvTTL := 604800;
     shouldCacheInKV := false;
     maxKVSize := 0 |}.

Definition audio : CacheConfig :=
  {| browserCache := "public, max-age=31536000, immutable";
     kvTTL := 2592000;
     shouldCacheInKV := true;
     maxKVSize := 10 * 1024 * 1024 |}.

End CACHE_CONFIGS.

Definition VIDEO_CHUNK_SIZE : Z := 2 * 1024 * 1024.
Definition AUDIO_CHUNK_SIZE : Z := 512 * 1024.
Definition DEFAULT_CHUNK_SIZE : Z := 1 * 1024 * 1024.

Definition KV_NAMESPACE : string := "celebrity:media:".

(** The URL of the request that keys a whole object in the edge cache; a
    cache key is identified with the URL string it is built from.  The
    code builds [new Request(url)], whose URL is normalised; the string is
    that URL when [fileKey] is a [url_stable_key], defined below. *)
Definition getCacheKey (fileKey : string) : string :=
  "https://cache.local/celebrity/" +:+ fileKey.

Definition getKVKey (fileKey : string) : string :=
  KV_NAMESPACE +:+ fileKey.

Definition getCacheConfig (contentType : string) : CacheConfig :=
  if startsWith contentType "image/" then CACHE_CONFIGS.image
  else if startsWith contentType "video/" then CACHE_CONFIGS.video
  else if startsWith contentType "audio/" then CACHE_CONFIGS.audio
  else CACHE_CONFIGS.image.

Definition buildResponseHeaders
  (contentType : string) (contentLength : number)
  (cacheControl cacheStatus : string) : gmap string string :=
  Headers_of
    ([ ("Content-Type", contentType);
       ("Content-Length", toString contentLength);
       ("Cache-Control", cacheControl);
       ("X-Cache", cacheStatus);
       ("X-Content-Type-Options", "nosniff");
       ("Accept-Ranges", "bytes");
       ("Content-Disposition", "inline") ] ++ corsHeaders).

Definition buildRangeHeaders
  (contentType : string) (start end_ total : number)
  (cacheControl : string) : gmap string string :=
  Headers_of
    ([ ("Content-Type", contentType);
       ("Content-Range",
        "bytes " +:+ toString start +:+ "-" +:+ toString end_
                 +:+ "/" +:+ toString total);
       ("Content-Length",
        toString (JsNum.add (JsNum.sub end_ start) (Num 1)));
       ("Accept-Ranges", "bytes");
       ("Cache-Control", cacheControl);
       ("X-Content-Type-Options", "nosniff") ] ++ corsHeaders).

(** utils/response.ts *)
Definition jsonResponse (body : JsObject) (st : Z) : Response :=
  new_Response (Some (BodyJson body)) st
    (Headers_of (corsHeaders ++ [ ("Content-Type", "application/json") ])).

(** *** Range requests *)

(** The chunk size [handleRangeRequest] picks for a content type. *)
Definition chunkSizeOf (contentType : string) : Z :=
  if startsWith contentType "video/" then VIDEO_CHUNK_SIZE
  else if startsWith contentType "audio/" then AUDIO_CHUNK_SIZE
  else DEFAULT_CHUNK_SIZE.

(** [start] and [end] as [handleRangeRequest] computes them from the two
    groups of the match. *)
Definition rangeBounds (m : string * string) (chunkSize : Z)
  (totalSize : number) : number * number :=
  let '(m1, m2) := m in
  if String.eqb m1 EmptyString && negb (String.eqb m2 EmptyString) then
    let suffix := parseInt m2 in
    (JsNum.max (JsNum.sub totalSize suffix) (Num 0),
     JsNum.sub totalSize (Num 1))
  else
    let start := parseInt m1 in
    (start,
     if truthy m2 then parseInt m2
     else JsNum.min (JsNum.sub (JsNum.add start (Num chunkSize)) (Num 1))
                    (JsNum.sub totalSize (Num 1))).

(** The validity test that guards the 416 answer. *)
Definition rangeInvalid (start end_ totalSize : number) : bool :=
  JsNum.ge start totalSize || JsNum.lt start (Num 0) || JsNum.lt end_ start.

(** The URL that keys a first chunk in the edge cache, as a string: the
    URL of the [new Request(url)] the code builds when [fileKey] is a
    [url_stable_key], defined below, and [end_] is below [1e21]. *)
Definition rangeCacheUrl (fileKey : string) (end_ : number) : string :=
  "https://cache.local/range/" +:+ fileKey +:+ "?chunk=0-" +:+ toString end_.

(** The first part of [handleRangeRequest]: the header matched against the
    pattern and, on a match, [start] and [end]. *)
Definition parseRange (rangeHeader contentType : string) (totalSize : number)
  : option (number * number) :=
  match range_match rangeHeader with
  | None => None
  | Some m => Some (rangeBounds m (chunkSizeOf contentType) totalSize)
  end.

Definition handleRangeRequest
  (caches : gmap string Response) (request : Request) (env : Env)
  (fileKey rangeHeader contentType : string) (totalSize : number)
  (cacheControl : string) : Eff Response :=
  match parseRange rangeHeader contentType totalSize with
  | None =>
      Eff.pure (new_Response (Some (BodyText "Invalid range")) 400 ∅)
  | Some (start, end_) =>
      if rangeInvalid start end_ totalSize then
        Eff.pure
          (new_Response None 416
             (Headers_of
                (("Content-Range", "bytes */" +:+ toString totalSize)
                   :: corsHeaders)))
      else
        let isFirstChunk := JsNum.strict_eq start (Num 0) in
        let rangeCacheKey :=
          if isFirstChunk then Some (rangeCacheUrl fileKey end_) else None in
        do cachedChunk <-
          match rangeCacheKey with
          | Some k => cache_match caches k
          | None => Eff.pure None
          end;
        match cachedChunk with
        | Some chunk => Eff.pure chunk
        | None =>
            let length := JsNum.add (JsNum.sub end_ start) (Num 1) in
            do rangedObject <-
              match bucket env with
              | Some b =>
                  Eff.call (BucketGetRange fileKey start length)
                           (r2_get_range b fileKey start length)
              | None =>
                  Eff.throw
                    (ErrorObject "Cannot read properties of undefined")
              end;
            match rangedObject ≫= obj_body with
            | None =>
                Eff.pure
                  (new_Response (Some (BodyText "Failed to get range")) 500 ∅)
            | Some stream =>
                let response :=
                  new_Response (Some (BodyBytes stream)) 206
                    (buildRangeHeaders contentType start end_ totalSize
                                       cacheControl) in
                run match rangeCacheKey with
                    | Some k =>
                        if JsNum.le length (Num (512 * 1024))
                        then Eff.spawn (CachePut k response)
                        else Eff.pure tt
                    | None => Eff.pure tt
                    end;
                Eff.pure response
            end
        end
  end.

(** *** The streaming entry point *)

(** How the [try] block of [handleFileStream] ends: with a response, or by
    returning the promise of [handleRangeRequest] without awaiting it, so
    that a rejection of that promise is not seen by the [catch]. *)
Inductive TryResult : Type :=
| Responded (r : Response)
| Delegated (p : Eff Response).

Definition kvLookup
  (env : Env) (fileKey contentType : string) (config : CacheConfig)
  (cacheKey : string) : Eff (option Response) :=
  match KV env with
  | None => Eff.pure None
  | Some kv =>
      Eff.try_catch
        (let kvKey := getKVKey fileKey in
         do kvData <- Eff.call (KVGet kvKey) (kv_get kv kvKey);
         match kvData with
         | Some data =>
             let response :=
               new_Response (Some (BodyBytes data)) 200
                 (buildResponseHeaders contentType
                    (Num (Z.of_nat (List.length data)))
                    (browserCache config) "HIT-KV") in
             run Eff.spawn (CachePut cacheKey response);
             Eff.pure (Some response)
         | None => Eff.pure None
         end)
        (fun _ => Eff.pure None)
  end.

(** Steps 4 to 6 of [handleFileStream]: the key-value tier, then the object
    store, buffering and caching objects within the size ceiling. *)
Definition serveWholeObject
  (env : Env) (b : R2Bucket) (fileKey contentType : string)
  (fileSize : number) (config : CacheConfig) (cacheKey : string)
  : Eff Response :=
  do kvHit <-
    (if shouldCacheInKV config && JsNum.le fileSize (Num (maxKVSize config))
     then kvLookup env fileKey contentType config cacheKey
     else Eff.pure None);
  match kvHit with
  | Some response => Eff.pure response
  | None =>
      do object <- Eff.call (BucketGet fileKey) (r2_get b fileKey);
      match object ≫= obj_body with
      | None => Eff.pure (jsonResponse [ ("error", "File not found") ] 404)
      | Some stream =>
          let headers' :=
            buildResponseHeaders contentType fileSize (browserCache config)
                                 "MISS" in
          if JsNum.le fileSize (Num (maxKVSize config)) then
            let arrayBuffer := stream in
            let response :=
              new_Response (Some (BodyBytes arrayBuffer)) 200 headers' in
            run Eff.spawn (CachePut cacheKey response);
            run match KV env with
                | Some _ =>
                    if shouldCacheInKV config
                    then Eff.spawn (KVPut (getKVKey fileKey) arrayBuffer
                                          (kvTTL config))
                    else Eff.pure tt
                | None => Eff.pure tt
                end;
            Eff.pure response
          else
            Eff.pure (new_Response (Some (BodyBytes stream)) 200 headers')
      end
  end.

(** [objectInfo.httpMetadata?.contentType || 'application/octet-stream'] *)
Definition contentTypeOf (objectInfo : R2Object) : string :=
  match info_contentType objectInfo with
  | Some ct => if truthy ct then ct else "application/octet-stream"
  | None => "application/octet-stream"
  end.

Definition handleFileStream_try
  (caches : gmap string Response) (request : Request) (env : Env)
  (fileKey : string) : Eff TryResult :=
  if negb (truthy fileKey) || includes fileKey ".." then
    Eff.pure (Responded (jsonResponse [ ("error", "Invalid file key") ] 400))
  else
    match bucket env with
    | None =>
        Eff.pure
          (Responded
             (jsonResponse
                [ ("error", "R2 bucket not configured");
                  ("debug", "env.bucket is undefined in handleFileStream") ]
                500))
    | Some b =>
        let cacheKey := getCacheKey fileKey in
        do cachedResponse <- cache_match caches cacheKey;
        let hit :=
          if negb (present (header_range request)) then cachedResponse
          else None in
        match hit with
        | Some cached =>
            let headers' := <["X-Cache" := "HIT-WORKERS"]> (headers cached) in
            Eff.pure
              (Responded
                 {| status := status cached;
                    headers := headers';
                    resp_body := resp_body cached |})
        | None =>
            do objectInfo <- Eff.call (BucketHead fileKey) (r2_head b fileKey);
            match objectInfo with
            | None =>
                Eff.pure
                  (Responded (jsonResponse [ ("error", "File not found") ] 404))
            | Some info =>
                let contentType := contentTypeOf info in
                let isImage := startsWith contentType "image/" in
                let isVideo := startsWith contentType "video/" in
                let isAudio := startsWith contentType "audio/" in
                if negb isImage && negb isVideo && negb isAudio then
                  Eff.pure
                    (Responded
                       (jsonResponse
                          [ ("error",
                             "This endpoint is for media files only. Use /download/ for other files.");
                            ("downloadUrl", "/download/" +:+ fileKey);
                            ("contentType", contentType) ]
                          400))
                else
                  let fileSize := info_size info in
                  let config := getCacheConfig contentType in
                  let rangeHeader := header_range request in
                  let ranged :=
                    if present rangeHeader && (isVideo || isAudio)
                    then rangeHeader else None in
                  match ranged with
                  | Some rh =>
                      Eff.pure
                        (Delegated
                           (handleRangeRequest caches request env fileKey rh
                              contentType fileSize (browserCache config)))
                  | None =>
                      do r <- serveWholeObject env b fileKey contentType
                                fileSize config cacheKey;
                      Eff.pure (Responded r)
                  end
            end
        end
    end.

(** The answer of the top-level [catch]. *)
Definition internalError (error : Thrown) : Response :=
  jsonResponse
    [ ("error", "Internal server error");
      ("details",
       match error with
       | ErrorObject message => message
       | NonError => "Unknown error"
       end) ]
    500.

Definition handleFileStream
  (caches : gmap string Response) (request : Request) (env : Env)
  (fileKey : string) : Eff Response :=
  do r <-
    Eff.try_catch
      (handleFileStream_try caches request env fileKey)
      (fun error => Eff.pure (Responded (internalError error)));
  match r with
  | Responded response => Eff.pure response
  | Delegated p => p
  end.

(** *** index.ts and middleware/cors.ts *)

(** [handleCorsRequest()] *)
Definition handleCorsRequest : Response :=
  new_Response None 200 (Headers_of corsHeaders).

(** What [fetch] reads of the incoming request: [request.method], the
    [pathname] of [new URL(request.url)], and the request itself, which it
    hands on. *)
Record Incoming : Type := {
  in_method : string;
  in_pathname : string;
  in_request : Request
}.

(** [pathname.substring(1)] *)
Definition substring1 (s : string) : string :=
  match s with
  | String _ s' => s'
  | EmptyString => EmptyString
  end.

(** The [fetch] handler of the worker. *)
Definition fetch
  (caches : gmap string Response) (incoming : Incoming) (env : Env)
  : Eff Response :=
  let method := in_method incoming in
  let notFound := Eff.pure (jsonResponse [ ("error", "Not Found") ] 404) in
  if String.eqb method "OPTIONS" then Eff.pure handleCorsRequest
  else if String.eqb method "GET" then
    let pathname := in_pathname incoming in
    if startsWith pathname "/celebrity/" then
      let fileKey := substring1 pathname in
      handleFileStream caches (in_request incoming) env fileKey
    else if String.eqb pathname "/" || String.eqb pathname EmptyString then
      Eff.pure (jsonResponse [ ("message", "Celebrity API") ] 200)
    else notFound
  else notFound.

(** ** Predicates used in the statements *)

(** A 206 answer for the inclusive byte range [A]-[B] of an object of [S]
    bytes. *)
Definition partial_content (r : Response) (A B S : Z) : Prop :=
  status r = 206 /\
  headers r !! "Content-Range"
  = Some ("bytes " +:+ toString (Num A) +:+ "-" +:+ toString (Num B)
                   +:+ "/" +:+ toString (Num S)) /\
  headers r !! "Content-Length" = Some (toString (Num (B - A + 1))).

(** Every first chunk of [fileKey] held by the edge cache is the answer this
    handler builds for that chunk of an object of [S] bytes. *)
Definition first_chunk_cache_ok
  (caches : gmap string Response) (fileKey : string) (S : Z) : Prop :=
  forall e chunk,
    0 <= e ->
    caches !! rangeCacheUrl fileKey (Num e) = Some chunk ->
    partial_content chunk 0 e S.

(** The 206 answer [handleRangeRequest] builds. *)
Definition rangeResponse
  (contentType : string) (start end_ total : number) (cacheControl : string)
  (stream : list Byte.byte) : Response :=
  new_Response (Some (BodyBytes stream)) 206
    (buildRangeHeaders contentType start end_ total cacheControl).

Definition is_range_read (ev : Event) : bool :=
  match ev with
  | BucketGetRange _ _ _ => true
  | _ => false
  end.

Definition is_cache_put (ev : Event) : bool :=
  match ev with
  | CachePut _ _ => true
  | _ => false
  end.

(** The events [handleRangeRequest] can produce. *)
Definition is_range_event (ev : Event) : bool :=
  match ev with
  | CacheMatch _ | BucketGetRange _ _ _ | CachePut _ _ => true
  | _ => false
  end.

(** A 200 answer carrying a whole object, from the key-value tier or from
    the object store. *)
Definition whole_object_answer (r : Response) : Prop :=
  status r = 200 /\
  (headers r !! "X-Cache" = Some "MISS" \/
   headers r !! "X-Cache" = Some "HIT-KV") /\
  headers r !! "Content-Range" = None.

(** A JSON error answer. *)
Definition json_answer (r : Response) : Prop :=
  status r <> 206 /\
  headers r !! "X-Cache" = None /\
  headers r !! "Content-Range" = None.

(** The longest suffix made of digits only. *)
Fixpoint last_digits (s : string) : string :=
  if all_digits s then s
  else match s with
       | String _ s' => last_digits s'
       | EmptyString => EmptyString
       end.

(** The answer built on an edge-cache hit: the cached answer with its
    [X-Cache] header set. *)
Definition edgeHit (cached : Response) : Response :=
  {| status := status cached;
     headers := <["X-Cache" := "HIT-WORKERS"]> (headers cached);
     resp_body := resp_body cached |}.

Definition is_kv_event (ev : Event) : bool :=
  match ev with
  | KVGet _ | KVPut _ _ _ => true
  | _ => false
  end.

Definition is_kv_read (ev : Event) : bool :=
  match ev with
  | KVGet _ => true
  | _ => false
  end.

Definition is_write (ev : Event) : bool :=
  match ev with
  | CachePut _ _ | KVPut _ _ _ => true
  | _ => false
  end.

Definition is_bucket_get (ev : Event) : bool :=
  match ev with
  | BucketGet _ => true
  | _ => false
  end.

(** The conditions under which [handleFileStream] reaches its whole-object
    steps for [fileKey]: the key passes validation, the bucket is
    configured, the edge cache gives no hit that may be used, [head] finds
    the object [info], its content type is a media type, and the request is
    not handed to [handleRangeRequest]. *)
Definition whole_object_request
  (caches : gmap string Response) (request : Request) (env : Env)
  (b : R2Bucket) (fileKey : string) (info : R2Object) : Prop :=
  negb (truthy fileKey) || includes fileKey ".." = false /\
  bucket env = Some b /\
  (present (header_range request) = true \/
   caches !! getCacheKey fileKey = None) /\
  r2_head b fileKey = Return (Some info) /\
  startsWith (contentTypeOf info) "image/"
  || startsWith (contentTypeOf info) "video/"
  || startsWith (contentTypeOf info) "audio/" = true /\
  present (header_range request)
  && (startsWith (contentTypeOf info) "video/"
      || startsWith (contentTypeOf info) "audio/") = false.

(** Characters that the URL parser behind [new Request(url)] leaves as
    written in a path: ASCII letters and digits, [-], [.], [/] and [_]. *)
Definition url_plain_char (c : ascii) : bool :=
  let n := Z.of_N (N_of_ascii c) in
  (48 <=? n) && (n <=? 57) || (65 <=? n) && (n <=? 90)
  || (97 <=? n) && (n <=? 122)
  || (n =? 45) || (n =? 46) || (n =? 47) || (n =? 95).

Fixpoint all_url_plain (s : string) : bool :=
  match s with
  | String c s' => url_plain_char c && all_url_plain s'
  | EmptyString => true
  end.

(** No segment of the path [s] starts with a dot; [at_start] tells whether
    [s] begins a segment. *)
Fixpoint no_leading_dot (at_start : bool) (s : string) : bool :=
  match s with
  | String c s' =>
      if Ascii.eqb c "/" then no_leading_dot true s'
      else negb (at_start && Ascii.eqb c ".") && no_leading_dot false s'
  | EmptyString => true
  end.

(** File keys whose cache URLs are already normalised.  The edge cache keys
    an entry by the URL of [new Request(url)], which the URL parser
    normalises: it removes [.] and [..] segments (also written [%2e]),
    percent-encodes some characters, and ends the path at [?] or [#].  A
    key made of plain characters with no segment starting with a dot is
    left as written, so for such a key the strings [getCacheKey] and
    [rangeCacheUrl] build are the keys of the cache. *)
Definition url_stable_key (fileKey : string) : bool :=
  all_url_plain fileKey && no_leading_dot true fileKey.

(** Every first chunk the edge cache holds, of whatever file with a
    URL-stable key, is the answer [handleRangeRequest] builds for that
    chunk of an object of the size [size_of] gives the file. *)
Definition edge_cache_ok
  (size_of : string -> Z) (caches : gmap string Response) : Prop :=
  forall fileKey,
    url_stable_key fileKey = true ->
    first_chunk_cache_ok caches fileKey (size_of fileKey).

(** ** Sample collaborators *)

Module Sample.

(** A body of [length] zero bytes; the handler never looks inside a body. *)
Definition zero_filled (length : number) : list Byte.byte :=
  match length with
  | Num n => repeat Byte.x00 (Z.to_nat n)
  | NaN => []
  end.

(** An object store holding, under every key, one object of [size] zero
    bytes and the given content type; a range read returns as many bytes as
    were asked for. *)
Definition store (size : Z) (contentType : string) : R2Bucket :=
  {| r2_head := fun _ =>
       Return (Some {| info_size := Num size;
                       info_contentType := Some contentType |});
     r2_get := fun _ =>
       Return (Some {| obj_body := Some (zero_filled (Num size)) |});
     r2_get_range := fun _ _ length =>
       Return (Some {| obj_body := Some (zero_filled length) |}) |}.

(** A key-value tier whose reads fail, and one that holds nothing. *)
Definition failing_kv : KVNamespace :=
  {| kv_get := fun _ => Throw (ErrorObject "KV unavailable") |}.

Definition empty_kv : KVNamespace :=
  {| kv_get := fun _ => Return None |}.

(** An object store that holds nothing. *)
Definition empty_store : R2Bucket :=
  {| r2_head := fun _ => Return None;
     r2_get := fun _ => Return None;
     r2_get_range := fun _ _ _ => Return None |}.

(** An object store whose calls all fail. *)
Definition failing_store : R2Bucket :=
  {| r2_head := fun _ => Throw (ErrorObject "R2 unavailable");
     r2_get := fun _ => Throw (ErrorObject "R2 unavailable");
     r2_get_range := fun _ _ _ => Throw (ErrorObject "R2 unavailable") |}.

(** An object store that finds the object but fails to read a range. *)
Definition store_failing_ranges (size : Z) (contentType : string)
  : R2Bucket :=
  {| r2_head := r2_head (store size contentType);
     r2_get := r2_get (store size contentType);
     r2_get_range := fun _ _ _ => Throw (ErrorObject "R2 unavailable") |}.

(** A key-value tier that holds the given bytes under every key. *)
Definition full_kv (data : list Byte.byte) : KVNamespace :=
  {| kv_get := fun _ => Return (Some data) |}.

Definition plain : Request := {| req_headers := ∅ |}.

Definition ranged (value : string) : Request :=
  {| req_headers := {[ "range" := value ]} |}.

Definition cacheControl : string := "public, max-age=31536000, immutable".

End Sample.

(** * Properties *)

(** ** Evaluation of the parsing functions *)

Example range_match_full : range_match "bytes=0-499" = Some ("0", "499").
Proof. reflexivity. Qed.

Example range_match_suffix :
  range_match "bytes=-500" = Some (EmptyString, "500").
Proof. reflexivity. Qed.

Example range_match_open :
  range_match "bytes=9500-" = Some ("9500", EmptyString).
Proof. reflexivity. Qed.

Example range_match_multi :
  range_match "bytes=0-50, 100-150" = Some ("0", "50").
Proof. reflexivity. Qed.

Example range_match_none : range_match "items=0-5" = None.
Proof. reflexivity. Qed.

Example toString_52428800 : toString (Num 52428800) = "52428800".
Proof. reflexivity. Qed.

Example parseInt_empty : parseInt EmptyString = NaN.
Proof. reflexivity. Qed.

Example parseInt_2097151 : parseInt "2097151" = Num 2097151.
Proof. reflexivity. Qed.

(** ** Decimal digits and the range pattern *)

Section Digits.

Lemma digit_value_digit_char (d : Z) :
  0 <= d < 10 -> digit_value (digit_char d) = Some d.
Proof.
  intros Hd.
  assert (Hcases : d = 0 \/ d = 1 \/ d = 2 \/ d = 3 \/ d = 4 \/
                   d = 5 \/ d = 6 \/ d = 7 \/ d = 8 \/ d = 9) by lia.
  repeat (destruct Hcases as [-> | Hcases]; [reflexivity |]).
  subst d. reflexivity.
Qed.

Lemma is_digit_digit_char (d : Z) :
  0 <= d < 10 -> is_digit (digit_char d) = true.
Proof.
  intros Hd. unfold is_digit. now rewrite digit_value_digit_char.
Qed.

Lemma decimal_digits_all_digits (fuel : nat) :
  forall n acc,
    0 <= n -> all_digits acc = true ->
    all_digits (decimal_digits fuel n acc) = true.
Proof.
  induction fuel as [| fuel IH]; intros n acc Hn Hacc; simpl.
  - rewrite is_digit_digit_char by (apply Z.mod_pos_bound; lia).
    exact Hacc.
  - destruct (n <? 10).
    + simpl. rewrite is_digit_digit_char by (apply Z.mod_pos_bound; lia).
      exact Hacc.
    + apply IH.
      * apply Z.div_pos; lia.
      * simpl. rewrite is_digit_digit_char by (apply Z.mod_pos_bound; lia).
        exact Hacc.
Qed.

Lemma decimal_digits_nonempty (fuel : nat) :
  forall n acc, decimal_digits fuel n acc <> EmptyString.
Proof.
  induction fuel as [| fuel IH]; intros n acc; simpl.
  - discriminate.
  - destruct (n <? 10); [discriminate | apply IH].
Qed.

(** Reading back the digits written in front of [acc] shifts the
    accumulator by some power of ten and adds [n]. *)
Lemma digits_value_decimal_digits (fuel : nat) :
  forall n acc,
    0 <= n < 2 ^ (Z.of_nat fuel + 1) ->
    exists k, 0 <= k /\
      forall a, digits_value (decimal_digits fuel n acc) a
                = digits_value acc (a * 10 ^ k + n).
Proof.
  induction fuel as [| fuel IH]; intros n acc Hn.
  - exists 1. split; [lia |]. intros a. simpl.
    change (2 ^ (Z.of_nat 0 + 1)) with 2 in Hn.
    rewrite Z.mod_small by lia.
    rewrite digit_value_digit_char by lia.
    f_equal. lia.
  - simpl. destruct (Z.ltb_spec n 10) as [Hlt | Hge].
    + exists 1. split; [lia |]. intros a. simpl.
      rewrite Z.mod_small by lia.
      rewrite digit_value_digit_char by lia.
      f_equal. lia.
    + assert (Hdiv : 0 <= n / 10 < 2 ^ (Z.of_nat fuel + 1)).
      { split; [apply Z.div_pos; lia |].
        apply Z.div_lt_upper_bound; [lia |].
        replace (Z.of_nat (S fuel) + 1) with (Z.succ (Z.of_nat fuel + 1))
          in Hn by lia.
        rewrite Z.pow_succ_r in Hn by lia. lia. }
      destruct (IH (n / 10) (String (digit_char (n mod 10)) acc) Hdiv)
        as (k & Hk & Heq).
      exists (k + 1). split; [lia |]. intros a.
      rewrite Heq. simpl.
      rewrite digit_value_digit_char by (apply Z.mod_pos_bound; lia).
      f_equal.
      rewrite Z.pow_add_r by lia.
      pose proof (Z.div_mod n 10 ltac:(lia)) as Hdm. lia.
Qed.

Lemma decimal_all_digits (n : Z) : 0 <= n -> all_digits (decimal n) = true.
Proof.
  intros Hn. unfold decimal. now apply decimal_digits_all_digits.
Qed.

Lemma decimal_nonempty (n : Z) : decimal n <> EmptyString.
Proof. apply decimal_digits_nonempty. Qed.

Lemma digits_value_decimal (n : Z) :
  0 <= n -> digits_value (decimal n) 0 = n.
Proof.
  intros Hn. unfold decimal.
  destruct (digits_value_decimal_digits
              (Z.to_nat (Z.log2 n)) n EmptyString) as (k & _ & Heq).
  - split; [exact Hn |].
    rewrite Z2Nat.id by apply Z.log2_nonneg.
    destruct (Z.eq_dec n 0) as [-> | Hne]; [reflexivity |].
    replace (Z.log2 n + 1) with (Z.succ (Z.log2 n)) by lia.
    apply Z.log2_spec. lia.
  - rewrite Heq. simpl. lia.
Qed.

Lemma toString_nonneg (n : Z) : 0 <= n -> toString (Num n) = decimal n.
Proof.
  intros Hn. unfold toString.
  destruct (Z.ltb_spec n 0); [lia | reflexivity].
Qed.

(** A digit string is its own longest digit prefix, whatever non-digit
    follows it. *)
Lemma span_digits_all (d : string) :
  all_digits d = true -> span_digits d = (d, EmptyString).
Proof.
  induction d as [| c d IH]; simpl; [reflexivity |].
  intros [Hc Hd]%andb_prop. rewrite Hc, (IH Hd). reflexivity.
Qed.

Lemma span_digits_app (d : string) (c : ascii) (rest : string) :
  all_digits d = true -> is_digit c = false ->
  span_digits (d +:+ String c rest) = (d, String c rest).
Proof.
  intros Hd Hc. induction d as [| c' d IH]; simpl.
  - now rewrite Hc.
  - simpl in Hd. apply andb_prop in Hd as [Hc' Hd].
    rewrite Hc', (IH Hd). reflexivity.
Qed.

Lemma parseInt_digits (d : string) :
  all_digits d = true -> d <> EmptyString ->
  parseInt d = Num (digits_value d 0).
Proof.
  intros Hd Hne. unfold parseInt. rewrite span_digits_all by exact Hd.
  simpl. destruct d; [congruence | reflexivity].
Qed.

Lemma parseInt_decimal (n : Z) : 0 <= n -> parseInt (decimal n) = Num n.
Proof.
  intros Hn.
  rewrite parseInt_digits
    by (auto using decimal_all_digits, decimal_nonempty).
  now rewrite digits_value_decimal.
Qed.

Lemma strip_prefix_app (p s : string) :
  strip_prefix p (p +:+ s) = Some s.
Proof.
  induction p as [| c p IH]; simpl; [reflexivity |].
  now rewrite Ascii.eqb_refl.
Qed.

Lemma range_match_of_here (s : string) (m : string * string) :
  range_match_here s = Some m -> range_match s = Some m.
Proof.
  intros H. destruct s as [| c s]; [discriminate H |].
  change (range_match (String c s))
    with (match range_match_here (String c s) with
          | Some m' => Some m'
          | None => range_match s
          end).
  now rewrite H.
Qed.

(** The single-range forms, as the pattern captures them: both groups are
    digit strings, either of which may be empty. *)
Lemma range_match_both (d1 d2 : string) :
  all_digits d1 = true -> all_digits d2 = true ->
  range_match ("bytes=" +:+ d1 +:+ "-" +:+ d2) = Some (d1, d2).
Proof.
  intros H1 H2. apply range_match_of_here.
  unfold range_match_here. rewrite strip_prefix_app.
  change ("-" +:+ d2) with (String "-" d2).
  rewrite span_digits_app by (exact H1 || reflexivity).
  change (String "-" d2) with ("-" +:+ d2).
  rewrite strip_prefix_app, span_digits_all by exact H2.
  reflexivity.
Qed.

End Digits.

(** ** Response headers *)

Section HeaderLookups.

Lemma buildRangeHeaders_content_range ct start end_ total cc :
  buildRangeHeaders ct start end_ total cc !! "Content-Range"
  = Some ("bytes " +:+ toString start +:+ "-" +:+ toString end_
                   +:+ "/" +:+ toString total).
Proof.
  unfold buildRangeHeaders, Headers_of.
  cbn [foldl app corsHeaders fst snd]. by simplify_map_eq.
Qed.

Lemma buildRangeHeaders_content_length ct start end_ total cc :
  buildRangeHeaders ct start end_ total cc !! "Content-Length"
  = Some (toString (JsNum.add (JsNum.sub end_ start) (Num 1))).
Proof.
  unfold buildRangeHeaders, Headers_of.
  cbn [foldl app corsHeaders fst snd]. by simplify_map_eq.
Qed.

Lemma buildResponseHeaders_x_cache ct len cc st :
  buildResponseHeaders ct len cc st !! "X-Cache" = Some st.
Proof.
  unfold buildResponseHeaders, Headers_of.
  cbn [foldl app corsHeaders fst snd]. by simplify_map_eq.
Qed.

Lemma buildResponseHeaders_content_range ct len cc st :
  buildResponseHeaders ct len cc st !! "Content-Range" = None.
Proof.
  unfold buildResponseHeaders, Headers_of.
  cbn [foldl app corsHeaders fst snd]. by simplify_map_eq.
Qed.

Lemma jsonResponse_status o st : status (jsonResponse o st) = st.
Proof. reflexivity. Qed.

Lemma jsonResponse_x_cache o st :
  headers (jsonResponse o st) !! "X-Cache" = None.
Proof. by vm_compute. Qed.

Lemma jsonResponse_content_range o st :
  headers (jsonResponse o st) !! "Content-Range" = None.
Proof. by vm_compute. Qed.

End HeaderLookups.

(** ** Range requests *)

Section RangeRequests.

Variable caches : gmap string Response.
Variable request : Request.
Variable env : Env.
Variable fileKey contentType cacheControl : string.

Lemma truthy_nonempty (s : string) : s <> EmptyString -> truthy s = true.
Proof.
  intros Hs. unfold truthy. apply negb_true_iff. now apply String.eqb_neq.
Qed.

Lemma rangeInvalid_false (a e S : Z) :
  0 <= a <= e -> a < S -> rangeInvalid (Num a) (Num e) (Num S) = false.
Proof.
  intros Hae HS. unfold rangeInvalid. simpl. rewrite Z.geb_leb.
  destruct (Z.leb_spec S a), (Z.ltb_spec a 0), (Z.ltb_spec e a);
    simpl; lia || reflexivity.
Qed.

Lemma rangeResponse_partial_content (a e S : Z) (stream : list Byte.byte) :
  partial_content
    (rangeResponse contentType (Num a) (Num e) (Num S) cacheControl stream)
    a e S.
Proof.
  unfold partial_content, rangeResponse. simpl.
  rewrite buildRangeHeaders_content_range,
          buildRangeHeaders_content_length.
  auto.
Qed.

(** A satisfiable range that is not answered from the first-chunk cache:
    one range read of exactly the resolved interval, a 206 built from it,
    and a background write of the first chunk when it is at most 512 KiB. *)
Lemma handleRangeRequest_fetch
  (b : R2Bucket) (h : string) (S a e : Z) (o : R2ObjectBody)
  (stream : list Byte.byte) :
  parseRange h contentType (Num S) = Some (Num a, Num e) ->
  0 <= a <= e -> a < S ->
  (a = 0 -> caches !! rangeCacheUrl fileKey (Num e) = None) ->
  bucket env = Some b ->
  r2_get_range b fileKey (Num a) (Num (e - a + 1)) = Return (Some o) ->
  obj_body o = Some stream ->
  let response :=
    rangeResponse contentType (Num a) (Num e) (Num S) cacheControl stream in
  handleRangeRequest caches request env fileKey h contentType (Num S)
                     cacheControl
  = ((if a =? 0 then [CacheMatch (rangeCacheUrl fileKey (Num e))] else [])
       ++ [BucketGetRange fileKey (Num a) (Num (e - a + 1))]
       ++ (if (a =? 0) && (e - a + 1 <=? 512 * 1024)
           then [CachePut (rangeCacheUrl fileKey (Num e)) response]
           else []),
     Return response)%list.
Proof.
  intros Hparse Hae HS Hcold Hb Hget Hbody response.
  unfold handleRangeRequest. rewrite Hparse.
  rewrite rangeInvalid_false by assumption.
  rewrite Hb. unfold JsNum.strict_eq.
  destruct (Z.eqb_spec a 0) as [-> | Hne].
  - unfold cache_match. rewrite (Hcold eq_refl). simpl.
    rewrite Hget. simpl. rewrite Hbody. simpl.
    fold (rangeResponse contentType (Num 0) (Num e) (Num S) cacheControl
                        stream).
    replace (e - 0 + 1) with (e + 1) by lia.
    destruct (e + 1 <=? _); reflexivity.
  - simpl. rewrite Hget. simpl. rewrite Hbody. simpl. reflexivity.
Qed.

(** A first chunk held by the edge cache is returned as it is, and the
    object store is not read. *)
Lemma handleRangeRequest_cached
  (h : string) (S e : Z) (chunk : Response) :
  parseRange h contentType (Num S) = Some (Num 0, Num e) ->
  0 <= e -> 0 < S ->
  caches !! rangeCacheUrl fileKey (Num e) = Some chunk ->
  handleRangeRequest caches request env fileKey h contentType (Num S)
                     cacheControl
  = ([CacheMatch (rangeCacheUrl fileKey (Num e))], Return chunk).
Proof.
  intros Hparse He HS Hhit.
  unfold handleRangeRequest. rewrite Hparse.
  rewrite rangeInvalid_false by lia.
  simpl. unfold cache_match. rewrite Hhit. reflexivity.
Qed.

(** [bytes=A-B] with both ends written in decimal. *)
Lemma parseRange_explicit (A B : Z) (total : number) :
  0 <= A -> 0 <= B ->
  parseRange ("bytes=" +:+ toString (Num A) +:+ "-" +:+ toString (Num B))
             contentType total
  = Some (Num A, Num B).
Proof.
  intros HA HB. unfold parseRange.
  rewrite !toString_nonneg by assumption.
  rewrite range_match_both by auto using decimal_all_digits.
  unfold rangeBounds.
  rewrite (proj2 (String.eqb_neq _ _) (decimal_nonempty A)).
  rewrite truthy_nonempty by apply decimal_nonempty.
  simpl. now rewrite !parseInt_decimal.
Qed.

(** [bytes=-N], the suffix form. *)
Lemma parseRange_suffix (N : string) (S : Z) :
  all_digits N = true -> N <> EmptyString ->
  parseRange ("bytes=-" +:+ N) contentType (Num S)
  = Some (Num (Z.max (S - digits_value N 0) 0), Num (S - 1)).
Proof.
  intros HN Hne. unfold parseRange.
  change ("bytes=-" +:+ N) with ("bytes=" +:+ EmptyString +:+ "-" +:+ N).
  rewrite range_match_both by auto.
  unfold rangeBounds.
  rewrite (proj2 (String.eqb_neq _ _) Hne).
  simpl. now rewrite parseInt_digits.
Qed.

(** [bytes=N-], the open-ended form. *)
Lemma parseRange_open (N S : Z) :
  0 <= N ->
  parseRange ("bytes=" +:+ toString (Num N) +:+ "-") contentType (Num S)
  = Some (Num N,
          Num (Z.min (N + chunkSizeOf contentType - 1) (S - 1))).
Proof.
  intros HN. unfold parseRange.
  rewrite toString_nonneg by assumption.
  change ("bytes=" +:+ decimal N +:+ "-")
    with ("bytes=" +:+ decimal N +:+ "-" +:+ EmptyString).
  rewrite range_match_both by auto using decimal_all_digits.
  unfold rangeBounds.
  rewrite (proj2 (String.eqb_neq _ _) (decimal_nonempty N)).
  simpl. now rewrite parseInt_decimal.
Qed.

End RangeRequests.

(** ** Satisfiable and unsatisfiable ranges *)

(** The header [bytes=A-B] is answered with the range [A]-[B] as soon as
    [A <= B] and [A] is within the object: the validity test does not look
    at [B] beyond that. *)
Lemma explicit_range_served
  (caches : gmap string Response) (request : Request) (env : Env)
  (b : R2Bucket) (fileKey contentType cacheControl : string) (A B S : Z)
  (o : R2ObjectBody) (stream : list Byte.byte) :
  0 <= A <= B -> A < S ->
  bucket env = Some b ->
  r2_get_range b fileKey (Num A) (Num (B - A + 1)) = Return (Some o) ->
  obj_body o = Some stream ->
  first_chunk_cache_ok caches fileKey S ->
  exists response,
    Eff.result
      (handleRangeRequest caches request env fileKey
         ("bytes=" +:+ toString (Num A) +:+ "-" +:+ toString (Num B))
         contentType (Num S) cacheControl)
    = Return response /\
    partial_content response A B S.
Proof.
  intros HAB HAS Hb Hget Hbody Hcache.
  pose proof (parseRange_explicit contentType A B (Num S)
                ltac:(lia) ltac:(lia)) as Hparse.
  destruct (Z.eq_dec A 0) as [-> | HA].
  - destruct (caches !! rangeCacheUrl fileKey (Num B)) as [chunk |] eqn:Hhit.
    + exists chunk. split.
      * erewrite handleRangeRequest_cached by (eassumption || lia).
        reflexivity.
      * apply (Hcache B chunk); [lia | exact Hhit].
    + eexists. split.
      * erewrite handleRangeRequest_fetch by (eauto || lia). reflexivity.
      * apply rangeResponse_partial_content.
  - eexists. split.
    + erewrite handleRangeRequest_fetch by (eauto || lia). reflexivity.
    + apply rangeResponse_partial_content.
Qed.

(** C1. For an object of [S] bytes and the header [bytes=A-B] with
    [0 <= A <= B < S], [handleRangeRequest] answers 206 with
    [Content-Range: bytes A-B/S] and [Content-Length] equal to [B-A+1].
    The object store is taken to deliver the range it is asked for, and the
    first-chunk cache to hold only what this handler stored for the object;
    [S] is within the integers a JS number carries exactly. *)
Theorem handleRangeRequest_valid_range_206
  (caches : gmap string Response) (request : Request) (env : Env)
  (b : R2Bucket) (fileKey contentType cacheControl : string) (A B S : Z)
  (o : R2ObjectBody) (stream : list Byte.byte) :
  0 <= A <= B -> B < S -> S <= MAX_SAFE_INTEGER ->
  bucket env = Some b ->
  r2_get_range b fileKey (Num A) (Num (B - A + 1)) = Return (Some o) ->
  obj_body o = Some stream ->
  first_chunk_cache_ok caches fileKey S ->
  exists response,
    Eff.result
      (handleRangeRequest caches request env fileKey
         ("bytes=" +:+ toString (Num A) +:+ "-" +:+ toString (Num B))
         contentType (Num S) cacheControl)
    = Return response /\
    partial_content response A B S.
Proof.
  intros HAB HBS _ Hb Hget Hbody Hcache.
  apply (explicit_range_served caches request env b fileKey contentType
           cacheControl A B S o stream); (assumption || lia).
Qed.

Lemma handleRangeRequest_valid_range_206_witness :
  exists response,
    Eff.result
      (handleRangeRequest ∅ (Sample.ranged "bytes=0-99")
         {| bucket := Some (Sample.store 1000 "video/mp4"); KV := None |}
         "celebrity/clip.mp4" "bytes=0-99" "video/mp4" (Num 1000)
         Sample.cacheControl)
    = Return response /\
    partial_content response 0 99 1000.
Proof.
  apply (handleRangeRequest_valid_range_206
           ∅ (Sample.ranged "bytes=0-99")
           {| bucket := Some (Sample.store 1000 "video/mp4"); KV := None |}
           (Sample.store 1000 "video/mp4")
           "celebrity/clip.mp4" "video/mp4" Sample.cacheControl 0 99 1000
           {| obj_body := Some (Sample.zero_filled (Num 100)) |}
           (Sample.zero_filled (Num 100))).
  - lia.
  - lia.
  - vm_compute. discriminate.
  - reflexivity.
  - reflexivity.
  - reflexivity.
  - intros e chunk _ Hhit. rewrite lookup_empty in Hhit. discriminate.
Defined.

(** C2, as the handler behaves: a header the range pattern does not match
    is answered 400 with the body [Invalid range]; the answer carries no
    [Content-Range] header, and neither the object store nor the edge cache
    is consulted. *)
Theorem handleRangeRequest_malformed_400
  (caches : gmap string Response) (request : Request) (env : Env)
  (fileKey rangeHeader contentType : string) (totalSize : number)
  (cacheControl : string) :
  range_match rangeHeader = None ->
  exists response,
    handleRangeRequest caches request env fileKey rangeHeader contentType
                       totalSize cacheControl
    = ([], Return response) /\
    status response = 400 /\
    resp_body response = Some (BodyText "Invalid range") /\
    headers response !! "Content-Range" = None.
Proof.
  intros Hno. unfold handleRangeRequest, parseRange. rewrite Hno.
  eexists. split; [reflexivity |]. repeat split.
Qed.

Lemma handleRangeRequest_malformed_400_witness :
  exists response,
    handleRangeRequest ∅ (Sample.ranged "items=0-5")
      {| bucket := Some (Sample.store 100 "video/mp4"); KV := None |}
      "celebrity/clip.mp4" "items=0-5" "video/mp4" (Num 100)
      Sample.cacheControl
    = ([], Return response) /\
    status response = 400 /\
    resp_body response = Some (BodyText "Invalid range") /\
    headers response !! "Content-Range" = None.
Proof.
  apply (handleRangeRequest_malformed_400
           ∅ (Sample.ranged "items=0-5")
           {| bucket := Some (Sample.store 100 "video/mp4"); KV := None |}
           "celebrity/clip.mp4" "items=0-5" "video/mp4" (Num 100)
           Sample.cacheControl).
  reflexivity.
Defined.

(** C2 as stated fails: the header [items=0-5] on an object of 100 bytes is
    not answered 416 with [Content-Range: bytes */100]. *)
Lemma malformed_range_is_not_answered_416 :
  ~ exists response,
      Eff.result
        (handleRangeRequest ∅ (Sample.ranged "items=0-5")
           {| bucket := Some (Sample.store 100 "video/mp4"); KV := None |}
           "celebrity/clip.mp4" "items=0-5" "video/mp4" (Num 100)
           Sample.cacheControl)
      = Return response /\
      status response = 416 /\
      headers response !! "Content-Range" = Some "bytes */100".
Proof.
  intros (response & Hres & Hstatus & _).
  vm_compute in Hres. injection Hres as <-.
  vm_compute in Hstatus. discriminate.
Qed.

(** A matched header whose range fails the validity test is answered 416
    with the total size, and nothing is read. *)
Lemma handleRangeRequest_unsatisfiable_416
  (caches : gmap string Response) (request : Request) (env : Env)
  (fileKey rangeHeader contentType cacheControl : string)
  (totalSize start end_ : number) :
  parseRange rangeHeader contentType totalSize = Some (start, end_) ->
  rangeInvalid start end_ totalSize = true ->
  exists response,
    handleRangeRequest caches request env fileKey rangeHeader contentType
                       totalSize cacheControl
    = ([], Return response) /\
    status response = 416 /\
    resp_body response = None /\
    headers response !! "Content-Range"
    = Some ("bytes */" +:+ toString totalSize).
Proof.
  intros Hparse Hinvalid. unfold handleRangeRequest.
  rewrite Hparse, Hinvalid. eexists. split; [reflexivity |].
  split; [reflexivity |]. split; [reflexivity |].
  unfold new_Response, Headers_of.
  cbn [headers foldl corsHeaders fst snd]. by simplify_map_eq.
Qed.

Example start_beyond_size_is_416 :
  parseRange "bytes=200-300" "video/mp4" (Num 100)
  = Some (Num 200, Num 300) /\
  rangeInvalid (Num 200) (Num 300) (Num 100) = true.
Proof. split; reflexivity. Qed.

Example end_before_start_is_416 :
  parseRange "bytes=50-20" "video/mp4" (Num 100) = Some (Num 50, Num 20) /\
  rangeInvalid (Num 50) (Num 20) (Num 100) = true.
Proof. split; reflexivity. Qed.

(** C3. The failing input: [bytes=0-199] on a video object of 100 bytes.
    The explicit end 199 is beyond the last byte 99, yet the validity test
    lets it through: the handler asks the object store for 200 bytes and
    answers 206 with [Content-Range: bytes 0-199/100] and
    [Content-Length: 200]. *)
Theorem explicit_end_beyond_size_is_served :
  let outcome :=
    handleRangeRequest ∅ (Sample.ranged "bytes=0-199")
      {| bucket := Some (Sample.store 100 "video/mp4"); KV := None |}
      "celebrity/clip.mp4" "bytes=0-199" "video/mp4" (Num 100)
      Sample.cacheControl in
  parseRange "bytes=0-199" "video/mp4" (Num 100) = Some (Num 0, Num 199) /\
  rangeInvalid (Num 0) (Num 199) (Num 100) = false /\
  In (BucketGetRange "celebrity/clip.mp4" (Num 0) (Num 200)) (Eff.trace outcome) /\
  exists response,
    Eff.result outcome = Return response /\
    status response = 206 /\
    headers response !! "Content-Range" = Some "bytes 0-199/100" /\
    headers response !! "Content-Length" = Some "200".
Proof.
  cbv zeta.
  rewrite (handleRangeRequest_fetch
             ∅ (Sample.ranged "bytes=0-199")
             {| bucket := Some (Sample.store 100 "video/mp4"); KV := None |}
             "celebrity/clip.mp4" "video/mp4" Sample.cacheControl
             (Sample.store 100 "video/mp4") "bytes=0-199" 100 0 199
             {| obj_body := Some (Sample.zero_filled (Num 200)) |}
             (Sample.zero_filled (Num 200)));
    try reflexivity; try lia.
  repeat split.
  - simpl. right. left. reflexivity.
  - eexists. split; [reflexivity |].
    destruct (rangeResponse_partial_content
                "video/mp4" Sample.cacheControl 0 199 100
                (Sample.zero_filled (Num 200))) as (Hs & Hr & Hl).
    repeat split; assumption.
Qed.

(** The open-ended and the suffix forms keep the end within the object. *)
Lemma parseRange_open_end_within (contentType : string) (N S : Z) :
  0 <= N ->
  exists e, parseRange ("bytes=" +:+ toString (Num N) +:+ "-") contentType
                       (Num S) = Some (Num N, Num e) /\ e <= S - 1.
Proof.
  intros HN. eexists. split; [now apply parseRange_open | lia].
Qed.

(** ** The first-chunk cache *)

(** A first chunk of at most 512 KiB is written to the edge cache, and the
    same request is then answered from it without a range read. *)
Lemma first_chunk_within_limit_replayed
  (caches : gmap string Response) (request : Request) (env : Env)
  (b : R2Bucket) (fileKey h contentType cacheControl : string) (S e : Z)
  (o : R2ObjectBody) (stream : list Byte.byte) :
  parseRange h contentType (Num S) = Some (Num 0, Num e) ->
  0 <= e -> 0 < S -> e + 1 <= 512 * 1024 ->
  caches !! rangeCacheUrl fileKey (Num e) = None ->
  bucket env = Some b ->
  r2_get_range b fileKey (Num 0) (Num (e - 0 + 1)) = Return (Some o) ->
  obj_body o = Some stream ->
  let first :=
    handleRangeRequest caches request env fileKey h contentType (Num S)
                       cacheControl in
  let caches' := run_background (Eff.trace first) caches in
  handleRangeRequest caches' request env fileKey h contentType (Num S)
                     cacheControl
  = ([CacheMatch (rangeCacheUrl fileKey (Num e))],
     Return (rangeResponse contentType (Num 0) (Num e) (Num S) cacheControl
                           stream)).
Proof.
  intros Hparse He HS Hsmall Hcold Hb Hget Hbody first caches'.
  subst caches' first.
  rewrite (handleRangeRequest_fetch
             caches request env fileKey contentType cacheControl
             b h S 0 e o stream Hparse ltac:(lia) HS (fun _ => Hcold)
             Hb Hget Hbody).
  replace (e - 0 + 1 <=? 512 * 1024) with true
    by (symmetry; apply Z.leb_le; lia).
  cbn [Z.eqb andb app Eff.trace fst run_background foldl].
  apply handleRangeRequest_cached; try assumption.
  apply lookup_insert_eq.
Qed.

(** C4, as the handler behaves.  For a video object of 52428800 bytes and
    [bytes=0-2097151], with no first chunk cached yet: the answer is 206
    with [Content-Range: bytes 0-2097151/52428800] and length 2097152; the
    chunk is larger than the 512 KiB the first-chunk cache accepts, so no
    cache write is started and the cache is unchanged; the repeated request
    runs exactly as the first one and reads the range from the object store
    again. *)
Theorem first_chunk_2MiB_not_cached
  (caches : gmap string Response) (request : Request) (env : Env)
  (b : R2Bucket) (fileKey contentType cacheControl : string)
  (o : R2ObjectBody) (stream : list Byte.byte) :
  caches !! rangeCacheUrl fileKey (Num 2097151) = None ->
  bucket env = Some b ->
  r2_get_range b fileKey (Num 0) (Num 2097152) = Return (Some o) ->
  obj_body o = Some stream ->
  let first :=
    handleRangeRequest caches request env fileKey "bytes=0-2097151"
                       contentType (Num 52428800) cacheControl in
  let caches' := run_background (Eff.trace first) caches in
  let second :=
    handleRangeRequest caches' request env fileKey "bytes=0-2097151"
                       contentType (Num 52428800) cacheControl in
  (exists response,
     Eff.result first = Return response /\
     partial_content response 0 2097151 52428800) /\
  existsb is_cache_put (Eff.trace first) = false /\
  caches' = caches /\
  second = first /\
  In (BucketGetRange fileKey (Num 0) (Num 2097152)) (Eff.trace second).
Proof.
  intros Hcold Hb Hget Hbody.
  assert (Hfirst :
    handleRangeRequest caches request env fileKey "bytes=0-2097151"
                       contentType (Num 52428800) cacheControl
    = ([CacheMatch (rangeCacheUrl fileKey (Num 2097151));
        BucketGetRange fileKey (Num 0) (Num 2097152)],
       Return (rangeResponse contentType (Num 0) (Num 2097151)
                             (Num 52428800) cacheControl stream))).
  { rewrite (handleRangeRequest_fetch
               caches request env fileKey contentType cacheControl
               b "bytes=0-2097151" 52428800 0 2097151 o stream);
      try reflexivity; try assumption; try lia.
    intros _. exact Hcold. }
  cbv zeta. rewrite Hfirst.
  cbn [Eff.trace Eff.result fst snd run_background foldl existsb
       is_cache_put orb].
  rewrite Hfirst.
  repeat split.
  - eexists. split; [reflexivity | apply rangeResponse_partial_content].
  - simpl. right. left. reflexivity.
Qed.

Lemma first_chunk_2MiB_not_cached_witness :
  let env :=
    {| bucket := Some (Sample.store 52428800 "video/mp4"); KV := None |} in
  let first :=
    handleRangeRequest ∅ (Sample.ranged "bytes=0-2097151") env
      "celebrity/film.mp4" "bytes=0-2097151" "video/mp4" (Num 52428800)
      Sample.cacheControl in
  let caches' := run_background (Eff.trace first) ∅ in
  let second :=
    handleRangeRequest caches' (Sample.ranged "bytes=0-2097151") env
      "celebrity/film.mp4" "bytes=0-2097151" "video/mp4" (Num 52428800)
      Sample.cacheControl in
  (exists response,
     Eff.result first = Return response /\
     partial_content response 0 2097151 52428800) /\
  existsb is_cache_put (Eff.trace first) = false /\
  caches' = ∅ /\
  second = first /\
  In (BucketGetRange "celebrity/film.mp4" (Num 0) (Num 2097152))
     (Eff.trace second).
Proof.
  apply (first_chunk_2MiB_not_cached
           ∅ (Sample.ranged "bytes=0-2097151")
           {| bucket := Some (Sample.store 52428800 "video/mp4");
              KV := None |}
           (Sample.store 52428800 "video/mp4")
           "celebrity/film.mp4" "video/mp4" Sample.cacheControl
           {| obj_body := Some (Sample.zero_filled (Num 2097152)) |}
           (Sample.zero_filled (Num 2097152))).
  - apply lookup_empty.
  - reflexivity.
  - reflexivity.
  - reflexivity.
Defined.

(** C4 as stated fails: after the first request the 2 MiB chunk is not in
    the first-chunk cache, and the repeated request is not served without
    an object-store range read. *)
Lemma first_chunk_2MiB_replay_reads_the_store :
  let env :=
    {| bucket := Some (Sample.store 52428800 "video/mp4"); KV := None |} in
  let first :=
    handleRangeRequest ∅ (Sample.ranged "bytes=0-2097151") env
      "celebrity/film.mp4" "bytes=0-2097151" "video/mp4" (Num 52428800)
      Sample.cacheControl in
  let caches' := run_background (Eff.trace first) ∅ in
  let second :=
    handleRangeRequest caches' (Sample.ranged "bytes=0-2097151") env
      "celebrity/film.mp4" "bytes=0-2097151" "video/mp4" (Num 52428800)
      Sample.cacheControl in
  ~ (is_Some (caches' !! rangeCacheUrl "celebrity/film.mp4" (Num 2097151)) /\
     existsb is_range_read (Eff.trace second) = false).
Proof.
  assert (Hfirst :
    handleRangeRequest ∅ (Sample.ranged "bytes=0-2097151")
      {| bucket := Some (Sample.store 52428800 "video/mp4"); KV := None |}
      "celebrity/film.mp4" "bytes=0-2097151" "video/mp4" (Num 52428800)
      Sample.cacheControl
    = ([CacheMatch (rangeCacheUrl "celebrity/film.mp4" (Num 2097151));
        BucketGetRange "celebrity/film.mp4" (Num 0) (Num 2097152)],
       Return (rangeResponse "video/mp4" (Num 0) (Num 2097151)
                 (Num 52428800) Sample.cacheControl
                 (Sample.zero_filled (Num 2097152))))).
  { rewrite (handleRangeRequest_fetch
               ∅ (Sample.ranged "bytes=0-2097151")
               {| bucket := Some (Sample.store 52428800 "video/mp4");
                  KV := None |}
               "celebrity/film.mp4" "video/mp4" Sample.cacheControl
               (Sample.store 52428800 "video/mp4")
               "bytes=0-2097151" 52428800 0 2097151
               {| obj_body := Some (Sample.zero_filled (Num 2097152)) |}
               (Sample.zero_filled (Num 2097152)));
      try reflexivity; try lia. }
  cbv zeta. rewrite Hfirst.
  cbn [Eff.trace fst run_background foldl]. rewrite Hfirst.
  intros [_ Hnone]. discriminate Hnone.
Qed.

(** ** The suffix and open-ended forms *)

(** C5. For the suffix header [bytes=-N], [N] a non-empty digit string, on
    an object of [S] bytes, the range [handleRangeRequest] computes is
    [max(S-N, 0)] to [S-1].  [S] is a size a JS number carries exactly. *)
Theorem suffix_range_effective (contentType N : string) (S : Z) :
  all_digits N = true -> N <> EmptyString ->
  0 <= S <= MAX_SAFE_INTEGER ->
  parseRange ("bytes=-" +:+ N) contentType (Num S)
  = Some (Num (Z.max (S - digits_value N 0) 0), Num (S - 1)).
Proof.
  intros HN Hne _. now apply parseRange_suffix.
Qed.

Lemma suffix_range_effective_witness :
  parseRange "bytes=-500" "audio/mpeg" (Num 10000)
  = Some (Num 9500, Num 9999).
Proof.
  apply (suffix_range_effective "audio/mpeg" "500" 10000).
  - reflexivity.
  - discriminate.
  - vm_compute. split; discriminate.
Defined.

(** The suffix range is the one read and answered, when there is one: the
    object is not empty and [N] is not zero. *)
Lemma suffix_range_served
  (caches : gmap string Response) (request : Request) (env : Env)
  (b : R2Bucket) (fileKey contentType cacheControl N : string) (S : Z)
  (o : R2ObjectBody) (stream : list Byte.byte) :
  all_digits N = true -> N <> EmptyString ->
  0 < S -> 0 < digits_value N 0 ->
  let start := Z.max (S - digits_value N 0) 0 in
  (start = 0 -> caches !! rangeCacheUrl fileKey (Num (S - 1)) = None) ->
  bucket env = Some b ->
  r2_get_range b fileKey (Num start) (Num (S - 1 - start + 1))
  = Return (Some o) ->
  obj_body o = Some stream ->
  In (BucketGetRange fileKey (Num start) (Num (S - 1 - start + 1)))
     (Eff.trace
        (handleRangeRequest caches request env fileKey ("bytes=-" +:+ N)
           contentType (Num S) cacheControl)) /\
  Eff.result
    (handleRangeRequest caches request env fileKey ("bytes=-" +:+ N)
       contentType (Num S) cacheControl)
  = Return (rangeResponse contentType (Num start) (Num (S - 1)) (Num S)
                          cacheControl stream).
Proof.
  intros HN Hne HS Hv start Hcold Hb Hget Hbody.
  rewrite (handleRangeRequest_fetch
             caches request env fileKey contentType cacheControl
             b ("bytes=-" +:+ N) S start (S - 1) o stream
             (parseRange_suffix contentType N S HN Hne)
             ltac:(subst start; lia) ltac:(subst start; lia)
             Hcold Hb Hget Hbody).
  split; [| reflexivity].
  cbn [Eff.trace fst]. apply in_or_app. right. left. reflexivity.
Qed.

Example suffix_longer_than_object :
  parseRange "bytes=-500" "video/mp4" (Num 120) = Some (Num 0, Num 119).
Proof. reflexivity. Qed.

(** C6. For the open-ended header [bytes=N-] with [0 <= N < totalSize], the
    end offset is [min(N + chunkSize - 1, totalSize - 1)], with a chunk of
    2 MiB for [video/], 512 KiB for [audio/] and 1 MiB for anything else.
    The total size is one a JS number carries exactly. *)
Theorem open_ended_range_effective (contentType : string) (N S : Z) :
  0 <= N < S -> S <= MAX_SAFE_INTEGER ->
  parseRange ("bytes=" +:+ toString (Num N) +:+ "-") contentType (Num S)
  = Some (Num N, Num (Z.min (N + chunkSizeOf contentType - 1) (S - 1))) /\
  chunkSizeOf contentType
  = (if startsWith contentType "video/" then 2097152
     else if startsWith contentType "audio/" then 524288
     else 1048576).
Proof.
  intros HN _. split.
  - apply parseRange_open. lia.
  - unfold chunkSizeOf.
    destruct (startsWith contentType "video/"); [reflexivity |].
    destruct (startsWith contentType "audio/"); reflexivity.
Qed.

Lemma open_ended_range_effective_witness :
  parseRange "bytes=1000-" "audio/mpeg" (Num 52428800)
  = Some (Num 1000, Num (Z.min (1000 + chunkSizeOf "audio/mpeg" - 1)
                               (52428800 - 1))) /\
  chunkSizeOf "audio/mpeg"
  = (if startsWith "audio/mpeg" "video/" then 2097152
     else if startsWith "audio/mpeg" "audio/" then 524288
     else 1048576).
Proof.
  apply (open_ended_range_effective "audio/mpeg" 1000 52428800).
  - lia.
  - vm_compute. discriminate.
Defined.

Example open_ended_video_chunk :
  parseRange "bytes=1000-" "video/mp4" (Num 52428800)
  = Some (Num 1000, Num 2098151).
Proof. reflexivity. Qed.

Example open_ended_capped_at_last_byte :
  parseRange "bytes=1000-" "video/mp4" (Num 5000) = Some (Num 1000, Num 4999).
Proof. reflexivity. Qed.

(** C10. The header [bytes=-] has both groups empty.  The pattern matches,
    [start] and [end] are [NaN], no comparison of the validity test holds,
    the first-chunk cache is not consulted, and the handler goes on to ask
    the object store for a range at offset [NaN]; its answer is then neither
    the 400 nor the 416. *)
Theorem empty_groups_range_reaches_store
  (caches : gmap string Response) (request : Request) (b : R2Bucket)
  (kv : option KVNamespace) (fileKey contentType cacheControl : string)
  (totalSize : number) :
  let outcome :=
    handleRangeRequest caches request {| bucket := Some b; KV := kv |}
      fileKey "bytes=-" contentType totalSize cacheControl in
  range_match "bytes=-" = Some (EmptyString, EmptyString) /\
  parseInt EmptyString = NaN /\
  parseRange "bytes=-" contentType totalSize = Some (NaN, NaN) /\
  (JsNum.ge NaN totalSize = false /\
   JsNum.lt NaN (Num 0) = false /\
   JsNum.lt NaN NaN = false) /\
  rangeInvalid NaN NaN totalSize = false /\
  Eff.trace outcome = [BucketGetRange fileKey NaN NaN] /\
  forall response,
    Eff.result outcome = Return response ->
    status response <> 400 /\ status response <> 416.
Proof.
  assert (Hparse : parseRange "bytes=-" contentType totalSize
                   = Some (NaN, NaN)) by reflexivity.
  cbv zeta. unfold handleRangeRequest. rewrite Hparse.
  change (rangeInvalid NaN NaN totalSize) with false.
  cbn [JsNum.strict_eq JsNum.sub JsNum.add bucket].
  split; [reflexivity |]. split; [reflexivity |]. split; [reflexivity |].
  split; [repeat split |]. split; [reflexivity |].
  destruct (r2_get_range b fileKey NaN NaN) as [[o |] | e];
    [destruct o as [[stream |]] | |]; cbn.
  - split; [reflexivity |]. intros response [= <-]. split; discriminate.
  - split; [reflexivity |]. intros response [= <-]. split; discriminate.
  - split; [reflexivity |]. intros response [= <-]. split; discriminate.
  - split; [reflexivity |]. intros response [=].
Qed.

Example empty_groups_range_on_sample_store :
  handleRangeRequest ∅ (Sample.ranged "bytes=-")
    {| bucket := Some (Sample.store 100 "video/mp4"); KV := None |}
    "celebrity/clip.mp4" "bytes=-" "video/mp4" (Num 100) Sample.cacheControl
  = ([BucketGetRange "celebrity/clip.mp4" NaN NaN],
     Return (rangeResponse "video/mp4" NaN NaN (Num 100) Sample.cacheControl
                           [])).
Proof. reflexivity. Qed.

(** ** The streaming entry point *)

Section Strings.

Lemma prefix_app (p q : string) : String.prefix p (p +:+ q) = true.
Proof.
  induction p as [| c p IH]; simpl; [destruct q; reflexivity |].
  destruct (ascii_dec c c); [exact IH | congruence].
Qed.

Lemma prefix_inv (p s : string) :
  String.prefix p s = true -> exists q, s = p +:+ q.
Proof.
  revert s. induction p as [| c p IH]; intros s H.
  - now exists s.
  - destruct s as [| c' s]; [discriminate |]. simpl in H.
    destruct (ascii_dec c c') as [<- |]; [| discriminate].
    destruct (IH s H) as [q ->]. now exists q.
Qed.

Lemma includes_unfold (s sub : string) :
  includes s sub
  = String.prefix sub s ||
    match s with
    | String _ s' => includes s' sub
    | EmptyString => false
    end.
Proof. destruct s; reflexivity. Qed.

(** [includes] is substring containment. *)
Lemma includes_spec (s sub : string) :
  includes s sub = true <-> exists p q, s = p +:+ sub +:+ q.
Proof.
  split.
  - induction s as [| c s IH]; rewrite includes_unfold; intros H.
    + rewrite orb_false_r in H. apply prefix_inv in H as [q Hq].
      now exists EmptyString, q.
    + apply orb_prop in H as [H | H].
      * apply prefix_inv in H as [q Hq]. now exists EmptyString, q.
      * destruct (IH H) as (p & q & ->). now exists (String c p), q.
  - intros (p & q & ->). induction p as [| c p IH].
    + change (EmptyString +:+ sub +:+ q) with (sub +:+ q).
      rewrite includes_unfold, prefix_app. reflexivity.
    + change (String c p +:+ sub +:+ q) with (String c (p +:+ sub +:+ q)).
      rewrite includes_unfold, IH. apply orb_true_r.
Qed.

(** The three media prefixes exclude one another. *)
Lemma image_is_not_video_or_audio (ct : string) :
  startsWith ct "image/" = true ->
  startsWith ct "video/" = false /\ startsWith ct "audio/" = false.
Proof.
  unfold startsWith. intros H.
  apply prefix_inv in H as [q ->]. split; reflexivity.
Qed.

End Strings.

(** C7. A file key that is empty or contains the traversal token [..] is
    answered 400, and no call is made on the object store or on any other
    collaborator. *)
Theorem invalid_file_key_400
  (caches : gmap string Response) (request : Request) (env : Env)
  (fileKey : string) :
  fileKey = EmptyString \/ (exists p q, fileKey = p +:+ ".." +:+ q) ->
  exists response,
    handleFileStream caches request env fileKey = ([], Return response) /\
    status response = 400.
Proof.
  intros Hbad.
  assert (Hguard : negb (truthy fileKey) || includes fileKey ".." = true).
  { destruct Hbad as [-> | Hdots]; [reflexivity |].
    apply (includes_spec fileKey "..") in Hdots. rewrite Hdots.
    apply orb_true_r. }
  unfold handleFileStream, handleFileStream_try. rewrite Hguard.
  eexists. split; reflexivity.
Qed.

Lemma invalid_file_key_400_witness :
  exists response,
    handleFileStream ∅ Sample.plain
      {| bucket := Some (Sample.store 100 "image/webp"); KV := None |}
      "celebrity/../secret.webp"
    = ([], Return response) /\
    status response = 400.
Proof.
  apply (invalid_file_key_400
           ∅ Sample.plain
           {| bucket := Some (Sample.store 100 "image/webp"); KV := None |}
           "celebrity/../secret.webp").
  right. exists "celebrity/", "/secret.webp". reflexivity.
Defined.

(** ** Whole objects: the key-value tier and the object store *)

Arguments buildResponseHeaders : simpl never.
Arguments buildRangeHeaders : simpl never.
Arguments jsonResponse : simpl never.
Arguments internalError : simpl never.
Arguments getCacheKey : simpl never.
Arguments getKVKey : simpl never.
Arguments rangeCacheUrl : simpl never.
Arguments serveWholeObject : simpl never.
Arguments handleRangeRequest : simpl never.

Ltac unfold_eff :=
  unfold Eff.result, Eff.trace, Eff.bind, Eff.try_catch, Eff.call,
         Eff.spawn, Eff.pure, Eff.throw.

(** Case analysis on the innermost scrutinee of the goal. *)
Ltac break_match :=
  match goal with
  | |- context [match ?x with _ => _ end] =>
      lazymatch x with
      | context [match _ with _ => _ end] => fail
      | _ => destruct x eqn:?
      end
  end.

(** The same, leaving the two sub-handlers alone. *)
Ltac break_path :=
  match goal with
  | |- context [match ?x with _ => _ end] =>
      lazymatch x with
      | context [match _ with _ => _ end] => fail
      | context [serveWholeObject] => fail
      | context [handleRangeRequest] => fail
      | _ => destruct x eqn:?
      end
  end.

Section WholeObject.

Variable caches : gmap string Response.
Variable request : Request.

Lemma json_answer_intro (o : JsObject) (st : Z) :
  st <> 206 -> json_answer (jsonResponse o st).
Proof. intros H. split; [exact H | split; by vm_compute]. Qed.

Lemma whole_object_answer_intro ct len cc st data :
  st = "MISS" \/ st = "HIT-KV" ->
  whole_object_answer
    (new_Response (Some (BodyBytes data)) 200
                  (buildResponseHeaders ct len cc st)).
Proof.
  intros Hst. unfold whole_object_answer. cbn.
  rewrite buildResponseHeaders_x_cache, buildResponseHeaders_content_range.
  destruct Hst as [-> | ->]; auto.
Qed.

Lemma handleRangeRequest_events env fileKey h ct size cc :
  forallb is_range_event
    (Eff.trace (handleRangeRequest caches request env fileKey h ct size cc))
  = true.
Proof.
  unfold handleRangeRequest, cache_match. unfold_eff.
  repeat (break_match; simplify_eq/=); reflexivity.
Qed.

(** [handleRangeRequest] reads nothing of [env] but the bucket. *)
Lemma handleRangeRequest_env env env' fileKey h ct size cc :
  bucket env = bucket env' ->
  handleRangeRequest caches request env fileKey h ct size cc
  = handleRangeRequest caches request env' fileKey h ct size cc.
Proof. intros Hb. unfold handleRangeRequest. now rewrite Hb. Qed.

Lemma serveWholeObject_result env b fileKey ct size cfg ck :
  match Eff.result (serveWholeObject env b fileKey ct size cfg ck) with
  | Return r => whole_object_answer r \/ json_answer r
  | Throw _ => True
  end.
Proof.
  unfold serveWholeObject, kvLookup. unfold_eff.
  repeat (break_match; simplify_eq/=);
    auto using whole_object_answer_intro.
  all: right; apply json_answer_intro; discriminate.
Qed.

Lemma serveWholeObject_no_range_read env b fileKey ct size cfg ck :
  existsb is_range_read
    (Eff.trace (serveWholeObject env b fileKey ct size cfg ck)) = false.
Proof.
  unfold serveWholeObject, kvLookup. unfold_eff.
  repeat (break_match; simplify_eq/=); reflexivity.
Qed.

(** When the object store delivers the object, the answer is a 200. *)
Lemma serveWholeObject_delivers env b fileKey ct size cfg ck o stream :
  r2_get b fileKey = Return (Some o) -> obj_body o = Some stream ->
  exists r,
    Eff.result (serveWholeObject env b fileKey ct size cfg ck) = Return r /\
    whole_object_answer r.
Proof.
  intros Hget Hbody.
  unfold serveWholeObject, kvLookup. rewrite Hget. unfold_eff. cbn.
  rewrite Hbody.
  repeat (break_match; simplify_eq/=); eexists; (split; [reflexivity |]);
    auto using whole_object_answer_intro.
Qed.

(** A key-value read that throws leaves [serveWholeObject] where a miss
    leaves it. *)
Lemma serveWholeObject_kv_throw
  env env' kv kv' b fileKey ct size cfg ck e :
  KV env = Some kv -> kv_get kv (getKVKey fileKey) = Throw e ->
  KV env' = Some kv' -> kv_get kv' (getKVKey fileKey) = Return None ->
  serveWholeObject env b fileKey ct size cfg ck
  = serveWholeObject env' b fileKey ct size cfg ck.
Proof.
  intros HKV Hthrow HKV' Hmiss.
  unfold serveWholeObject, kvLookup. rewrite HKV, HKV'.
  cbn zeta. rewrite Hthrow, Hmiss. reflexivity.
Qed.

Lemma serveWholeObject_falls_through env kv b fileKey ct size cfg ck e :
  KV env = Some kv -> kv_get kv (getKVKey fileKey) = Throw e ->
  In (KVGet (getKVKey fileKey))
     (Eff.trace (serveWholeObject env b fileKey ct size cfg ck)) ->
  In (BucketGet fileKey)
     (Eff.trace (serveWholeObject env b fileKey ct size cfg ck)).
Proof.
  intros HKV Hthrow.
  unfold serveWholeObject, kvLookup. rewrite HKV. cbn zeta. rewrite Hthrow.
  unfold_eff.
  repeat (break_match; simplify_eq/=);
    intuition (subst; auto; try discriminate).
Qed.

(** The path of a request with a range header for an image: past the edge
    cache, through [head], into the whole-object steps. *)
Lemma handleFileStream_try_image_with_range env b fileKey info :
  negb (truthy fileKey) || includes fileKey ".." = false ->
  bucket env = Some b ->
  present (header_range request) = true ->
  r2_head b fileKey = Return (Some info) ->
  startsWith (contentTypeOf info) "image/" = true ->
  handleFileStream_try caches request env fileKey
  = let '(t, r) :=
      serveWholeObject env b fileKey (contentTypeOf info) (info_size info)
        (getCacheConfig (contentTypeOf info)) (getCacheKey fileKey) in
    (CacheMatch (getCacheKey fileKey) :: BucketHead fileKey :: t,
     match r with
     | Return a => Return (Responded a)
     | Throw e => Throw e
     end).
Proof.
  intros Hkey Hb Hrange Hhead Himage.
  destruct (image_is_not_video_or_audio _ Himage) as [Hvideo Haudio].
  unfold handleFileStream_try, cache_match.
  rewrite Hkey, Hb, Hrange. cbn [negb]. unfold_eff. rewrite Hhead.
  cbn beta iota zeta. rewrite Himage, Hvideo, Haudio. cbn [negb andb orb].
  destruct (serveWholeObject _ _ _ _ _ _ _) as [t [a | e]]; cbn;
    rewrite ?app_nil_r; reflexivity.
Qed.

Lemma handleFileStream_image_with_range env b fileKey info :
  negb (truthy fileKey) || includes fileKey ".." = false ->
  bucket env = Some b ->
  present (header_range request) = true ->
  r2_head b fileKey = Return (Some info) ->
  startsWith (contentTypeOf info) "image/" = true ->
  handleFileStream caches request env fileKey
  = let '(t, r) :=
      serveWholeObject env b fileKey (contentTypeOf info) (info_size info)
        (getCacheConfig (contentTypeOf info)) (getCacheKey fileKey) in
    (CacheMatch (getCacheKey fileKey) :: BucketHead fileKey :: t,
     match r with
     | Return a => Return a
     | Throw e => Return (internalError e)
     end).
Proof.
  intros Hkey Hb Hrange Hhead Himage.
  unfold handleFileStream.
  rewrite (handleFileStream_try_image_with_range env b fileKey info)
    by assumption.
  destruct (serveWholeObject _ _ _ _ _ _ _) as [t [a | e]];
    unfold_eff; cbn; rewrite ?app_nil_r; reflexivity.
Qed.

End WholeObject.

(** The fields of a whole-object answer. *)
Lemma whole_object_response_fields ct len cc st bytes :
  forall r,
    r = new_Response (Some (BodyBytes bytes)) 200
                     (buildResponseHeaders ct len cc st) ->
    status r = 200 /\
    resp_body r = Some (BodyBytes bytes) /\
    headers r !! "Content-Type" = Some ct /\
    headers r !! "Content-Length" = Some (toString len) /\
    headers r !! "Cache-Control" = Some cc /\
    headers r !! "X-Cache" = Some st /\
    headers r !! "Content-Range" = None.
Proof.
  intros r ->. cbn. unfold buildResponseHeaders, Headers_of.
  cbn [foldl app corsHeaders fst snd].
  repeat split; by simplify_map_eq.
Qed.

(** When the object store delivers the object, the whole-object steps
    answer 200: with the bytes of the key-value tier when the tier may be
    read for this object and holds it, and otherwise with the bytes just
    fetched from the store. *)
Lemma serveWholeObject_delivers_body
  (env : Env) (b : R2Bucket) (fileKey ct : string) (size : number)
  (cfg : CacheConfig) (ck : string) (o : R2ObjectBody)
  (stream : list Byte.byte) :
  r2_get b fileKey = Return (Some o) -> obj_body o = Some stream ->
  exists response,
    Eff.result (serveWholeObject env b fileKey ct size cfg ck)
    = Return response /\
    status response = 200 /\
    headers response !! "Content-Type" = Some ct /\
    headers response !! "Cache-Control" = Some (browserCache cfg) /\
    headers response !! "Content-Range" = None /\
    ((headers response !! "X-Cache" = Some "MISS" /\
      resp_body response = Some (BodyBytes stream) /\
      headers response !! "Content-Length" = Some (toString size) /\
      In (BucketGet fileKey)
         (Eff.trace (serveWholeObject env b fileKey ct size cfg ck)) /\
      (shouldCacheInKV cfg && JsNum.le size (Num (maxKVSize cfg)) = false \/
       KV env = None \/
       exists kv,
         KV env = Some kv /\
         forall data, kv_get kv (getKVKey fileKey) <> Return (Some data))) \/
     (exists kv data,
        KV env = Some kv /\
        kv_get kv (getKVKey fileKey) = Return (Some data) /\
        shouldCacheInKV cfg && JsNum.le size (Num (maxKVSize cfg)) = true /\
        headers response !! "X-Cache" = Some "HIT-KV" /\
        resp_body response = Some (BodyBytes data) /\
        headers response !! "Content-Length"
        = Some (toString (Num (Z.of_nat (List.length data)))) /\
        In (KVGet (getKVKey fileKey))
           (Eff.trace (serveWholeObject env b fileKey ct size cfg ck)))).
Proof.
  intros Hget Hbody.
  unfold serveWholeObject, kvLookup. rewrite Hget. unfold_eff. cbn.
  rewrite Hbody.
  repeat (break_match; simplify_eq/=).
  all: try (eexists; split; [reflexivity |];
            edestruct whole_object_response_fields
              as (Hs & Hb & Hct & Hcl & Hcc & Hx & Hcr); [reflexivity |];
            split; [exact Hs |]; split; [exact Hct |];
            split; [exact Hcc |]; split; [exact Hcr |]; left;
            split; [exact Hx |]; split; [exact Hb |];
            split; [exact Hcl |]; split; [auto 10 |];
            first
              [ left; reflexivity
              | right; left; reflexivity
              | right; right; eexists; split; [reflexivity |];
                intros data; congruence ]).
  all: match goal with
       | Hkv : kv_get ?kv _ = Return (Some ?data) |- _ =>
           eexists; split; [reflexivity |];
           edestruct whole_object_response_fields
             as (Hs & Hb & Hct & Hcl & Hcc & Hx & Hcr); [reflexivity |];
           split; [exact Hs |]; split; [exact Hct |];
           split; [exact Hcc |]; split; [exact Hcr |];
           right; exists kv, data;
           split; [reflexivity |]; split; [exact Hkv |];
           split; [reflexivity |];
           split; [exact Hx |]; split; [exact Hb |];
           split; [exact Hcl |]; auto 10
       end.
Qed.

(** C9. A request that carries a range header for an object whose content
    type starts with [image/]: the range responder is not invoked, the
    answer is not taken from the edge-cache hit path and is never a 206;
    the run looks up the edge cache, calls [head] and goes on with the
    whole-object steps under the image cache policy.  When the object
    store delivers the object the answer is a 200 for the whole object:
    the bytes the key-value tier holds for it ([X-Cache: HIT-KV]) when the
    object is within the image size ceiling and the tier holds it, and
    otherwise the bytes just fetched from the store ([X-Cache: MISS], with
    the size [head] reported as [Content-Length]).  A range header is
    carried when [request.headers.get('range')] is truthy, the test the
    handler makes. *)
Theorem image_range_header_is_ignored
  (caches : gmap string Response) (request : Request) (env : Env)
  (b : R2Bucket) (fileKey : string) (info : R2Object) :
  fileKey <> EmptyString -> includes fileKey ".." = false ->
  bucket env = Some b ->
  present (header_range request) = true ->
  r2_head b fileKey = Return (Some info) ->
  startsWith (contentTypeOf info) "image/" = true ->
  let outcome := handleFileStream caches request env fileKey in
  let within_ceiling :=
    JsNum.le (info_size info) (Num (maxKVSize CACHE_CONFIGS.image)) in
  (forall p,
     Eff.result (handleFileStream_try caches request env fileKey)
     <> Return (Delegated p)) /\
  (exists t,
     Eff.trace outcome
     = CacheMatch (getCacheKey fileKey) :: BucketHead fileKey :: t) /\
  existsb is_range_read (Eff.trace outcome) = false /\
  (exists response,
     Eff.result outcome = Return response /\
     status response <> 206 /\
     headers response !! "X-Cache" <> Some "HIT-WORKERS" /\
     headers response !! "Content-Range" = None) /\
  (forall o stream,
     r2_get b fileKey = Return (Some o) -> obj_body o = Some stream ->
     exists response,
       Eff.result outcome = Return response /\
       status response = 200 /\
       headers response !! "Content-Type" = Some (contentTypeOf info) /\
       headers response !! "Cache-Control"
       = Some (browserCache CACHE_CONFIGS.image) /\
       headers response !! "Content-Range" = None /\
       ((headers response !! "X-Cache" = Some "MISS" /\
         resp_body response = Some (BodyBytes stream) /\
         headers response !! "Content-Length"
         = Some (toString (info_size info)) /\
         In (BucketGet fileKey) (Eff.trace outcome) /\
         (within_ceiling = false \/
          KV env = None \/
          exists kv,
            KV env = Some kv /\
            forall data,
              kv_get kv (getKVKey fileKey) <> Return (Some data))) \/
        (exists kv data,
           KV env = Some kv /\
           kv_get kv (getKVKey fileKey) = Return (Some data) /\
           within_ceiling = true /\
           headers response !! "X-Cache" = Some "HIT-KV" /\
           resp_body response = Some (BodyBytes data) /\
           headers response !! "Content-Length"
           = Some (toString (Num (Z.of_nat (List.length data)))) /\
           In (KVGet (getKVKey fileKey)) (Eff.trace outcome)))).
Proof.
  intros Hne Hdots Hb Hrange Hhead Himage outcome within_ceiling.
  assert (Hkey : negb (truthy fileKey) || includes fileKey ".." = false).
  { rewrite truthy_nonempty by exact Hne. exact Hdots. }
  assert (Hconfig : getCacheConfig (contentTypeOf info) = CACHE_CONFIGS.image).
  { unfold getCacheConfig. rewrite Himage. reflexivity. }
  subst outcome within_ceiling.
  rewrite (handleFileStream_try_image_with_range
             caches request env b fileKey info) by assumption.
  rewrite (handleFileStream_image_with_range
             caches request env b fileKey info) by assumption.
  rewrite !Hconfig.
  pose proof (serveWholeObject_result
                env b fileKey (contentTypeOf info) (info_size info)
                CACHE_CONFIGS.image (getCacheKey fileKey))
    as Hresult.
  pose proof (serveWholeObject_no_range_read
                env b fileKey (contentTypeOf info) (info_size info)
                CACHE_CONFIGS.image (getCacheKey fileKey))
    as Hreads.
  pose proof (serveWholeObject_delivers_body
                env b fileKey (contentTypeOf info) (info_size info)
                CACHE_CONFIGS.image (getCacheKey fileKey))
    as Hdelivers.
  destruct (serveWholeObject _ _ _ _ _ _ _) as [t r].
  cbn [Eff.result Eff.trace fst snd] in *.
  change (shouldCacheInKV CACHE_CONFIGS.image) with true in Hdelivers.
  cbn [andb] in Hdelivers.
  split; [| split; [| split; [| split]]].
  - intros p. destruct r; discriminate.
  - exists t. reflexivity.
  - cbn. exact Hreads.
  - destruct r as [a | e].
    + exists a. split; [reflexivity |].
      destruct Hresult as [(Hs & Hx & Hr) | (Hs & Hx & Hr)].
      * split; [rewrite Hs; discriminate | split; [| exact Hr]].
        destruct Hx as [Hx | Hx]; rewrite Hx; discriminate.
      * split; [exact Hs | split; [rewrite Hx; discriminate | exact Hr]].
    + exists (internalError e). split; [reflexivity |].
      destruct (json_answer_intro
                  [ ("error", "Internal server error");
                    ("details",
                     match e with
                     | ErrorObject message => message
                     | NonError => "Unknown error"
                     end) ] 500 ltac:(discriminate)) as (Hs & Hx & Hr).
      split; [exact Hs | split; [| exact Hr]].
      unfold internalError. rewrite Hx. discriminate.
  - intros o stream Hget Hbody.
    destruct (Hdelivers o stream Hget Hbody)
      as (a & -> & Hs & Hct & Hcc & Hcr & Hcases).
    exists a. split; [reflexivity |]. split; [exact Hs |].
    split; [exact Hct |]. split; [exact Hcc |]. split; [exact Hcr |].
    destruct Hcases
      as [(Hx & Hbd & Hcl & Hin & Hwhy)
         | (kv & data & HKV & Hkv & Hwhy & Hx & Hbd & Hcl & Hin)].
    + left. repeat (split; [assumption |]).
      split; [right; right; exact Hin | exact Hwhy].
    + right. exists kv, data.
      repeat (split; [assumption |]). right. right. exact Hin.
Qed.

Lemma image_range_header_is_ignored_witness :
  let caches : gmap string Response := ∅ in
  let request := Sample.ranged "bytes=0-9" in
  let b := Sample.store 100 "image/webp" in
  let env := {| bucket := Some b; KV := None |} in
  let fileKey := "celebrity/photo.webp" in
  let info :=
    {| info_size := Num 100; info_contentType := Some "image/webp" |} in
  let outcome := handleFileStream caches request env fileKey in
  let within_ceiling :=
    JsNum.le (info_size info) (Num (maxKVSize CACHE_CONFIGS.image)) in
  (forall p,
     Eff.result (handleFileStream_try caches request env fileKey)
     <> Return (Delegated p)) /\
  (exists t,
     Eff.trace outcome
     = CacheMatch (getCacheKey fileKey) :: BucketHead fileKey :: t) /\
  existsb is_range_read (Eff.trace outcome) = false /\
  (exists response,
     Eff.result outcome = Return response /\
     status response <> 206 /\
     headers response !! "X-Cache" <> Some "HIT-WORKERS" /\
     headers response !! "Content-Range" = None) /\
  (forall o stream,
     r2_get b fileKey = Return (Some o) -> obj_body o = Some stream ->
     exists response,
       Eff.result outcome = Return response /\
       status response = 200 /\
       headers response !! "Content-Type" = Some (contentTypeOf info) /\
       headers response !! "Cache-Control"
       = Some (browserCache CACHE_CONFIGS.image) /\
       headers response !! "Content-Range" = None /\
       ((headers response !! "X-Cache" = Some "MISS" /\
         resp_body response = Some (BodyBytes stream) /\
         headers response !! "Content-Length"
         = Some (toString (info_size info)) /\
         In (BucketGet fileKey) (Eff.trace outcome) /\
         (within_ceiling = false \/
          KV env = None \/
          exists kv,
            KV env = Some kv /\
            forall data,
              kv_get kv (getKVKey fileKey) <> Return (Some data))) \/
        (exists kv data,
           KV env = Some kv /\
           kv_get kv (getKVKey fileKey) = Return (Some data) /\
           within_ceiling = true /\
           headers response !! "X-Cache" = Some "HIT-KV" /\
           resp_body response = Some (BodyBytes data) /\
           headers response !! "Content-Length"
           = Some (toString (Num (Z.of_nat (List.length data)))) /\
           In (KVGet (getKVKey fileKey)) (Eff.trace outcome)))).
Proof.
  apply (image_range_header_is_ignored
           ∅ (Sample.ranged "bytes=0-9")
           {| bucket := Some (Sample.store 100 "image/webp"); KV := None |}
           (Sample.store 100 "image/webp") "celebrity/photo.webp"
           {| info_size := Num 100; info_contentType := Some "image/webp" |}).
  - discriminate.
  - reflexivity.
  - reflexivity.
  - reflexivity.
  - reflexivity.
  - reflexivity.
Defined.

Example image_with_range_header_on_sample_store :
  let outcome :=
    handleFileStream ∅ (Sample.ranged "bytes=0-9")
      {| bucket := Some (Sample.store 100 "image/webp"); KV := None |}
      "celebrity/photo.webp" in
  match Eff.result outcome with
  | Return response =>
      status response = 200 /\
      headers response !! "X-Cache" = Some "MISS" /\
      headers response !! "Content-Length" = Some "100" /\
      headers response !! "Content-Range" = None
  | Throw _ => False
  end.
Proof. vm_compute. repeat split. Qed.

(** C8. When the handler consults the key-value tier and the read throws,
    the run is the one a miss gives: same calls, same answer.  It goes on
    to read the object from the object store. *)
Theorem kv_read_failure_is_a_miss
  (caches : gmap string Response) (request : Request) (env : Env)
  (kv kv' : KVNamespace) (fileKey : string) (e : Thrown) :
  KV env = Some kv ->
  kv_get kv (getKVKey fileKey) = Throw e ->
  kv_get kv' (getKVKey fileKey) = Return None ->
  In (KVGet (getKVKey fileKey))
     (Eff.trace (handleFileStream caches request env fileKey)) ->
  handleFileStream caches request env fileKey
  = handleFileStream caches request
      {| bucket := bucket env; KV := Some kv' |} fileKey /\
  In (BucketGet fileKey)
     (Eff.trace (handleFileStream caches request env fileKey)).
Proof.
  intros HKV Hthrow Hmiss Hread.
  destruct env as [ob okv]. cbn [KV bucket] in *. subst okv. split.
  - clear Hread.
    unfold handleFileStream, handleFileStream_try, cache_match.
    cbn [bucket]. unfold_eff.
    repeat (break_path; simplify_eq/=); try reflexivity.
    all:
      match goal with
      | |- context [handleRangeRequest _ _ ?e1 ?a4 ?a5 ?a6 ?a7 ?a8] =>
          match goal with
          | |- context [handleRangeRequest _ _ ?e2 a4 a5 a6 a7 a8] =>
              tryif constr_eq e1 e2 then fail
              else (rewrite (handleRangeRequest_env caches request e1 e2)
                      by reflexivity;
                    reflexivity)
          end
      | |- context [serveWholeObject ?e1 ?a2 ?a3 ?a4 ?a5 ?a6 ?a7] =>
          match goal with
          | |- context [serveWholeObject ?e2 a2 a3 a4 a5 a6 a7] =>
              tryif constr_eq e1 e2 then fail
              else (rewrite (serveWholeObject_kv_throw e1 e2 kv kv')
                      with (e := e) by (reflexivity || assumption);
                    reflexivity)
          end
      end.
  - revert Hread.
    unfold handleFileStream, handleFileStream_try, cache_match.
    cbn [bucket]. unfold_eff.
    repeat (break_path; simplify_eq/=); try (intuition discriminate).
    all:
      match goal with
      | |- context [handleRangeRequest ?a1 ?a2 ?a3 ?a4 ?a5 ?a6 ?a7 ?a8] =>
          pose proof (handleRangeRequest_events a1 a2 a3 a4 a5 a6 a7 a8)
            as Hev;
          destruct (handleRangeRequest a1 a2 a3 a4 a5 a6 a7 a8) as [t c];
          cbn in *; rewrite forallb_forall in Hev;
          intros [H | [H | H]]; try discriminate;
          apply Hev in H; discriminate
      | |- context [serveWholeObject ?a1 ?a2 ?a3 ?a4 ?a5 ?a6 ?a7] =>
          pose proof (serveWholeObject_falls_through
                        a1 kv a2 a3 a4 a5 a6 a7 e eq_refl Hthrow) as Hfall;
          destruct (serveWholeObject a1 a2 a3 a4 a5 a6 a7) as [t [a | e0]];
          cbn in *; rewrite ?app_nil_r;
          intros [H | [H | H]]; try discriminate; auto
      end.
Qed.

Lemma kv_read_failure_is_a_miss_witness :
  let env :=
    {| bucket := Some (Sample.store 100 "image/webp");
       KV := Some Sample.failing_kv |} in
  handleFileStream ∅ Sample.plain env "celebrity/photo.webp"
  = handleFileStream ∅ Sample.plain
      {| bucket := bucket env; KV := Some Sample.empty_kv |}
      "celebrity/photo.webp" /\
  In (BucketGet "celebrity/photo.webp")
     (Eff.trace (handleFileStream ∅ Sample.plain env "celebrity/photo.webp")).
Proof.
  apply (kv_read_failure_is_a_miss
           ∅ Sample.plain
           {| bucket := Some (Sample.store 100 "image/webp");
              KV := Some Sample.failing_kv |}
           Sample.failing_kv Sample.empty_kv "celebrity/photo.webp"
           (ErrorObject "KV unavailable")).
  - reflexivity.
  - reflexivity.
  - reflexivity.
  - vm_compute. right. right. left. reflexivity.
Defined.

Example kv_failure_on_sample_store :
  let outcome :=
    handleFileStream ∅ Sample.plain
      {| bucket := Some (Sample.store 100 "image/webp");
         KV := Some Sample.failing_kv |}
      "celebrity/photo.webp" in
  map (fun ev =>
         match ev with
         | CachePut url _ => CachePut url (new_Response None 0 ∅)
         | KVPut key _ ttl => KVPut key [] ttl
         | _ => ev
         end) (Eff.trace outcome)
  = [ CacheMatch "https://cache.local/celebrity/celebrity/photo.webp";
      BucketHead "celebrity/photo.webp";
      KVGet "celebrity:media:celebrity/photo.webp";
      BucketGet "celebrity/photo.webp";
      CachePut "https://cache.local/celebrity/celebrity/photo.webp"
               (new_Response None 0 ∅);
      KVPut "celebrity:media:celebrity/photo.webp" [] 31536000 ] /\
  match Eff.result outcome with
  | Return response =>
      status response = 200 /\ headers response !! "X-Cache" = Some "MISS"
  | Throw _ => False
  end.
Proof. vm_compute. repeat split. Qed.

(** ** The first-chunk cache holds what the handler stored *)

Section FirstChunkCache.

Variable request : Request.
Variable env : Env.
Variable fileKey contentType cacheControl : string.

Lemma append_cancel_l (p x y : string) : p +:+ x = p +:+ y -> x = y.
Proof.
  induction p as [| c p IH]; simpl; intros H; [exact H |].
  injection H as H. now apply IH.
Qed.

Lemma decimal_inj (a b : Z) :
  0 <= a -> 0 <= b -> decimal a = decimal b -> a = b.
Proof.
  intros Ha Hb H.
  rewrite <- (digits_value_decimal a Ha), <- (digits_value_decimal b Hb).
  now rewrite H.
Qed.

Lemma rangeCacheUrl_inj (a b : Z) :
  0 <= a -> 0 <= b ->
  rangeCacheUrl fileKey (Num a) = rangeCacheUrl fileKey (Num b) -> a = b.
Proof.
  intros Ha Hb H. unfold rangeCacheUrl in H.
  repeat apply append_cancel_l in H.
  rewrite !toString_nonneg in H by assumption.
  now apply decimal_inj.
Qed.

(** What the edge cache holds after the background writes is what it held
    before or what one of the writes put there. *)
Lemma run_background_lookup (t : list Event) :
  forall (caches : gmap string Response) url r,
    run_background t caches !! url = Some r ->
    caches !! url = Some r \/ In (CachePut url r) t.
Proof.
  induction t as [| ev t IH]; intros caches url r H; [now left |].
  unfold run_background in H. cbn [foldl] in H.
  fold (run_background t) in H.
  destruct ev; try (destruct (IH _ _ _ H); [now left | right; now right]).
  destruct (IH _ _ _ H) as [Hins | Hin]; [| right; now right].
  rewrite lookup_insert in Hins. case_decide as Hurl.
  - injection Hins as <-. subst. right. now left.
  - now left.
Qed.

(** Every write [handleRangeRequest] starts is the 206 answer for a first
    chunk, under the key of that chunk. *)
Lemma handleRangeRequest_puts
  (caches : gmap string Response) (h : string) (S : Z) url r :
  In (CachePut url r)
     (Eff.trace (handleRangeRequest caches request env fileKey h contentType
                                    (Num S) cacheControl)) ->
  exists e stream,
    0 <= e /\
    url = rangeCacheUrl fileKey (Num e) /\
    r = rangeResponse contentType (Num 0) (Num e) (Num S) cacheControl stream.
Proof.
  unfold handleRangeRequest, cache_match, rangeInvalid. unfold_eff.
  repeat (break_match; simplify_eq/=);
    try (intuition discriminate).
  all: intros [H | [H | [H | []]]]; try discriminate.
  all: injection H as <- <-.
  all: repeat match goal with
         | n : number |- _ => destruct n; try discriminate
         end.
  all: cbn in *.
  all: repeat match goal with
         | H : _ || _ = false |- _ => apply orb_false_elim in H as [? ?]
         | H : (_ =? _) = true |- _ => apply Z.eqb_eq in H; subst
         | H : (_ <? _) = false |- _ => apply Z.ltb_ge in H
         end.
  all: eexists _, _; (split; [| split; reflexivity]); assumption.
Qed.

Lemma first_chunk_cache_ok_preserved
  (caches : gmap string Response) (h : string) (S : Z) :
  first_chunk_cache_ok caches fileKey S ->
  first_chunk_cache_ok
    (run_background
       (Eff.trace (handleRangeRequest caches request env fileKey h
                                      contentType (Num S) cacheControl))
       caches)
    fileKey S.
Proof.
  intros Hok e chunk He Hlook.
  apply run_background_lookup in Hlook as [Hold | Hput].
  - now apply Hok.
  - apply handleRangeRequest_puts in Hput as (e' & stream & He' & Hurl & ->).
    apply rangeCacheUrl_inj in Hurl; [| assumption | assumption].
    subst e'. apply rangeResponse_partial_content.
Qed.

End FirstChunkCache.

(** * Further properties of the range responder *)

Section RangeResponder.

Variable caches : gmap string Response.
Variable request : Request.
Variable env : Env.
Variable fileKey contentType cacheControl : string.

Lemma chunkSizeOf_pos (ct : string) : 0 < chunkSizeOf ct.
Proof.
  unfold chunkSizeOf.
  destruct (startsWith ct "video/"); [reflexivity |].
  destruct (startsWith ct "audio/"); reflexivity.
Qed.

(** A matched header followed by anything that does not start with a
    digit gives the same groups. *)
Lemma range_match_followed (d1 d2 : string) (c : ascii) (rest : string) :
  all_digits d1 = true -> all_digits d2 = true -> is_digit c = false ->
  range_match ("bytes=" +:+ d1 +:+ "-" +:+ d2 +:+ String c rest)
  = Some (d1, d2).
Proof.
  intros H1 H2 Hc. apply range_match_of_here.
  unfold range_match_here. rewrite strip_prefix_app.
  change ("-" +:+ d2 +:+ String c rest)
    with (String "-" (d2 +:+ String c rest)).
  rewrite span_digits_app by (exact H1 || reflexivity).
  change (String "-" (d2 +:+ String c rest))
    with ("-" +:+ (d2 +:+ String c rest)).
  rewrite strip_prefix_app, span_digits_app by assumption.
  reflexivity.
Qed.

(** The calls of a satisfiable range that does not start at byte 0. *)
Lemma handleRangeRequest_later_chunk_trace
  (b : R2Bucket) (h : string) (S a e : Z) :
  parseRange h contentType (Num S) = Some (Num a, Num e) ->
  0 < a <= e -> a < S ->
  bucket env = Some b ->
  Eff.trace (handleRangeRequest caches request env fileKey h contentType
                                (Num S) cacheControl)
  = [BucketGetRange fileKey (Num a) (Num (e - a + 1))].
Proof.
  intros Hparse Hae HS Hb. unfold handleRangeRequest.
  rewrite Hparse, rangeInvalid_false by lia. rewrite Hb.
  unfold JsNum.strict_eq.
  destruct (Z.eqb_spec a 0) as [-> | _]; [lia |].
  unfold_eff. cbn.
  destruct (r2_get_range b fileKey (Num a) (Num (e - a + 1)))
    as [[[[stream |]] |] | err]; reflexivity.
Qed.

End RangeResponder.

(** X1. A header [bytes=A-B] that starts at or beyond the end of the
    object, or that ends before it starts, is answered 416 with
    [Content-Range: bytes */S], an empty body and the CORS headers; nothing
    is read, neither from the edge cache nor from the object store. *)
Theorem explicit_range_unsatisfiable_416
  (caches : gmap string Response) (request : Request) (env : Env)
  (fileKey contentType cacheControl : string) (A B S : Z) :
  0 <= A -> 0 <= B -> S <= A \/ B < A ->
  exists response,
    handleRangeRequest caches request env fileKey
      ("bytes=" +:+ toString (Num A) +:+ "-" +:+ toString (Num B))
      contentType (Num S) cacheControl
    = ([], Return response) /\
    status response = 416 /\
    resp_body response = None /\
    headers response !! "Content-Range"
    = Some ("bytes */" +:+ toString (Num S)) /\
    headers response !! "Access-Control-Allow-Origin" = Some "*".
Proof.
  intros HA HB Hbad. unfold handleRangeRequest.
  rewrite (parseRange_explicit contentType A B (Num S) HA HB).
  assert (Hinvalid : rangeInvalid (Num A) (Num B) (Num S) = true).
  { unfold rangeInvalid. simpl. rewrite Z.geb_leb.
    destruct (Z.leb_spec S A), (Z.ltb_spec A 0), (Z.ltb_spec B A);
      simpl; lia || reflexivity. }
  rewrite Hinvalid. eexists. split; [reflexivity |].
  split; [reflexivity |]. split; [reflexivity |].
  unfold new_Response, Headers_of.
  cbn [headers foldl corsHeaders fst snd]. split; by simplify_map_eq.
Qed.

Lemma explicit_range_unsatisfiable_416_witness :
  exists response,
    handleRangeRequest ∅ (Sample.ranged "bytes=200-300")
      {| bucket := Some (Sample.store 100 "video/mp4"); KV := None |}
      "celebrity/clip.mp4" "bytes=200-300" "video/mp4" (Num 100)
      Sample.cacheControl
    = ([], Return response) /\
    status response = 416 /\
    resp_body response = None /\
    headers response !! "Content-Range" = Some "bytes */100" /\
    headers response !! "Access-Control-Allow-Origin" = Some "*".
Proof.
  apply (explicit_range_unsatisfiable_416
           ∅ (Sample.ranged "bytes=200-300")
           {| bucket := Some (Sample.store 100 "video/mp4"); KV := None |}
           "celebrity/clip.mp4" "video/mp4" Sample.cacheControl
           200 300 100).
  - lia.
  - lia.
  - left. lia.
Defined.

(** X2. When the object store answers a range read with [null], or with an
    object that has no body, a satisfiable range request is answered 500
    [Failed to get range], and nothing is written to the edge cache. *)
Theorem range_read_without_body_500
  (caches : gmap string Response) (request : Request) (env : Env)
  (b : R2Bucket) (fileKey h contentType cacheControl : string) (S a e : Z)
  (ro : option R2ObjectBody) :
  parseRange h contentType (Num S) = Some (Num a, Num e) ->
  0 <= a <= e -> a < S ->
  (a = 0 -> caches !! rangeCacheUrl fileKey (Num e) = None) ->
  bucket env = Some b ->
  r2_get_range b fileKey (Num a) (Num (e - a + 1)) = Return ro ->
  ro ≫= obj_body = None ->
  exists response,
    Eff.result (handleRangeRequest caches request env fileKey h contentType
                                   (Num S) cacheControl)
    = Return response /\
    status response = 500 /\
    resp_body response = Some (BodyText "Failed to get range") /\
    headers response !! "Content-Range" = None /\
    existsb is_cache_put
      (Eff.trace (handleRangeRequest caches request env fileKey h
                                     contentType (Num S) cacheControl))
    = false.
Proof.
  intros Hparse Hae HS Hcold Hb Hget Hnone. unfold handleRangeRequest.
  rewrite Hparse, rangeInvalid_false by lia. rewrite Hb.
  unfold JsNum.strict_eq, cache_match.
  destruct (Z.eqb_spec a 0) as [-> | Hne].
  - rewrite (Hcold eq_refl). unfold_eff. cbn. rewrite Hget, Hnone.
    eexists. repeat (split; [reflexivity |]). reflexivity.
  - unfold_eff. cbn. rewrite Hget, Hnone.
    eexists. repeat (split; [reflexivity |]). reflexivity.
Qed.

Lemma range_read_without_body_500_witness :
  exists response,
    Eff.result
      (handleRangeRequest ∅ (Sample.ranged "bytes=0-99")
         {| bucket := Some Sample.empty_store; KV := None |}
         "celebrity/clip.mp4" "bytes=0-99" "video/mp4" (Num 1000)
         Sample.cacheControl)
    = Return response /\
    status response = 500 /\
    resp_body response = Some (BodyText "Failed to get range") /\
    headers response !! "Content-Range" = None /\
    existsb is_cache_put
      (Eff.trace
         (handleRangeRequest ∅ (Sample.ranged "bytes=0-99")
            {| bucket := Some Sample.empty_store; KV := None |}
            "celebrity/clip.mp4" "bytes=0-99" "video/mp4" (Num 1000)
            Sample.cacheControl))
    = false.
Proof.
  apply (range_read_without_body_500
           ∅ (Sample.ranged "bytes=0-99")
           {| bucket := Some Sample.empty_store; KV := None |}
           Sample.empty_store "celebrity/clip.mp4" "bytes=0-99" "video/mp4"
           Sample.cacheControl 1000 0 99 None).
  - reflexivity.
  - lia.
  - lia.
  - intros _. apply lookup_empty.
  - reflexivity.
  - reflexivity.
  - reflexivity.
Defined.

(** X3. A satisfiable range that does not start at byte 0 makes exactly one
    call, the range read of the resolved interval: the edge cache is
    neither consulted nor written, whatever the object store answers.  The
    requested end and the object size are safe integers, the domain on
    which [parseInt] and the arithmetic of the handler are exact. *)
Theorem later_chunk_bypasses_edge_cache
  (caches : gmap string Response) (request : Request) (env : Env)
  (b : R2Bucket) (fileKey contentType cacheControl : string) (A B S : Z) :
  0 < A <= B -> A < S ->
  B <= MAX_SAFE_INTEGER -> S <= MAX_SAFE_INTEGER ->
  bucket env = Some b ->
  Eff.trace
    (handleRangeRequest caches request env fileKey
       ("bytes=" +:+ toString (Num A) +:+ "-" +:+ toString (Num B))
       contentType (Num S) cacheControl)
  = [BucketGetRange fileKey (Num A) (Num (B - A + 1))].
Proof.
  intros HAB HS _ _ Hb.
  apply (handleRangeRequest_later_chunk_trace
           caches request env fileKey contentType cacheControl b);
    try assumption.
  apply parseRange_explicit; lia.
Qed.

Lemma later_chunk_bypasses_edge_cache_witness :
  Eff.trace
    (handleRangeRequest ∅ (Sample.ranged "bytes=100-199")
       {| bucket := Some (Sample.store 1000 "video/mp4"); KV := None |}
       "celebrity/clip.mp4" "bytes=100-199" "video/mp4" (Num 1000)
       Sample.cacheControl)
  = [BucketGetRange "celebrity/clip.mp4" (Num 100) (Num 100)].
Proof.
  apply (later_chunk_bypasses_edge_cache
           ∅ (Sample.ranged "bytes=100-199")
           {| bucket := Some (Sample.store 1000 "video/mp4"); KV := None |}
           (Sample.store 1000 "video/mp4")
           "celebrity/clip.mp4" "video/mp4" Sample.cacheControl
           100 199 1000).
  - lia.
  - lia.
  - vm_compute. discriminate.
  - vm_compute. discriminate.
  - reflexivity.
Defined.

(** X4. Only the first range of a header is honoured: whatever follows
    [bytes=A-B] and does not start with a digit, a second range for
    instance, is ignored, and the request is handled as [bytes=A-B]. *)
Theorem trailing_ranges_are_ignored
  (caches : gmap string Response) (request : Request) (env : Env)
  (fileKey contentType cacheControl : string) (totalSize : number)
  (d1 d2 : string) (c : ascii) (rest : string) :
  all_digits d1 = true -> all_digits d2 = true -> is_digit c = false ->
  handleRangeRequest caches request env fileKey
    ("bytes=" +:+ d1 +:+ "-" +:+ d2 +:+ String c rest)
    contentType totalSize cacheControl
  = handleRangeRequest caches request env fileKey
      ("bytes=" +:+ d1 +:+ "-" +:+ d2)
      contentType totalSize cacheControl.
Proof.
  intros H1 H2 Hc. unfold handleRangeRequest, parseRange.
  rewrite range_match_followed, range_match_both by assumption.
  reflexivity.
Qed.

Lemma trailing_ranges_are_ignored_witness :
  handleRangeRequest ∅ (Sample.ranged "bytes=0-50, 100-150")
    {| bucket := Some (Sample.store 1000 "video/mp4"); KV := None |}
    "celebrity/clip.mp4" "bytes=0-50, 100-150" "video/mp4" (Num 1000)
    Sample.cacheControl
  = handleRangeRequest ∅ (Sample.ranged "bytes=0-50, 100-150")
      {| bucket := Some (Sample.store 1000 "video/mp4"); KV := None |}
      "celebrity/clip.mp4" "bytes=0-50" "video/mp4" (Num 1000)
      Sample.cacheControl.
Proof.
  apply (trailing_ranges_are_ignored
           ∅ (Sample.ranged "bytes=0-50, 100-150")
           {| bucket := Some (Sample.store 1000 "video/mp4"); KV := None |}
           "celebrity/clip.mp4" "video/mp4" Sample.cacheControl (Num 1000)
           "0" "50" "," " 100-150").
  - reflexivity.
  - reflexivity.
  - reflexivity.
Defined.

(** X5. An open-ended request [bytes=N-] that starts inside the object is
    always satisfiable: it is answered 206 for a range that starts at [N],
    ends within the object and is at most one chunk long. *)
Theorem open_ended_range_served
  (caches : gmap string Response) (request : Request) (env : Env)
  (b : R2Bucket) (fileKey contentType cacheControl : string) (N S : Z)
  (o : R2ObjectBody) (stream : list Byte.byte) :
  0 <= N < S ->
  let e := Z.min (N + chunkSizeOf contentType - 1) (S - 1) in
  bucket env = Some b ->
  r2_get_range b fileKey (Num N) (Num (e - N + 1)) = Return (Some o) ->
  obj_body o = Some stream ->
  first_chunk_cache_ok caches fileKey S ->
  N <= e <= S - 1 /\
  1 <= e - N + 1 <= chunkSizeOf contentType /\
  exists response,
    Eff.result
      (handleRangeRequest caches request env fileKey
         ("bytes=" +:+ toString (Num N) +:+ "-")
         contentType (Num S) cacheControl)
    = Return response /\
    partial_content response N e S.
Proof.
  intros HN e Hb Hget Hbody Hcache.
  pose proof (chunkSizeOf_pos contentType) as Hchunk.
  assert (He : N <= e <= S - 1) by (subst e; lia).
  split; [exact He |]. split; [subst e; lia |].
  pose proof (parseRange_open contentType N S ltac:(lia)) as Hparse.
  fold e in Hparse.
  destruct (Z.eq_dec N 0) as [HN0 | HN0].
  - destruct (caches !! rangeCacheUrl fileKey (Num e)) as [chunk |] eqn:Hhit.
    + exists chunk. subst N. split.
      * erewrite handleRangeRequest_cached by (eassumption || lia).
        reflexivity.
      * apply (Hcache e chunk); [lia | exact Hhit].
    + eexists. split.
      * erewrite handleRangeRequest_fetch by (eauto || lia). reflexivity.
      * apply rangeResponse_partial_content.
  - eexists. split.
    + erewrite handleRangeRequest_fetch by (eauto || lia). reflexivity.
    + apply rangeResponse_partial_content.
Qed.

Lemma open_ended_range_served_witness :
  1000 <= 525287 <= 52428800 - 1 /\
  1 <= 525287 - 1000 + 1 <= chunkSizeOf "audio/mpeg" /\
  exists response,
    Eff.result
      (handleRangeRequest ∅ (Sample.ranged "bytes=1000-")
         {| bucket := Some (Sample.store 52428800 "audio/mpeg");
            KV := None |}
         "celebrity/song.mp3" "bytes=1000-" "audio/mpeg" (Num 52428800)
         Sample.cacheControl)
    = Return response /\
    partial_content response 1000 525287 52428800.
Proof.
  apply (open_ended_range_served
           ∅ (Sample.ranged "bytes=1000-")
           {| bucket := Some (Sample.store 52428800 "audio/mpeg");
              KV := None |}
           (Sample.store 52428800 "audio/mpeg")
           "celebrity/song.mp3" "audio/mpeg" Sample.cacheControl
           1000 52428800
           {| obj_body := Some (Sample.zero_filled (Num 524288)) |}
           (Sample.zero_filled (Num 524288))).
  - lia.
  - reflexivity.
  - reflexivity.
  - reflexivity.
  - intros e chunk _ Hhit. rewrite lookup_empty in Hhit. discriminate.
Defined.

(** X6. The first chunk asked for as [bytes=0-] is written to the edge
    cache exactly when [min(chunkSize, S)] is at most 512 KiB: always for
    [audio/], and for [video/] only when the whole object fits in
    512 KiB. *)
Theorem open_ended_first_chunk_caching
  (caches : gmap string Response) (request : Request) (env : Env)
  (b : R2Bucket) (fileKey contentType cacheControl : string) (S : Z)
  (o : R2ObjectBody) (stream : list Byte.byte) :
  0 < S ->
  let e := Z.min (chunkSizeOf contentType - 1) (S - 1) in
  caches !! rangeCacheUrl fileKey (Num e) = None ->
  bucket env = Some b ->
  r2_get_range b fileKey (Num 0) (Num (e + 1)) = Return (Some o) ->
  obj_body o = Some stream ->
  let written :=
    existsb is_cache_put
      (Eff.trace
         (handleRangeRequest caches request env fileKey "bytes=0-"
            contentType (Num S) cacheControl)) in
  written = (Z.min (chunkSizeOf contentType) S <=? 512 * 1024) /\
  (startsWith contentType "video/" = true ->
   written = (S <=? 512 * 1024)) /\
  (startsWith contentType "video/" = false ->
   startsWith contentType "audio/" = true -> written = true).
Proof.
  intros HS e Hcold Hb Hget Hbody written.
  assert (Hwritten :
    written = (Z.min (chunkSizeOf contentType) S <=? 512 * 1024)).
  { subst written.
    pose proof (parseRange_open contentType 0 S ltac:(lia)) as Hparse.
    change ("bytes=" +:+ toString (Num 0) +:+ "-") with "bytes=0-" in Hparse.
    replace (0 + chunkSizeOf contentType - 1)
      with (chunkSizeOf contentType - 1) in Hparse by lia.
    fold e in Hparse.
    pose proof (chunkSizeOf_pos contentType) as Hchunk.
    rewrite (handleRangeRequest_fetch
               caches request env fileKey contentType cacheControl
               b "bytes=0-" S 0 e o stream Hparse
               ltac:(subst e; lia) HS (fun _ => Hcold) Hb);
      [| replace (e - 0 + 1) with (e + 1) by lia; exact Hget
       | exact Hbody].
    replace (e - 0 + 1) with (Z.min (chunkSizeOf contentType) S)
      by (subst e; lia).
    cbn [Eff.trace fst Z.eqb andb app existsb is_cache_put orb].
    destruct (Z.min (chunkSizeOf contentType) S <=? 512 * 1024);
      reflexivity. }
  split; [exact Hwritten |]. split.
  - intros Hvideo. rewrite Hwritten. unfold chunkSizeOf. rewrite Hvideo.
    unfold VIDEO_CHUNK_SIZE.
    destruct (Z.leb_spec S (512 * 1024)),
             (Z.leb_spec (Z.min (2 * 1024 * 1024) S) (512 * 1024));
      lia || reflexivity.
  - intros Hvideo Haudio. rewrite Hwritten. unfold chunkSizeOf.
    rewrite Hvideo, Haudio. unfold AUDIO_CHUNK_SIZE.
    apply Z.leb_le. lia.
Qed.

Lemma open_ended_first_chunk_caching_witness :
  let written :=
    existsb is_cache_put
      (Eff.trace
         (handleRangeRequest ∅ (Sample.ranged "bytes=0-")
            {| bucket := Some (Sample.store 52428800 "video/mp4");
               KV := None |}
            "celebrity/film.mp4" "bytes=0-" "video/mp4" (Num 52428800)
            Sample.cacheControl)) in
  written = (Z.min (chunkSizeOf "video/mp4") 52428800 <=? 512 * 1024) /\
  (startsWith "video/mp4" "video/" = true ->
   written = (52428800 <=? 512 * 1024)) /\
  (startsWith "video/mp4" "video/" = false ->
   startsWith "video/mp4" "audio/" = true -> written = true).
Proof.
  apply (open_ended_first_chunk_caching
           ∅ (Sample.ranged "bytes=0-")
           {| bucket := Some (Sample.store 52428800 "video/mp4");
              KV := None |}
           (Sample.store 52428800 "video/mp4")
           "celebrity/film.mp4" "video/mp4" Sample.cacheControl 52428800
           {| obj_body := Some (Sample.zero_filled (Num 2097152)) |}
           (Sample.zero_filled (Num 2097152))).
  - lia.
  - apply lookup_empty.
  - reflexivity.
  - reflexivity.
  - reflexivity.
Defined.

(** X7. A suffix request [bytes=-N] with [N] not zero on an object that is
    not empty is answered 206 for the last [min(N, S)] bytes: the range
    ends at the last byte and [Content-Length] is [min(N, S)]. *)
Theorem suffix_range_answers_last_bytes
  (caches : gmap string Response) (request : Request) (env : Env)
  (b : R2Bucket) (fileKey contentType cacheControl N : string) (S : Z)
  (o : R2ObjectBody) (stream : list Byte.byte) :
  all_digits N = true -> N <> EmptyString ->
  0 < S -> 0 < digits_value N 0 ->
  let n := Z.min (digits_value N 0) S in
  (n = S -> caches !! rangeCacheUrl fileKey (Num (S - 1)) = None) ->
  bucket env = Some b ->
  r2_get_range b fileKey (Num (S - n)) (Num n) = Return (Some o) ->
  obj_body o = Some stream ->
  exists response,
    Eff.result
      (handleRangeRequest caches request env fileKey ("bytes=-" +:+ N)
         contentType (Num S) cacheControl)
    = Return response /\
    partial_content response (S - n) (S - 1) S /\
    headers response !! "Content-Length" = Some (toString (Num n)).
Proof.
  intros HN Hne HS Hv n Hcold Hb Hget Hbody.
  assert (Hstart : Z.max (S - digits_value N 0) 0 = S - n)
    by (subst n; lia).
  destruct (suffix_range_served
              caches request env b fileKey contentType cacheControl N S
              o stream HN Hne HS Hv) as [_ Hres].
  - rewrite Hstart. intros H0. apply Hcold. lia.
  - exact Hb.
  - rewrite Hstart. replace (S - 1 - (S - n) + 1) with n by lia. exact Hget.
  - exact Hbody.
  - rewrite Hstart in Hres. eexists. split; [exact Hres |].
    pose proof (rangeResponse_partial_content
                  contentType cacheControl (S - n) (S - 1) S stream)
      as Hpc.
    split; [exact Hpc |].
    destruct Hpc as (_ & _ & Hlen).
    rewrite Hlen. do 3 f_equal. lia.
Qed.

Lemma suffix_range_answers_last_bytes_witness :
  exists response,
    Eff.result
      (handleRangeRequest ∅ (Sample.ranged "bytes=-500")
         {| bucket := Some (Sample.store 10000 "audio/mpeg"); KV := None |}
         "celebrity/song.mp3" "bytes=-500" "audio/mpeg" (Num 10000)
         Sample.cacheControl)
    = Return response /\
    partial_content response (10000 - 500) (10000 - 1) 10000 /\
    headers response !! "Content-Length" = Some "500".
Proof.
  apply (suffix_range_answers_last_bytes
           ∅ (Sample.ranged "bytes=-500")
           {| bucket := Some (Sample.store 10000 "audio/mpeg"); KV := None |}
           (Sample.store 10000 "audio/mpeg")
           "celebrity/song.mp3" "audio/mpeg" Sample.cacheControl "500" 10000
           {| obj_body := Some (Sample.zero_filled (Num 500)) |}
           (Sample.zero_filled (Num 500))).
  - reflexivity.
  - discriminate.
  - lia.
  - vm_compute. reflexivity.
  - intros _. apply lookup_empty.
  - reflexivity.
  - reflexivity.
  - reflexivity.
Defined.

(** X8. A suffix request for zero bytes, or any suffix request on an empty
    object, is answered 416 with [Content-Range: bytes */S]; nothing is
    read. *)
Theorem suffix_range_unsatisfiable_416
  (caches : gmap string Response) (request : Request) (env : Env)
  (fileKey contentType cacheControl N : string) (S : Z) :
  all_digits N = true -> N <> EmptyString ->
  0 <= S -> S = 0 \/ digits_value N 0 = 0 ->
  exists response,
    handleRangeRequest caches request env fileKey ("bytes=-" +:+ N)
                       contentType (Num S) cacheControl
    = ([], Return response) /\
    status response = 416 /\
    headers response !! "Content-Range"
    = Some ("bytes */" +:+ toString (Num S)).
Proof.
  intros HN Hne HS Hzero.
  destruct (handleRangeRequest_unsatisfiable_416
              caches request env fileKey ("bytes=-" +:+ N) contentType
              cacheControl (Num S)
              (Num (Z.max (S - digits_value N 0) 0)) (Num (S - 1)))
    as (response & Hrun & Hstatus & _ & Hrange).
  - now apply parseRange_suffix.
  - unfold rangeInvalid. simpl. rewrite Z.geb_leb.
    destruct (Z.leb_spec S (Z.max (S - digits_value N 0) 0));
      [reflexivity |].
    assert (Hv : 0 <= digits_value N 0).
    { clear -HN. assert (Hacc : forall s a, 0 <= a -> 0 <= digits_value s a).
      { induction s as [| c s IH]; intros a Ha; simpl; [exact Ha |].
        unfold digit_value.
        destruct (_ && _) eqn:Hc; [| exact Ha].
        apply IH. apply andb_prop in Hc as [Hlo _].
        apply Z.leb_le in Hlo. lia. }
      apply Hacc. lia. }
    lia.
  - exists response. auto.
Qed.

Lemma suffix_range_unsatisfiable_416_witness :
  exists response,
    handleRangeRequest ∅ (Sample.ranged "bytes=-0")
      {| bucket := Some (Sample.store 100 "video/mp4"); KV := None |}
      "celebrity/clip.mp4" "bytes=-0" "video/mp4" (Num 100)
      Sample.cacheControl
    = ([], Return response) /\
    status response = 416 /\
    headers response !! "Content-Range" = Some "bytes */100".
Proof.
  apply (suffix_range_unsatisfiable_416
           ∅ (Sample.ranged "bytes=-0")
           {| bucket := Some (Sample.store 100 "video/mp4"); KV := None |}
           "celebrity/clip.mp4" "video/mp4" Sample.cacheControl "0" 100).
  - reflexivity.
  - discriminate.
  - lia.
  - right. reflexivity.
Defined.

(** X9. A first chunk [bytes=0-B] of at most 512 KiB that is not yet in the
    edge cache is read from the object store, answered 206 and written to
    the edge cache; the same request is then answered with that very
    response from the cache, without a range read. *)
Theorem first_chunk_is_cached_and_replayed
  (caches : gmap string Response) (request : Request) (env : Env)
  (b : R2Bucket) (fileKey contentType cacheControl : string) (B S : Z)
  (o : R2ObjectBody) (stream : list Byte.byte) :
  0 <= B -> B + 1 <= 512 * 1024 -> 0 < S ->
  caches !! rangeCacheUrl fileKey (Num B) = None ->
  bucket env = Some b ->
  r2_get_range b fileKey (Num 0) (Num (B + 1)) = Return (Some o) ->
  obj_body o = Some stream ->
  let h := "bytes=0-" +:+ toString (Num B) in
  let url := rangeCacheUrl fileKey (Num B) in
  let first :=
    handleRangeRequest caches request env fileKey h contentType (Num S)
                       cacheControl in
  let second :=
    handleRangeRequest (run_background (Eff.trace first) caches) request env
                       fileKey h contentType (Num S) cacheControl in
  exists response,
    first = ([CacheMatch url;
              BucketGetRange fileKey (Num 0) (Num (B + 1));
              CachePut url response],
             Return response) /\
    status response = 206 /\
    second = ([CacheMatch url], Return response).
Proof.
  intros HB Hsmall HS Hcold Hb Hget Hbody h url first second.
  pose proof (parseRange_explicit contentType 0 B (Num S)
                ltac:(lia) HB) as Hparse.
  change ("bytes=" +:+ toString (Num 0) +:+ "-" +:+ toString (Num B))
    with h in Hparse.
  assert (Hget' : r2_get_range b fileKey (Num 0) (Num (B - 0 + 1))
                  = Return (Some o))
    by (replace (B - 0 + 1) with (B + 1) by lia; exact Hget).
  exists (rangeResponse contentType (Num 0) (Num B) (Num S) cacheControl
                        stream).
  assert (Hfirst :
    first = ([CacheMatch url;
              BucketGetRange fileKey (Num 0) (Num (B + 1));
              CachePut url
                (rangeResponse contentType (Num 0) (Num B) (Num S)
                               cacheControl stream)],
             Return (rangeResponse contentType (Num 0) (Num B) (Num S)
                                   cacheControl stream))).
  { subst first.
    rewrite (handleRangeRequest_fetch
               caches request env fileKey contentType cacheControl
               b h S 0 B o stream Hparse ltac:(lia) HS (fun _ => Hcold)
               Hb Hget' Hbody).
    replace (B - 0 + 1) with (B + 1) by lia.
    replace (B + 1 <=? 512 * 1024) with true
      by (symmetry; apply Z.leb_le; lia).
    reflexivity. }
  split; [exact Hfirst |]. split; [reflexivity |].
  subst second.
  apply (first_chunk_within_limit_replayed
           caches request env b fileKey h contentType cacheControl S B
           o stream Hparse HB HS Hsmall Hcold Hb Hget' Hbody).
Qed.

Lemma first_chunk_is_cached_and_replayed_witness :
  let env :=
    {| bucket := Some (Sample.store 52428800 "audio/mpeg"); KV := None |} in
  let url := rangeCacheUrl "celebrity/song.mp3" (Num 524287) in
  let first :=
    handleRangeRequest ∅ (Sample.ranged "bytes=0-524287") env
      "celebrity/song.mp3" "bytes=0-524287" "audio/mpeg" (Num 52428800)
      Sample.cacheControl in
  let second :=
    handleRangeRequest (run_background (Eff.trace first) ∅)
      (Sample.ranged "bytes=0-524287") env
      "celebrity/song.mp3" "bytes=0-524287" "audio/mpeg" (Num 52428800)
      Sample.cacheControl in
  exists response,
    first = ([CacheMatch url;
              BucketGetRange "celebrity/song.mp3" (Num 0) (Num (524287 + 1));
              CachePut url response],
             Return response) /\
    status response = 206 /\
    second = ([CacheMatch url], Return response).
Proof.
  apply (first_chunk_is_cached_and_replayed
           ∅ (Sample.ranged "bytes=0-524287")
           {| bucket := Some (Sample.store 52428800 "audio/mpeg");
              KV := None |}
           (Sample.store 52428800 "audio/mpeg")
           "celebrity/song.mp3" "audio/mpeg" Sample.cacheControl
           524287 52428800
           {| obj_body := Some (Sample.zero_filled (Num (524287 + 1))) |}
           (Sample.zero_filled (Num (524287 + 1)))).
  - lia.
  - lia.
  - lia.
  - apply lookup_empty.
  - reflexivity.
  - reflexivity.
  - reflexivity.
Defined.

(** * Further properties of the streaming entry point *)

Section StreamPaths.

Variable caches : gmap string Response.
Variable request : Request.
Variable env : Env.
Variable fileKey : string.

Lemma valid_key_guard :
  fileKey <> EmptyString -> includes fileKey ".." = false ->
  negb (truthy fileKey) || includes fileKey ".." = false.
Proof. intros Hne Hdots. now rewrite truthy_nonempty, Hdots. Qed.

(** The run up to the answer of [head], when the edge cache gives no hit
    that may be used. *)
Lemma handleFileStream_try_after_head (b : R2Bucket) :
  negb (truthy fileKey) || includes fileKey ".." = false ->
  bucket env = Some b ->
  present (header_range request) = true \/
  caches !! getCacheKey fileKey = None ->
  handleFileStream_try caches request env fileKey
  = match r2_head b fileKey with
    | Throw e =>
        ([CacheMatch (getCacheKey fileKey); BucketHead fileKey], Throw e)
    | Return None =>
        ([CacheMatch (getCacheKey fileKey); BucketHead fileKey],
         Return (Responded (jsonResponse [ ("error", "File not found") ] 404)))
    | Return (Some info) =>
        let contentType := contentTypeOf info in
        let isImage := startsWith contentType "image/" in
        let isVideo := startsWith contentType "video/" in
        let isAudio := startsWith contentType "audio/" in
        if negb isImage && negb isVideo && negb isAudio then
          ([CacheMatch (getCacheKey fileKey); BucketHead fileKey],
           Return
             (Responded
                (jsonResponse
                   [ ("error",
                      "This endpoint is for media files only. Use /download/ for other files.");
                     ("downloadUrl", "/download/" +:+ fileKey);
                     ("contentType", contentType) ]
                   400)))
        else
          let config := getCacheConfig contentType in
          if present (header_range request) && (isVideo || isAudio) then
            match header_range request with
            | Some rh =>
                ([CacheMatch (getCacheKey fileKey); BucketHead fileKey],
                 Return
                   (Delegated
                      (handleRangeRequest caches request env fileKey rh
                         contentType (info_size info)
                         (browserCache config))))
            | None => ([], Throw NonError)
            end
          else
            let '(t, r) :=
              serveWholeObject env b fileKey contentType (info_size info)
                               config (getCacheKey fileKey) in
            (CacheMatch (getCacheKey fileKey) :: BucketHead fileKey :: t,
             match r with
             | Return a => Return (Responded a)
             | Throw e => Throw e
             end)
    end.
Proof.
  intros Hkey Hb Hnohit.
  unfold handleFileStream_try, cache_match. rewrite Hkey, Hb.
  unfold_eff.
  assert (Hhit : (if negb (present (header_range request))
                  then caches !! getCacheKey fileKey else None) = None).
  { destruct Hnohit as [-> | ->]; [reflexivity |].
    destruct (negb (present (header_range request))); reflexivity. }
  cbn beta iota zeta. rewrite Hhit.
  destruct (r2_head b fileKey) as [[info |] | e]; try reflexivity.
  cbn beta iota zeta.
  destruct (negb (startsWith (contentTypeOf info) "image/") && _ && _);
    [reflexivity |].
  destruct (header_range request) as [rh |] eqn:Hrh; cbn [present].
  - destruct (truthy rh && _); [reflexivity |].
    destruct (serveWholeObject _ _ _ _ _ _ _) as [t [a | e]]; cbn;
      rewrite ?app_nil_r; reflexivity.
  - cbn [andb].
    destruct (serveWholeObject _ _ _ _ _ _ _) as [t [a | e]]; cbn;
      rewrite ?app_nil_r; reflexivity.
Qed.

(** The whole-object steps are all that is left of the run once the path
    conditions hold. *)
Lemma handleFileStream_whole_object (b : R2Bucket) (info : R2Object) :
  whole_object_request caches request env b fileKey info ->
  handleFileStream caches request env fileKey
  = let '(t, r) :=
      serveWholeObject env b fileKey (contentTypeOf info) (info_size info)
        (getCacheConfig (contentTypeOf info)) (getCacheKey fileKey) in
    (CacheMatch (getCacheKey fileKey) :: BucketHead fileKey :: t,
     match r with
     | Return a => Return a
     | Throw e => Return (internalError e)
     end).
Proof.
  intros (Hkey & Hb & Hnohit & Hhead & Hmedia & Hnot).
  unfold handleFileStream.
  rewrite (handleFileStream_try_after_head b Hkey Hb Hnohit), Hhead.
  cbn zeta. rewrite Hnot.
  replace (negb (startsWith (contentTypeOf info) "image/")
           && negb (startsWith (contentTypeOf info) "video/")
           && negb (startsWith (contentTypeOf info) "audio/"))
    with false
    by (destruct (startsWith _ "image/"), (startsWith _ "video/"),
                 (startsWith _ "audio/"); simpl in *; congruence).
  destruct (serveWholeObject _ _ _ _ _ _ _) as [t [a | e]];
    unfold_eff; cbn; rewrite ?app_nil_r; reflexivity.
Qed.

End StreamPaths.

(** X10. With a valid file key but no bucket bound in [env], the answer is
    a 500 that says so, and no collaborator is called: the edge cache is
    not consulted either. *)
Theorem bucket_not_configured_500
  (caches : gmap string Response) (request : Request) (env : Env)
  (fileKey : string) :
  fileKey <> EmptyString -> includes fileKey ".." = false ->
  bucket env = None ->
  exists response,
    handleFileStream caches request env fileKey = ([], Return response) /\
    status response = 500 /\
    resp_body response
    = Some (BodyJson
              [ ("error", "R2 bucket not configured");
                ("debug", "env.bucket is undefined in handleFileStream") ]).
Proof.
  intros Hne Hdots Hb.
  unfold handleFileStream, handleFileStream_try.
  rewrite (valid_key_guard fileKey Hne Hdots), Hb.
  eexists. split; [reflexivity |]. split; reflexivity.
Qed.

Lemma bucket_not_configured_500_witness :
  exists response,
    handleFileStream ∅ Sample.plain {| bucket := None; KV := None |}
                     "celebrity/photo.webp"
    = ([], Return response) /\
    status response = 500 /\
    resp_body response
    = Some (BodyJson
              [ ("error", "R2 bucket not configured");
                ("debug", "env.bucket is undefined in handleFileStream") ]).
Proof.
  apply (bucket_not_configured_500
           ∅ Sample.plain {| bucket := None; KV := None |}
           "celebrity/photo.webp").
  - discriminate.
  - reflexivity.
  - reflexivity.
Defined.

(** X11. A request without a range header whose key is in the edge cache
    is answered from it: the cached status, body and headers, with
    [X-Cache] set to [HIT-WORKERS]; the only call made is the cache lookup,
    the object store is not touched. *)
Theorem edge_cache_hit_served
  (caches : gmap string Response) (request : Request) (env : Env)
  (b : R2Bucket) (fileKey : string) (cached : Response) :
  fileKey <> EmptyString -> includes fileKey ".." = false ->
  bucket env = Some b ->
  present (header_range request) = false ->
  caches !! getCacheKey fileKey = Some cached ->
  exists response,
    handleFileStream caches request env fileKey
    = ([CacheMatch (getCacheKey fileKey)], Return response) /\
    status response = status cached /\
    resp_body response = resp_body cached /\
    headers response !! "X-Cache" = Some "HIT-WORKERS" /\
    forall name,
      name <> "X-Cache" ->
      headers response !! name = headers cached !! name.
Proof.
  intros Hne Hdots Hb Hrange Hhit.
  exists (edgeHit cached). split.
  - unfold handleFileStream, handleFileStream_try, cache_match.
    rewrite (valid_key_guard fileKey Hne Hdots), Hb, Hrange, Hhit.
    reflexivity.
  - split; [reflexivity |]. split; [reflexivity |]. split.
    + apply lookup_insert_eq.
    + intros name Hname. apply lookup_insert_ne. congruence.
Qed.

Lemma edge_cache_hit_served_witness :
  let cached :=
    new_Response (Some (BodyBytes (Sample.zero_filled (Num 100)))) 200
      (buildResponseHeaders "image/webp" (Num 100) Sample.cacheControl
                            "MISS") in
  let caches : gmap string Response :=
    {[ getCacheKey "celebrity/photo.webp" := cached ]} in
  exists response,
    handleFileStream caches Sample.plain
      {| bucket := Some Sample.empty_store; KV := None |}
      "celebrity/photo.webp"
    = ([CacheMatch (getCacheKey "celebrity/photo.webp")], Return response) /\
    status response = status cached /\
    resp_body response = resp_body cached /\
    headers response !! "X-Cache" = Some "HIT-WORKERS" /\
    forall name,
      name <> "X-Cache" ->
      headers response !! name = headers cached !! name.
Proof.
  apply (edge_cache_hit_served
           {[ getCacheKey "celebrity/photo.webp" :=
                new_Response
                  (Some (BodyBytes (Sample.zero_filled (Num 100)))) 200
                  (buildResponseHeaders "image/webp" (Num 100)
                                        Sample.cacheControl "MISS") ]}
           Sample.plain
           {| bucket := Some Sample.empty_store; KV := None |}
           Sample.empty_store "celebrity/photo.webp").
  - discriminate.
  - reflexivity.
  - reflexivity.
  - reflexivity.
  - apply lookup_singleton_eq.
Defined.

(** X12. When [head] finds no object under the key, the answer is a 404
    [File not found]; the object is not fetched and nothing is cached. *)
Theorem missing_object_404
  (caches : gmap string Response) (request : Request) (env : Env)
  (b : R2Bucket) (fileKey : string) :
  fileKey <> EmptyString -> includes fileKey ".." = false ->
  bucket env = Some b ->
  present (header_range request) = true \/
  caches !! getCacheKey fileKey = None ->
  r2_head b fileKey = Return None ->
  exists response,
    handleFileStream caches request env fileKey
    = ([CacheMatch (getCacheKey fileKey); BucketHead fileKey],
       Return response) /\
    status response = 404 /\
    resp_body response = Some (BodyJson [ ("error", "File not found") ]).
Proof.
  intros Hne Hdots Hb Hnohit Hhead.
  unfold handleFileStream.
  rewrite (handleFileStream_try_after_head
             caches request env fileKey b
             (valid_key_guard fileKey Hne Hdots) Hb Hnohit), Hhead.
  eexists. split; [reflexivity |]. split; reflexivity.
Qed.

Lemma missing_object_404_witness :
  exists response,
    handleFileStream ∅ Sample.plain
      {| bucket := Some Sample.empty_store; KV := None |}
      "celebrity/photo.webp"
    = ([CacheMatch (getCacheKey "celebrity/photo.webp");
        BucketHead "celebrity/photo.webp"],
       Return response) /\
    status response = 404 /\
    resp_body response = Some (BodyJson [ ("error", "File not found") ]).
Proof.
  apply (missing_object_404
           ∅ Sample.plain
           {| bucket := Some Sample.empty_store; KV := None |}
           Sample.empty_store "celebrity/photo.webp").
  - discriminate.
  - reflexivity.
  - reflexivity.
  - right. apply lookup_empty.
  - reflexivity.
Defined.

(** X13. An object whose content type is not prefixed [image/], [video/]
    or [audio/] is refused with a 400 whose body names the download path
    [/download/<fileKey>] and the content type; this holds with or without
    a range header, and the object is never fetched. *)
Theorem non_media_object_400
  (caches : gmap string Response) (request : Request) (env : Env)
  (b : R2Bucket) (fileKey : string) (info : R2Object) :
  fileKey <> EmptyString -> includes fileKey ".." = false ->
  bucket env = Some b ->
  present (header_range request) = true \/
  caches !! getCacheKey fileKey = None ->
  r2_head b fileKey = Return (Some info) ->
  startsWith (contentTypeOf info) "image/" = false ->
  startsWith (contentTypeOf info) "video/" = false ->
  startsWith (contentTypeOf info) "audio/" = false ->
  exists response,
    handleFileStream caches request env fileKey
    = ([CacheMatch (getCacheKey fileKey); BucketHead fileKey],
       Return response) /\
    status response = 400 /\
    resp_body response
    = Some (BodyJson
              [ ("error",
                 "This endpoint is for media files only. Use /download/ for other files.");
                ("downloadUrl", "/download/" +:+ fileKey);
                ("contentType", contentTypeOf info) ]).
Proof.
  intros Hne Hdots Hb Hnohit Hhead Himage Hvideo Haudio.
  unfold handleFileStream.
  rewrite (handleFileStream_try_after_head
             caches request env fileKey b
             (valid_key_guard fileKey Hne Hdots) Hb Hnohit), Hhead.
  cbn zeta. rewrite Himage, Hvideo, Haudio.
  eexists. split; [reflexivity |]. split; reflexivity.
Qed.

Lemma non_media_object_400_witness :
  exists response,
    handleFileStream ∅ (Sample.ranged "bytes=0-99")
      {| bucket := Some (Sample.store 100 "application/pdf"); KV := None |}
      "celebrity/contract.pdf"
    = ([CacheMatch (getCacheKey "celebrity/contract.pdf");
        BucketHead "celebrity/contract.pdf"],
       Return response) /\
    status response = 400 /\
    resp_body response
    = Some (BodyJson
              [ ("error",
                 "This endpoint is for media files only. Use /download/ for other files.");
                ("downloadUrl", "/download/" +:+ "celebrity/contract.pdf");
                ("contentType",
                 contentTypeOf
                   {| info_size := Num 100;
                      info_contentType := Some "application/pdf" |}) ]).
Proof.
  apply (non_media_object_400
           ∅ (Sample.ranged "bytes=0-99")
           {| bucket := Some (Sample.store 100 "application/pdf");
              KV := None |}
           (Sample.store 100 "application/pdf") "celebrity/contract.pdf"
           {| info_size := Num 100;
              info_contentType := Some "application/pdf" |}).
  - discriminate.
  - reflexivity.
  - reflexivity.
  - left. reflexivity.
  - reflexivity.
  - reflexivity.
  - reflexivity.
  - reflexivity.
Defined.

(** X14. An object stored without a content type, or with an empty one, is
    taken to be [application/octet-stream] and therefore refused with the
    same 400. *)
Theorem object_without_content_type_400
  (caches : gmap string Response) (request : Request) (env : Env)
  (b : R2Bucket) (fileKey : string) (info : R2Object) :
  fileKey <> EmptyString -> includes fileKey ".." = false ->
  bucket env = Some b ->
  present (header_range request) = true \/
  caches !! getCacheKey fileKey = None ->
  r2_head b fileKey = Return (Some info) ->
  info_contentType info = None \/ info_contentType info = Some EmptyString ->
  exists response,
    handleFileStream caches request env fileKey
    = ([CacheMatch (getCacheKey fileKey); BucketHead fileKey],
       Return response) /\
    status response = 400 /\
    resp_body response
    = Some (BodyJson
              [ ("error",
                 "This endpoint is for media files only. Use /download/ for other files.");
                ("downloadUrl", "/download/" +:+ fileKey);
                ("contentType", "application/octet-stream") ]).
Proof.
  intros Hne Hdots Hb Hnohit Hhead Hct.
  assert (Hoctet : contentTypeOf info = "application/octet-stream").
  { unfold contentTypeOf. destruct Hct as [-> | ->]; reflexivity. }
  unfold handleFileStream.
  rewrite (handleFileStream_try_after_head
             caches request env fileKey b
             (valid_key_guard fileKey Hne Hdots) Hb Hnohit), Hhead.
  cbn zeta. rewrite Hoctet.
  eexists. split; [reflexivity |]. split; reflexivity.
Qed.

Lemma object_without_content_type_400_witness :
  let untyped : R2Bucket :=
    {| r2_head := fun _ =>
         Return (Some {| info_size := Num 100; info_contentType := None |});
       r2_get := r2_get (Sample.store 100 "image/webp");
       r2_get_range := r2_get_range (Sample.store 100 "image/webp") |} in
  exists response,
    handleFileStream ∅ Sample.plain
      {| bucket := Some untyped; KV := None |} "celebrity/blob"
    = ([CacheMatch (getCacheKey "celebrity/blob");
        BucketHead "celebrity/blob"],
       Return response) /\
    status response = 400 /\
    resp_body response
    = Some (BodyJson
              [ ("error",
                 "This endpoint is for media files only. Use /download/ for other files.");
                ("downloadUrl", "/download/" +:+ "celebrity/blob");
                ("contentType", "application/octet-stream") ]).
Proof.
  apply (object_without_content_type_400
           ∅ Sample.plain
           {| bucket :=
                Some {| r2_head := fun _ =>
                          Return (Some {| info_size := Num 100;
                                          info_contentType := None |});
                        r2_get := r2_get (Sample.store 100 "image/webp");
                        r2_get_range :=
                          r2_get_range (Sample.store 100 "image/webp") |};
              KV := None |}
           {| r2_head := fun _ =>
                Return (Some {| info_size := Num 100;
                                info_contentType := None |});
              r2_get := r2_get (Sample.store 100 "image/webp");
              r2_get_range := r2_get_range (Sample.store 100 "image/webp") |}
           "celebrity/blob"
           {| info_size := Num 100; info_contentType := None |}).
  - discriminate.
  - reflexivity.
  - reflexivity.
  - right. apply lookup_empty.
  - reflexivity.
  - left. reflexivity.
Defined.

Section WholeObjectSteps.

Variable env : Env.
Variable b : R2Bucket.
Variable fileKey contentType : string.
Variable config : CacheConfig.
Variable cacheKey : string.

(** A hit in the key-value tier. *)
Lemma serveWholeObject_kv_hit
  (kv : KVNamespace) (size : number) (data : list Byte.byte) :
  shouldCacheInKV config = true ->
  JsNum.le size (Num (maxKVSize config)) = true ->
  KV env = Some kv ->
  kv_get kv (getKVKey fileKey) = Return (Some data) ->
  let response :=
    new_Response (Some (BodyBytes data)) 200
      (buildResponseHeaders contentType (Num (Z.of_nat (List.length data)))
                            (browserCache config) "HIT-KV") in
  serveWholeObject env b fileKey contentType size config cacheKey
  = ([KVGet (getKVKey fileKey); CachePut cacheKey response],
     Return response).
Proof.
  intros Hshould Hle HKV Hget response.
  unfold serveWholeObject, kvLookup. rewrite Hshould, Hle, HKV.
  cbn zeta. rewrite Hget. reflexivity.
Qed.

(** A miss in the key-value tier, then an object within the size ceiling
    from the object store. *)
Lemma serveWholeObject_miss_buffered
  (kv : KVNamespace) (size : number) (o : R2ObjectBody)
  (stream : list Byte.byte) :
  shouldCacheInKV config = true ->
  JsNum.le size (Num (maxKVSize config)) = true ->
  KV env = Some kv ->
  kv_get kv (getKVKey fileKey) = Return None ->
  r2_get b fileKey = Return (Some o) -> obj_body o = Some stream ->
  let response :=
    new_Response (Some (BodyBytes stream)) 200
      (buildResponseHeaders contentType size (browserCache config) "MISS") in
  serveWholeObject env b fileKey contentType size config cacheKey
  = ([KVGet (getKVKey fileKey); BucketGet fileKey;
      CachePut cacheKey response;
      KVPut (getKVKey fileKey) stream (kvTTL config)],
     Return response).
Proof.
  intros Hshould Hle HKV Hmiss Hget Hbody response.
  unfold serveWholeObject, kvLookup. rewrite Hshould, Hle, HKV.
  cbn zeta. rewrite Hmiss. unfold_eff. cbn. rewrite Hget. cbn.
  rewrite Hbody. reflexivity.
Qed.

(** An object above the size ceiling. *)
Lemma serveWholeObject_streamed
  (size : number) (o : R2ObjectBody) (stream : list Byte.byte) :
  JsNum.le size (Num (maxKVSize config)) = false ->
  r2_get b fileKey = Return (Some o) -> obj_body o = Some stream ->
  serveWholeObject env b fileKey contentType size config cacheKey
  = ([BucketGet fileKey],
     Return
       (new_Response (Some (BodyBytes stream)) 200
          (buildResponseHeaders contentType size (browserCache config)
                                "MISS"))).
Proof.
  intros Hle Hget Hbody.
  unfold serveWholeObject. rewrite Hle, andb_false_r.
  unfold_eff. cbn. rewrite Hget. cbn. rewrite Hbody. reflexivity.
Qed.

(** The key-value tier is read exactly when the policy allows it, the
    object is within the ceiling and the tier is bound. *)
Lemma serveWholeObject_kv_read_iff (size : number) :
  existsb is_kv_read
    (Eff.trace
       (serveWholeObject env b fileKey contentType size config cacheKey))
  = shouldCacheInKV config
    && JsNum.le size (Num (maxKVSize config))
    && match KV env with Some _ => true | None => false end.
Proof.
  unfold serveWholeObject, kvLookup. unfold_eff.
  repeat (break_match; simplify_eq/=); reflexivity.
Qed.

(** Writes are started only for an object within the ceiling. *)
Lemma serveWholeObject_writes (size : number) :
  JsNum.le size (Num (maxKVSize config)) = false ->
  existsb is_write
    (Eff.trace
       (serveWholeObject env b fileKey contentType size config cacheKey))
  = false.
Proof.
  intros Hle. unfold serveWholeObject, kvLookup. rewrite Hle, andb_false_r.
  unfold_eff.
  repeat (break_match; simplify_eq/=); reflexivity.
Qed.

(** A policy that keeps a type out of the key-value tier keeps every
    key-value call away. *)
Lemma serveWholeObject_no_kv (size : number) :
  shouldCacheInKV config = false ->
  existsb is_kv_event
    (Eff.trace
       (serveWholeObject env b fileKey contentType size config cacheKey))
  = false.
Proof.
  intros Hshould. unfold serveWholeObject, kvLookup. rewrite Hshould.
  unfold_eff.
  repeat (break_match; simplify_eq/=); reflexivity.
Qed.

End WholeObjectSteps.

Lemma buildResponseHeaders_lookups ct len cc st :
  buildResponseHeaders ct len cc st !! "Content-Type" = Some ct /\
  buildResponseHeaders ct len cc st !! "Content-Length"
  = Some (toString len) /\
  buildResponseHeaders ct len cc st !! "Cache-Control" = Some cc /\
  buildResponseHeaders ct len cc st !! "X-Cache" = Some st /\
  buildResponseHeaders ct len cc st !! "Access-Control-Allow-Origin"
  = Some "*".
Proof.
  unfold buildResponseHeaders, Headers_of.
  cbn [foldl app corsHeaders fst snd].
  repeat split; by simplify_map_eq.
Qed.

(** X15. A whole-object request that finds the object in the key-value
    tier is answered 200 with those bytes and [X-Cache: HIT-KV]; its
    [Content-Length] is the length of the bytes found; the object itself is
    not fetched from the object store, and the answer is written to the
    edge cache in the background. *)
Theorem kv_hit_served
  (caches : gmap string Response) (request : Request) (env : Env)
  (b : R2Bucket) (kv : KVNamespace) (fileKey : string) (info : R2Object)
  (n : Z) (data : list Byte.byte) :
  whole_object_request caches request env b fileKey info ->
  info_size info = Num n ->
  shouldCacheInKV (getCacheConfig (contentTypeOf info)) = true ->
  n <= maxKVSize (getCacheConfig (contentTypeOf info)) ->
  KV env = Some kv ->
  kv_get kv (getKVKey fileKey) = Return (Some data) ->
  exists response,
    handleFileStream caches request env fileKey
    = ([CacheMatch (getCacheKey fileKey); BucketHead fileKey;
        KVGet (getKVKey fileKey);
        CachePut (getCacheKey fileKey) response],
       Return response) /\
    status response = 200 /\
    resp_body response = Some (BodyBytes data) /\
    headers response !! "X-Cache" = Some "HIT-KV" /\
    headers response !! "Content-Length"
    = Some (toString (Num (Z.of_nat (List.length data)))) /\
    headers response !! "Content-Type" = Some (contentTypeOf info).
Proof.
  intros Hreq Hsize Hshould Hn HKV Hget.
  rewrite (handleFileStream_whole_object caches request env fileKey b info
             Hreq).
  rewrite (serveWholeObject_kv_hit
             env b fileKey (contentTypeOf info)
             (getCacheConfig (contentTypeOf info)) (getCacheKey fileKey)
             kv (info_size info) data Hshould
             ltac:(rewrite Hsize; apply Z.leb_le; exact Hn) HKV Hget).
  eexists. split; [reflexivity |].
  destruct (buildResponseHeaders_lookups
              (contentTypeOf info) (Num (Z.of_nat (List.length data)))
              (browserCache (getCacheConfig (contentTypeOf info))) "HIT-KV")
    as (Hct & Hlen & _ & Hx & _).
  cbn. auto.
Qed.

Lemma kv_hit_served_witness :
  let data := Sample.zero_filled (Num 100) in
  exists response,
    handleFileStream ∅ Sample.plain
      {| bucket := Some (Sample.store 100 "image/webp");
         KV := Some (Sample.full_kv data) |}
      "celebrity/photo.webp"
    = ([CacheMatch (getCacheKey "celebrity/photo.webp");
        BucketHead "celebrity/photo.webp";
        KVGet (getKVKey "celebrity/photo.webp");
        CachePut (getCacheKey "celebrity/photo.webp") response],
       Return response) /\
    status response = 200 /\
    resp_body response = Some (BodyBytes data) /\
    headers response !! "X-Cache" = Some "HIT-KV" /\
    headers response !! "Content-Length"
    = Some (toString (Num (Z.of_nat (List.length data)))) /\
    headers response !! "Content-Type"
    = Some (contentTypeOf {| info_size := Num 100;
                             info_contentType := Some "image/webp" |}).
Proof.
  apply (kv_hit_served
           ∅ Sample.plain
           {| bucket := Some (Sample.store 100 "image/webp");
              KV := Some (Sample.full_kv (Sample.zero_filled (Num 100))) |}
           (Sample.store 100 "image/webp")
           (Sample.full_kv (Sample.zero_filled (Num 100)))
           "celebrity/photo.webp"
           {| info_size := Num 100; info_contentType := Some "image/webp" |}
           100 (Sample.zero_filled (Num 100))).
  - split; [reflexivity |]. split; [reflexivity |].
    split; [right; apply lookup_empty |].
    split; [reflexivity |]. split; reflexivity.
  - reflexivity.
  - reflexivity.
  - vm_compute. discriminate.
  - reflexivity.
  - reflexivity.
Defined.

(** X16. A whole-object request for an object within the size ceiling of a
    type the policy keeps in the key-value tier, found in no cache, is
    fetched from the object store and answered 200 with [X-Cache: MISS]
    and the size [head] reported as [Content-Length]; in the background
    the answer is written to the edge cache and the bytes to the key-value
    tier with the policy's TTL. *)
Theorem miss_populates_both_tiers
  (caches : gmap string Response) (request : Request) (env : Env)
  (b : R2Bucket) (kv : KVNamespace) (fileKey : string) (info : R2Object)
  (n : Z) (o : R2ObjectBody) (stream : list Byte.byte) :
  whole_object_request caches request env b fileKey info ->
  info_size info = Num n ->
  shouldCacheInKV (getCacheConfig (contentTypeOf info)) = true ->
  n <= maxKVSize (getCacheConfig (contentTypeOf info)) ->
  KV env = Some kv ->
  kv_get kv (getKVKey fileKey) = Return None ->
  r2_get b fileKey = Return (Some o) -> obj_body o = Some stream ->
  exists response,
    handleFileStream caches request env fileKey
    = ([CacheMatch (getCacheKey fileKey); BucketHead fileKey;
        KVGet (getKVKey fileKey); BucketGet fileKey;
        CachePut (getCacheKey fileKey) response;
        KVPut (getKVKey fileKey) stream
              (kvTTL (getCacheConfig (contentTypeOf info)))],
       Return response) /\
    status response = 200 /\
    resp_body response = Some (BodyBytes stream) /\
    headers response !! "X-Cache" = Some "MISS" /\
    headers response !! "Content-Length" = Some (toString (Num n)) /\
    headers response !! "Cache-Control"
    = Some (browserCache (getCacheConfig (contentTypeOf info))).
Proof.
  intros Hreq Hsize Hshould Hn HKV Hmiss Hget Hbody.
  rewrite (handleFileStream_whole_object caches request env fileKey b info
             Hreq).
  rewrite (serveWholeObject_miss_buffered
             env b fileKey (contentTypeOf info)
             (getCacheConfig (contentTypeOf info)) (getCacheKey fileKey)
             kv (info_size info) o stream Hshould
             ltac:(rewrite Hsize; apply Z.leb_le; exact Hn)
             HKV Hmiss Hget Hbody).
  rewrite Hsize.
  eexists. split; [reflexivity |].
  destruct (buildResponseHeaders_lookups
              (contentTypeOf info) (Num n)
              (browserCache (getCacheConfig (contentTypeOf info))) "MISS")
    as (_ & Hlen & Hcc & Hx & _).
  cbn. auto.
Qed.

Lemma miss_populates_both_tiers_witness :
  let info :=
    {| info_size := Num 100; info_contentType := Some "image/webp" |} in
  let stream := Sample.zero_filled (Num 100) in
  exists response,
    handleFileStream ∅ Sample.plain
      {| bucket := Some (Sample.store 100 "image/webp");
         KV := Some Sample.empty_kv |}
      "celebrity/photo.webp"
    = ([CacheMatch (getCacheKey "celebrity/photo.webp");
        BucketHead "celebrity/photo.webp";
        KVGet (getKVKey "celebrity/photo.webp");
        BucketGet "celebrity/photo.webp";
        CachePut (getCacheKey "celebrity/photo.webp") response;
        KVPut (getKVKey "celebrity/photo.webp") stream
              (kvTTL (getCacheConfig (contentTypeOf info)))],
       Return response) /\
    status response = 200 /\
    resp_body response = Some (BodyBytes stream) /\
    headers response !! "X-Cache" = Some "MISS" /\
    headers response !! "Content-Length" = Some (toString (Num 100)) /\
    headers response !! "Cache-Control"
    = Some (browserCache (getCacheConfig (contentTypeOf info))).
Proof.
  apply (miss_populates_both_tiers
           ∅ Sample.plain
           {| bucket := Some (Sample.store 100 "image/webp");
              KV := Some Sample.empty_kv |}
           (Sample.store 100 "image/webp") Sample.empty_kv
           "celebrity/photo.webp"
           {| info_size := Num 100; info_contentType := Some "image/webp" |}
           100
           {| obj_body := Some (Sample.zero_filled (Num 100)) |}
           (Sample.zero_filled (Num 100))).
  - split; [reflexivity |]. split; [reflexivity |].
    split; [right; apply lookup_empty |].
    split; [reflexivity |]. split; reflexivity.
  - reflexivity.
  - reflexivity.
  - vm_compute. discriminate.
  - reflexivity.
  - reflexivity.
  - reflexivity.
  - reflexivity.
Defined.

(** X17. A whole-object request for an object above the size ceiling of
    its type is streamed from the object store as a 200 with
    [X-Cache: MISS]: the key-value tier is not read and nothing is written
    to either cache.  The ceiling of [video/] is 0, so this is the path of
    every video that is not empty. *)
Theorem large_object_streamed_uncached
  (caches : gmap string Response) (request : Request) (env : Env)
  (b : R2Bucket) (fileKey : string) (info : R2Object)
  (n : Z) (o : R2ObjectBody) (stream : list Byte.byte) :
  whole_object_request caches request env b fileKey info ->
  info_size info = Num n ->
  maxKVSize (getCacheConfig (contentTypeOf info)) < n ->
  r2_get b fileKey = Return (Some o) -> obj_body o = Some stream ->
  (startsWith (contentTypeOf info) "video/" = true ->
   maxKVSize (getCacheConfig (contentTypeOf info)) = 0) /\
  exists response,
    handleFileStream caches request env fileKey
    = ([CacheMatch (getCacheKey fileKey); BucketHead fileKey;
        BucketGet fileKey],
       Return response) /\
    status response = 200 /\
    resp_body response = Some (BodyBytes stream) /\
    headers response !! "X-Cache" = Some "MISS" /\
    headers response !! "Content-Length" = Some (toString (Num n)).
Proof.
  intros Hreq Hsize Hn Hget Hbody. split.
  - intros Hvideo. unfold getCacheConfig. rewrite Hvideo.
    destruct (startsWith (contentTypeOf info) "image/") eqn:Himage;
      [| reflexivity].
    apply image_is_not_video_or_audio in Himage as [Hv _]. congruence.
  - rewrite (handleFileStream_whole_object caches request env fileKey b info
               Hreq).
    rewrite (serveWholeObject_streamed
               env b fileKey (contentTypeOf info)
               (getCacheConfig (contentTypeOf info)) (getCacheKey fileKey)
               (info_size info) o stream
               ltac:(rewrite Hsize; apply Z.leb_gt; exact Hn) Hget Hbody).
    rewrite Hsize.
    eexists. split; [reflexivity |].
    destruct (buildResponseHeaders_lookups
                (contentTypeOf info) (Num n)
                (browserCache (getCacheConfig (contentTypeOf info))) "MISS")
      as (_ & Hlen & _ & Hx & _).
    cbn. auto.
Qed.

Lemma large_object_streamed_uncached_witness :
  let info :=
    {| info_size := Num 1000; info_contentType := Some "video/mp4" |} in
  (startsWith (contentTypeOf info) "video/" = true ->
   maxKVSize (getCacheConfig (contentTypeOf info)) = 0) /\
  exists response,
    handleFileStream ∅ Sample.plain
      {| bucket := Some (Sample.store 1000 "video/mp4");
         KV := Some Sample.empty_kv |}
      "celebrity/clip.mp4"
    = ([CacheMatch (getCacheKey "celebrity/clip.mp4");
        BucketHead "celebrity/clip.mp4";
        BucketGet "celebrity/clip.mp4"],
       Return response) /\
    status response = 200 /\
    resp_body response = Some (BodyBytes (Sample.zero_filled (Num 1000))) /\
    headers response !! "X-Cache" = Some "MISS" /\
    headers response !! "Content-Length" = Some (toString (Num 1000)).
Proof.
  apply (large_object_streamed_uncached
           ∅ Sample.plain
           {| bucket := Some (Sample.store 1000 "video/mp4");
              KV := Some Sample.empty_kv |}
           (Sample.store 1000 "video/mp4") "celebrity/clip.mp4"
           {| info_size := Num 1000; info_contentType := Some "video/mp4" |}
           1000
           {| obj_body := Some (Sample.zero_filled (Num 1000)) |}
           (Sample.zero_filled (Num 1000))).
  - split; [reflexivity |]. split; [reflexivity |].
    split; [right; apply lookup_empty |].
    split; [reflexivity |]. split; reflexivity.
  - reflexivity.
  - vm_compute. reflexivity.
  - reflexivity.
  - reflexivity.
Defined.

(** X18. The key-value tier is read on the whole-object path exactly when
    the policy of the content type allows it and the size [head] reports
    is at most the policy's ceiling: an object of exactly the ceiling is
    eligible, one byte more is not. *)
Theorem kv_read_eligibility
  (caches : gmap string Response) (request : Request) (env : Env)
  (b : R2Bucket) (kv : KVNamespace) (fileKey : string) (info : R2Object)
  (n : Z) :
  whole_object_request caches request env b fileKey info ->
  info_size info = Num n ->
  KV env = Some kv ->
  existsb is_kv_read
    (Eff.trace (handleFileStream caches request env fileKey))
  = shouldCacheInKV (getCacheConfig (contentTypeOf info))
    && (n <=? maxKVSize (getCacheConfig (contentTypeOf info))).
Proof.
  intros Hreq Hsize HKV.
  rewrite (handleFileStream_whole_object caches request env fileKey b info
             Hreq).
  pose proof (serveWholeObject_kv_read_iff
                env b fileKey (contentTypeOf info)
                (getCacheConfig (contentTypeOf info)) (getCacheKey fileKey)
                (info_size info)) as Hiff.
  destruct (serveWholeObject _ _ _ _ _ _ _) as [t r].
  cbn [Eff.trace fst existsb is_kv_read orb] in *.
  rewrite Hiff, HKV, Hsize, andb_true_r. reflexivity.
Qed.

Lemma kv_read_eligibility_witness :
  let info :=
    {| info_size := Num 5242881; info_contentType := Some "image/webp" |} in
  existsb is_kv_read
    (Eff.trace
       (handleFileStream ∅ Sample.plain
          {| bucket := Some (Sample.store 5242881 "image/webp");
             KV := Some Sample.empty_kv |}
          "celebrity/photo.webp"))
  = shouldCacheInKV (getCacheConfig (contentTypeOf info))
    && (5242881 <=? maxKVSize (getCacheConfig (contentTypeOf info))).
Proof.
  apply (kv_read_eligibility
           ∅ Sample.plain
           {| bucket := Some (Sample.store 5242881 "image/webp");
              KV := Some Sample.empty_kv |}
           (Sample.store 5242881 "image/webp") Sample.empty_kv
           "celebrity/photo.webp"
           {| info_size := Num 5242881;
              info_contentType := Some "image/webp" |}
           5242881).
  - split; [reflexivity |]. split; [reflexivity |].
    split; [right; apply lookup_empty |].
    split; [reflexivity |]. split; reflexivity.
  - reflexivity.
  - reflexivity.
Defined.

Section StreamOutcomes.

Variable caches : gmap string Response.
Variable request : Request.
Variable env : Env.
Variable fileKey : string.

(** The [try] block hands the request to [handleRangeRequest] only when it
    carries a range header. *)
Lemma handleFileStream_try_delegates (p : Eff Response) :
  Eff.result (handleFileStream_try caches request env fileKey)
  = Return (Delegated p) ->
  present (header_range request) = true.
Proof.
  unfold handleFileStream_try, cache_match. unfold_eff.
  destruct (present (header_range request)); [reflexivity |].
  repeat (break_path; simplify_eq/=); try discriminate.
  all: destruct (serveWholeObject _ _ _ _ _ _ _) as [t [a | e]];
    cbn; discriminate.
Qed.

Lemma handleFileStream_edge_hit (b : R2Bucket) (cached : Response) :
  negb (truthy fileKey) || includes fileKey ".." = false ->
  bucket env = Some b ->
  present (header_range request) = false ->
  forall caches' : gmap string Response,
    caches' !! getCacheKey fileKey = Some cached ->
    handleFileStream caches' request env fileKey
    = ([CacheMatch (getCacheKey fileKey)], Return (edgeHit cached)).
Proof.
  intros Hkey Hb Hrange caches' Hhit.
  unfold handleFileStream, handleFileStream_try, cache_match.
  rewrite Hkey, Hb, Hrange, Hhit. reflexivity.
Qed.

(** What a run without range header has done when it started a write to
    the edge cache. *)
Lemma handleFileStream_put_shape (url : string) (r : Response) :
  present (header_range request) = false ->
  In (CachePut url r)
     (Eff.trace (handleFileStream caches request env fileKey)) ->
  negb (truthy fileKey) || includes fileKey ".." = false /\
  (exists b, bucket env = Some b) /\
  url = getCacheKey fileKey /\
  Eff.result (handleFileStream caches request env fileKey) = Return r /\
  run_background (Eff.trace (handleFileStream caches request env fileKey))
                 caches !! url = Some r.
Proof.
  intros Hrange.
  unfold handleFileStream, handleFileStream_try, cache_match,
         serveWholeObject, kvLookup, run_background.
  rewrite Hrange. unfold_eff.
  repeat (break_match; simplify_eq/=);
    try (intuition discriminate).
  all: intros H;
    repeat (destruct H as [H | H]; try discriminate; try contradiction).
  all: injection H as <- <-.
  all: repeat split; eauto; apply lookup_insert_eq.
Qed.

End StreamOutcomes.

(** X19. Whenever a request without range header starts a write to the
    edge cache, the write is under the key of the file and holds the very
    answer the request returns; once the write has completed, the same
    request is answered from the edge cache alone, with the same status,
    body and headers, except for [X-Cache: HIT-WORKERS]. *)
Theorem edge_cache_round_trip
  (caches : gmap string Response) (request : Request) (env : Env)
  (fileKey url : string) (r : Response) :
  present (header_range request) = false ->
  In (CachePut url r)
     (Eff.trace (handleFileStream caches request env fileKey)) ->
  let first := handleFileStream caches request env fileKey in
  let second :=
    handleFileStream (run_background (Eff.trace first) caches) request env
                     fileKey in
  url = getCacheKey fileKey /\
  Eff.result first = Return r /\
  second
  = ([CacheMatch (getCacheKey fileKey)],
     Return {| status := status r;
               headers := <["X-Cache" := "HIT-WORKERS"]> (headers r);
               resp_body := resp_body r |}).
Proof.
  intros Hrange Hput first second.
  destruct (handleFileStream_put_shape caches request env fileKey url r
              Hrange Hput) as (Hkey & [b Hb] & Hurl & Hres & Hlook).
  split; [exact Hurl |]. split; [exact Hres |].
  subst second first. rewrite Hurl in Hlook.
  apply (handleFileStream_edge_hit request env fileKey b r Hkey Hb Hrange).
  exact Hlook.
Qed.

Lemma edge_cache_round_trip_witness :
  let env :=
    {| bucket := Some (Sample.store 100 "image/webp");
       KV := Some Sample.empty_kv |} in
  let r :=
    new_Response (Some (BodyBytes (Sample.zero_filled (Num 100)))) 200
      (buildResponseHeaders "image/webp" (Num 100) Sample.cacheControl
                            "MISS") in
  let first := handleFileStream ∅ Sample.plain env "celebrity/photo.webp" in
  let second :=
    handleFileStream (run_background (Eff.trace first) ∅) Sample.plain env
                     "celebrity/photo.webp" in
  getCacheKey "celebrity/photo.webp" = getCacheKey "celebrity/photo.webp" /\
  Eff.result first = Return r /\
  second
  = ([CacheMatch (getCacheKey "celebrity/photo.webp")],
     Return {| status := status r;
               headers := <["X-Cache" := "HIT-WORKERS"]> (headers r);
               resp_body := resp_body r |}).
Proof.
  apply (edge_cache_round_trip
           ∅ Sample.plain
           {| bucket := Some (Sample.store 100 "image/webp");
              KV := Some Sample.empty_kv |}
           "celebrity/photo.webp" (getCacheKey "celebrity/photo.webp")
           (new_Response
              (Some (BodyBytes (Sample.zero_filled (Num 100)))) 200
              (buildResponseHeaders "image/webp" (Num 100)
                                    Sample.cacheControl "MISS"))).
  - reflexivity.
  - right. right. right. right. left. reflexivity.
Defined.

(** X20. A request without range header never makes [handleFileStream]
    reject: whatever the collaborators do, throwing included, it completes
    with a response. *)
Theorem no_range_header_never_rejects
  (caches : gmap string Response) (request : Request) (env : Env)
  (fileKey : string) :
  present (header_range request) = false ->
  exists response,
    Eff.result (handleFileStream caches request env fileKey)
    = Return response.
Proof.
  intros Hrange. unfold handleFileStream.
  pose proof (handleFileStream_try_delegates caches request env fileKey)
    as Hdelegates.
  destruct (handleFileStream_try caches request env fileKey)
    as [t [[response | p] | e]].
  - exists response. unfold_eff. cbn. reflexivity.
  - specialize (Hdelegates p eq_refl). congruence.
  - exists (internalError e). unfold_eff. cbn. reflexivity.
Qed.

Lemma no_range_header_never_rejects_witness :
  exists response,
    Eff.result
      (handleFileStream ∅ Sample.plain
         {| bucket := Some Sample.failing_store;
            KV := Some Sample.failing_kv |}
         "celebrity/photo.webp")
    = Return response.
Proof.
  apply (no_range_header_never_rejects
           ∅ Sample.plain
           {| bucket := Some Sample.failing_store;
              KV := Some Sample.failing_kv |}
           "celebrity/photo.webp").
  reflexivity.
Defined.

(** X21. When [head] throws, the top-level [catch] answers 500 with the
    error's message as [details], or [Unknown error] when what was thrown
    is not an [Error]; the object is not fetched. *)
Theorem head_failure_500
  (caches : gmap string Response) (request : Request) (env : Env)
  (b : R2Bucket) (fileKey : string) (e : Thrown) :
  fileKey <> EmptyString -> includes fileKey ".." = false ->
  bucket env = Some b ->
  present (header_range request) = true \/
  caches !! getCacheKey fileKey = None ->
  r2_head b fileKey = Throw e ->
  exists response,
    handleFileStream caches request env fileKey
    = ([CacheMatch (getCacheKey fileKey); BucketHead fileKey],
       Return response) /\
    status response = 500 /\
    resp_body response
    = Some (BodyJson
              [ ("error", "Internal server error");
                ("details",
                 match e with
                 | ErrorObject message => message
                 | NonError => "Unknown error"
                 end) ]).
Proof.
  intros Hne Hdots Hb Hnohit Hhead.
  unfold handleFileStream.
  rewrite (handleFileStream_try_after_head
             caches request env fileKey b
             (valid_key_guard fileKey Hne Hdots) Hb Hnohit), Hhead.
  eexists. split; [reflexivity |]. split; reflexivity.
Qed.

Lemma head_failure_500_witness :
  exists response,
    handleFileStream ∅ Sample.plain
      {| bucket := Some Sample.failing_store; KV := None |}
      "celebrity/photo.webp"
    = ([CacheMatch (getCacheKey "celebrity/photo.webp");
        BucketHead "celebrity/photo.webp"],
       Return response) /\
    status response = 500 /\
    resp_body response
    = Some (BodyJson
              [ ("error", "Internal server error");
                ("details", "R2 unavailable") ]).
Proof.
  apply (head_failure_500
           ∅ Sample.plain
           {| bucket := Some Sample.failing_store; KV := None |}
           Sample.failing_store "celebrity/photo.webp"
           (ErrorObject "R2 unavailable")).
  - discriminate.
  - reflexivity.
  - reflexivity.
  - right. apply lookup_empty.
  - reflexivity.
Defined.

(** X22. When the range read of a delegated range request throws, the
    failure is not turned into a 500 by the [catch] of [handleFileStream]:
    the promise of [handleRangeRequest] is returned without being awaited,
    and [handleFileStream] rejects with the same error. *)
Theorem range_read_failure_escapes_catch
  (caches : gmap string Response) (request : Request) (env : Env)
  (b : R2Bucket) (fileKey rh : string) (info : R2Object) (S a e : Z)
  (err : Thrown) :
  fileKey <> EmptyString -> includes fileKey ".." = false ->
  bucket env = Some b ->
  r2_head b fileKey = Return (Some info) ->
  startsWith (contentTypeOf info) "video/"
  || startsWith (contentTypeOf info) "audio/" = true ->
  header_range request = Some rh -> truthy rh = true ->
  info_size info = Num S ->
  parseRange rh (contentTypeOf info) (Num S) = Some (Num a, Num e) ->
  0 <= a <= e -> a < S ->
  (a = 0 -> caches !! rangeCacheUrl fileKey (Num e) = None) ->
  r2_get_range b fileKey (Num a) (Num (e - a + 1)) = Throw err ->
  Eff.result (handleFileStream caches request env fileKey) = Throw err.
Proof.
  intros Hne Hdots Hb Hhead Hmedia Hrh Htruthy Hsize Hparse Hae HS Hcold
         Hget.
  assert (Hpresent : present (header_range request) = true)
    by (rewrite Hrh; exact Htruthy).
  unfold handleFileStream.
  rewrite (handleFileStream_try_after_head
             caches request env fileKey b
             (valid_key_guard fileKey Hne Hdots) Hb (or_introl Hpresent)),
    Hhead.
  cbn zeta. rewrite Hpresent, Hmedia, Hrh, Hsize.
  replace (negb (startsWith (contentTypeOf info) "image/")
           && negb (startsWith (contentTypeOf info) "video/")
           && negb (startsWith (contentTypeOf info) "audio/"))
    with false
    by (destruct (startsWith _ "image/"), (startsWith _ "video/"),
                 (startsWith _ "audio/"); simpl in *; congruence).
  cbn [andb].
  assert (Hrange :
    Eff.result
      (handleRangeRequest caches request env fileKey rh (contentTypeOf info)
         (Num S) (browserCache (getCacheConfig (contentTypeOf info))))
    = Throw err).
  { unfold handleRangeRequest.
    rewrite Hparse, rangeInvalid_false by lia. rewrite Hb.
    unfold JsNum.strict_eq, cache_match.
    destruct (Z.eqb_spec a 0) as [-> | _].
    - rewrite (Hcold eq_refl). unfold_eff. cbn. rewrite Hget. reflexivity.
    - unfold_eff. cbn. rewrite Hget. reflexivity. }
  destruct (handleRangeRequest _ _ _ _ _ _ _ _) as [t r].
  cbn in Hrange. subst r. reflexivity.
Qed.

Lemma range_read_failure_escapes_catch_witness :
  Eff.result
    (handleFileStream ∅ (Sample.ranged "bytes=0-99")
       {| bucket := Some (Sample.store_failing_ranges 1000 "video/mp4");
          KV := None |}
       "celebrity/clip.mp4")
  = Throw (ErrorObject "R2 unavailable").
Proof.
  apply (range_read_failure_escapes_catch
           ∅ (Sample.ranged "bytes=0-99")
           {| bucket := Some (Sample.store_failing_ranges 1000 "video/mp4");
              KV := None |}
           (Sample.store_failing_ranges 1000 "video/mp4")
           "celebrity/clip.mp4" "bytes=0-99"
           {| info_size := Num 1000; info_contentType := Some "video/mp4" |}
           1000 0 99 (ErrorObject "R2 unavailable")).
  - discriminate.
  - reflexivity.
  - reflexivity.
  - reflexivity.
  - reflexivity.
  - reflexivity.
  - reflexivity.
  - reflexivity.
  - reflexivity.
  - lia.
  - lia.
  - intros _. apply lookup_empty.
  - reflexivity.
Defined.

Lemma video_is_not_image (ct : string) :
  startsWith ct "video/" = true -> startsWith ct "image/" = false.
Proof.
  unfold startsWith. intros H.
  apply prefix_inv in H as [q ->]. reflexivity.
Qed.

Lemma range_events_are_not_kv (t : list Event) :
  forallb is_range_event t = true -> existsb is_kv_event t = false.
Proof.
  induction t as [| ev t IH]; [reflexivity |].
  cbn [forallb existsb]. intros [Hev Ht]%andb_prop.
  rewrite (IH Ht). destruct ev; try discriminate; reflexivity.
Qed.

(** X23. A request for an object whose content type starts with [video/]
    never calls the key-value tier, neither to read nor to write, with or
    without a range header and whatever the caches hold. *)
Theorem video_never_uses_kv
  (caches : gmap string Response) (request : Request) (env : Env)
  (b : R2Bucket) (fileKey : string) (info : R2Object) :
  bucket env = Some b ->
  r2_head b fileKey = Return (Some info) ->
  startsWith (contentTypeOf info) "video/" = true ->
  existsb is_kv_event
    (Eff.trace (handleFileStream caches request env fileKey))
  = false.
Proof.
  intros Hb Hhead Hvideo.
  assert (Hconfig : getCacheConfig (contentTypeOf info)
                    = CACHE_CONFIGS.video).
  { unfold getCacheConfig.
    now rewrite (video_is_not_image _ Hvideo), Hvideo. }
  unfold handleFileStream, handleFileStream_try, cache_match.
  rewrite Hb. unfold_eff.
  destruct (negb (truthy fileKey) || includes fileKey ".."); [reflexivity |].
  cbn beta iota zeta.
  destruct (if negb (present (header_range request))
            then caches !! getCacheKey fileKey else None);
    [reflexivity |].
  rewrite Hhead. cbn beta iota zeta.
  rewrite Hvideo, (video_is_not_image _ Hvideo), Hconfig.
  cbn [negb andb orb].
  destruct (present (header_range request)) eqn:Hpresent; cbn [andb].
  - destruct (header_range request) as [rh |]; [| discriminate].
    pose proof (handleRangeRequest_events
                  caches request env fileKey rh (contentTypeOf info)
                  (info_size info) (browserCache CACHE_CONFIGS.video))
      as Hev.
    apply range_events_are_not_kv in Hev.
    destruct (handleRangeRequest _ _ _ _ _ _ _ _) as [t r].
    cbn in *. exact Hev.
  - pose proof (serveWholeObject_no_kv
                  env b fileKey (contentTypeOf info) CACHE_CONFIGS.video
                  (getCacheKey fileKey) (info_size info) eq_refl) as Hkv.
    destruct (serveWholeObject _ _ _ _ _ _ _) as [t [a | e]];
      cbn in *; rewrite ?app_nil_r; exact Hkv.
Qed.

Lemma video_never_uses_kv_witness :
  existsb is_kv_event
    (Eff.trace
       (handleFileStream ∅ Sample.plain
          {| bucket := Some (Sample.store 0 "video/mp4");
             KV := Some Sample.empty_kv |}
          "celebrity/clip.mp4"))
  = false.
Proof.
  apply (video_never_uses_kv
           ∅ Sample.plain
           {| bucket := Some (Sample.store 0 "video/mp4");
              KV := Some Sample.empty_kv |}
           (Sample.store 0 "video/mp4") "celebrity/clip.mp4"
           {| info_size := Num 0; info_contentType := Some "video/mp4" |}).
  - reflexivity.
  - reflexivity.
  - reflexivity.
Defined.

(** * The router *)

(** X24. An [OPTIONS] request, whatever its path, is answered with the CORS
    preflight response: status 200, no body, the three CORS headers; no
    collaborator is called, and the bucket need not be configured. *)
Theorem options_is_cors_preflight
  (caches : gmap string Response) (incoming : Incoming) (env : Env) :
  in_method incoming = "OPTIONS" ->
  exists response,
    fetch caches incoming env = ([], Return response) /\
    status response = 200 /\
    resp_body response = None /\
    headers response !! "Access-Control-Allow-Origin" = Some "*" /\
    headers response !! "Access-Control-Allow-Methods"
    = Some "GET, POST, DELETE, OPTIONS" /\
    headers response !! "Access-Control-Allow-Headers"
    = Some "Content-Type, Authorization".
Proof.
  intros Hmethod. unfold fetch. rewrite Hmethod.
  exists handleCorsRequest. split; [reflexivity |].
  repeat split; by vm_compute.
Qed.

Lemma options_is_cors_preflight_witness :
  exists response,
    fetch ∅
      {| in_method := "OPTIONS";
         in_pathname := "/celebrity/photo.webp";
         in_request := Sample.plain |}
      {| bucket := None; KV := None |}
    = ([], Return response) /\
    status response = 200 /\
    resp_body response = None /\
    headers response !! "Access-Control-Allow-Origin" = Some "*" /\
    headers response !! "Access-Control-Allow-Methods"
    = Some "GET, POST, DELETE, OPTIONS" /\
    headers response !! "Access-Control-Allow-Headers"
    = Some "Content-Type, Authorization".
Proof.
  apply (options_is_cors_preflight
           ∅
           {| in_method := "OPTIONS";
              in_pathname := "/celebrity/photo.webp";
              in_request := Sample.plain |}
           {| bucket := None; KV := None |}).
  reflexivity.
Defined.

(** X25. A [GET] whose path starts with [/celebrity/] is handled by
    [handleFileStream] with the path minus its leading slash as file key,
    so the key keeps its [celebrity/] prefix and is never empty; a path
    that contains [..] is answered 400 without any collaborator call. *)
Theorem get_media_path_is_streamed
  (caches : gmap string Response) (incoming : Incoming) (env : Env)
  (rest : string) :
  in_method incoming = "GET" ->
  in_pathname incoming = "/celebrity/" +:+ rest ->
  fetch caches incoming env
  = handleFileStream caches (in_request incoming) env
                     ("celebrity/" +:+ rest) /\
  "celebrity/" +:+ rest <> EmptyString /\
  ((exists p q, rest = p +:+ ".." +:+ q) ->
   exists response,
     fetch caches incoming env = ([], Return response) /\
     status response = 400).
Proof.
  intros Hmethod Hpath.
  assert (Hfetch :
    fetch caches incoming env
    = handleFileStream caches (in_request incoming) env
                       ("celebrity/" +:+ rest)).
  { unfold fetch. rewrite Hmethod, Hpath.
    unfold startsWith. rewrite prefix_app. reflexivity. }
  split; [exact Hfetch |]. split; [discriminate |].
  intros (p & q & ->). rewrite Hfetch.
  unfold handleFileStream, handleFileStream_try.
  assert (Hdots : includes ("celebrity/" +:+ p +:+ ".." +:+ q) ".." = true).
  { apply includes_spec. exists ("celebrity/" +:+ p), q.
    reflexivity. }
  rewrite Hdots, orb_true_r.
  eexists. split; reflexivity.
Qed.

Lemma get_media_path_is_streamed_witness :
  let incoming :=
    {| in_method := "GET";
       in_pathname := "/celebrity/jyoon/main/jyoon.webp";
       in_request := Sample.plain |} in
  let env :=
    {| bucket := Some (Sample.store 100 "image/webp"); KV := None |} in
  fetch ∅ incoming env
  = handleFileStream ∅ (in_request incoming) env
                     ("celebrity/" +:+ "jyoon/main/jyoon.webp") /\
  "celebrity/" +:+ "jyoon/main/jyoon.webp" <> EmptyString /\
  ((exists p q, "jyoon/main/jyoon.webp" = p +:+ ".." +:+ q) ->
   exists response,
     fetch ∅ incoming env = ([], Return response) /\
     status response = 400).
Proof.
  apply (get_media_path_is_streamed
           ∅
           {| in_method := "GET";
              in_pathname := "/celebrity/jyoon/main/jyoon.webp";
              in_request := Sample.plain |}
           {| bucket := Some (Sample.store 100 "image/webp"); KV := None |}
           "jyoon/main/jyoon.webp").
  - reflexivity.
  - reflexivity.
Defined.

(** X26. Any request that is neither [OPTIONS] nor a [GET] of the root or
    of a path under [/celebrity/] is answered 404 [Not Found] without any
    collaborator call; in particular no other method reaches the object
    store, and [/celebrity] without the trailing slash is not a media
    path. *)
Theorem unrouted_request_404
  (caches : gmap string Response) (incoming : Incoming) (env : Env) :
  in_method incoming <> "OPTIONS" ->
  in_method incoming <> "GET" \/
  (startsWith (in_pathname incoming) "/celebrity/" = false /\
   in_pathname incoming <> "/" /\
   in_pathname incoming <> EmptyString) ->
  exists response,
    fetch caches incoming env = ([], Return response) /\
    status response = 404 /\
    resp_body response = Some (BodyJson [ ("error", "Not Found") ]).
Proof.
  intros Hoptions Hother. unfold fetch.
  rewrite (proj2 (String.eqb_neq _ _) Hoptions).
  exists (jsonResponse [ ("error", "Not Found") ] 404).
  split; [| split; reflexivity].
  destruct (String.eqb_spec (in_method incoming) "GET") as [Hget | Hget];
    [| reflexivity].
  destruct Hother as [Hne | (Hprefix & Hroot & Hempty)]; [congruence |].
  cbn zeta. rewrite Hprefix.
  rewrite (proj2 (String.eqb_neq _ _) Hroot),
          (proj2 (String.eqb_neq _ _) Hempty).
  reflexivity.
Qed.

Lemma unrouted_request_404_witness :
  exists response,
    fetch ∅
      {| in_method := "POST";
         in_pathname := "/celebrity/photo.webp";
         in_request := Sample.plain |}
      {| bucket := Some (Sample.store 100 "image/webp"); KV := None |}
    = ([], Return response) /\
    status response = 404 /\
    resp_body response = Some (BodyJson [ ("error", "Not Found") ]).
Proof.
  apply (unrouted_request_404
           ∅
           {| in_method := "POST";
              in_pathname := "/celebrity/photo.webp";
              in_request := Sample.plain |}
           {| bucket := Some (Sample.store 100 "image/webp");
              KV := None |}).
  - discriminate.
  - left. discriminate.
Defined.

Example celebrity_without_slash_is_not_found :
  Eff.result
    (fetch ∅
       {| in_method := "GET"; in_pathname := "/celebrity";
          in_request := Sample.plain |}
       {| bucket := Some (Sample.store 100 "image/webp"); KV := None |})
  = Return (jsonResponse [ ("error", "Not Found") ] 404).
Proof. reflexivity. Qed.

(** * Range requests through the entry point, and the edge-cache invariant *)

(** X27. A request with a range header for a [video/] or [audio/] object
    is answered by [handleRangeRequest] alone, called with the content
    type and size [head] reported and the one-year cache directive; a
    whole-object entry of the edge cache is not used for it, and neither
    the key-value tier nor the whole object is read. *)
Theorem ranged_media_request_is_delegated
  (caches : gmap string Response) (request : Request) (env : Env)
  (b : R2Bucket) (fileKey rh : string) (info : R2Object) :
  fileKey <> EmptyString -> includes fileKey ".." = false ->
  bucket env = Some b ->
  header_range request = Some rh -> truthy rh = true ->
  r2_head b fileKey = Return (Some info) ->
  startsWith (contentTypeOf info) "video/"
  || startsWith (contentTypeOf info) "audio/" = true ->
  let ranged :=
    handleRangeRequest caches request env fileKey rh (contentTypeOf info)
      (info_size info) "public, max-age=31536000, immutable" in
  handleFileStream caches request env fileKey
  = (CacheMatch (getCacheKey fileKey) :: BucketHead fileKey
       :: Eff.trace ranged,
     Eff.result ranged) /\
  existsb is_kv_event
    (Eff.trace (handleFileStream caches request env fileKey)) = false /\
  existsb is_bucket_get
    (Eff.trace (handleFileStream caches request env fileKey)) = false.
Proof.
  intros Hne Hdots Hb Hrh Htruthy Hhead Hmedia ranged.
  assert (Hpresent : present (header_range request) = true)
    by (rewrite Hrh; exact Htruthy).
  assert (Hcc : browserCache (getCacheConfig (contentTypeOf info))
                = "public, max-age=31536000, immutable").
  { unfold getCacheConfig.
    destruct (startsWith _ "image/"), (startsWith _ "video/"),
             (startsWith _ "audio/"); reflexivity. }
  assert (Hrun :
    handleFileStream caches request env fileKey
    = (CacheMatch (getCacheKey fileKey) :: BucketHead fileKey
         :: Eff.trace ranged,
       Eff.result ranged)).
  { unfold handleFileStream.
    rewrite (handleFileStream_try_after_head
               caches request env fileKey b
               (valid_key_guard fileKey Hne Hdots) Hb
               (or_introl Hpresent)), Hhead.
    cbn zeta. rewrite Hpresent, Hmedia, Hrh, Hcc.
    replace (negb (startsWith (contentTypeOf info) "image/")
             && negb (startsWith (contentTypeOf info) "video/")
             && negb (startsWith (contentTypeOf info) "audio/"))
      with false
      by (destruct (startsWith _ "image/"), (startsWith _ "video/"),
                   (startsWith _ "audio/"); simpl in *; congruence).
    cbn [andb]. fold ranged.
    destruct ranged as [t r]. reflexivity. }
  split; [exact Hrun |]. rewrite Hrun.
  pose proof (handleRangeRequest_events
                caches request env fileKey rh (contentTypeOf info)
                (info_size info) "public, max-age=31536000, immutable")
    as Hev.
  fold ranged in Hev. cbn [Eff.trace fst existsb is_kv_event orb
                           is_bucket_get].
  split.
  - apply range_events_are_not_kv. exact Hev.
  - clear -Hev. induction (Eff.trace ranged) as [| ev t IH];
      [reflexivity |].
    cbn [forallb existsb] in *. apply andb_prop in Hev as [Hhd Htl].
    rewrite (IH Htl). destruct ev; try discriminate; reflexivity.
Qed.

Lemma ranged_media_request_is_delegated_witness :
  let cached :=
    new_Response (Some (BodyBytes (Sample.zero_filled (Num 1000)))) 200
      (buildResponseHeaders "audio/mpeg" (Num 1000) Sample.cacheControl
                            "MISS") in
  let caches : gmap string Response :=
    {[ getCacheKey "celebrity/song.mp3" := cached ]} in
  let request := Sample.ranged "bytes=100-199" in
  let env :=
    {| bucket := Some (Sample.store 1000 "audio/mpeg");
       KV := Some Sample.empty_kv |} in
  let info :=
    {| info_size := Num 1000; info_contentType := Some "audio/mpeg" |} in
  let ranged :=
    handleRangeRequest caches request env "celebrity/song.mp3"
      "bytes=100-199" (contentTypeOf info) (info_size info)
      "public, max-age=31536000, immutable" in
  handleFileStream caches request env "celebrity/song.mp3"
  = (CacheMatch (getCacheKey "celebrity/song.mp3")
       :: BucketHead "celebrity/song.mp3" :: Eff.trace ranged,
     Eff.result ranged) /\
  existsb is_kv_event
    (Eff.trace (handleFileStream caches request env "celebrity/song.mp3"))
  = false /\
  existsb is_bucket_get
    (Eff.trace (handleFileStream caches request env "celebrity/song.mp3"))
  = false.
Proof.
  apply (ranged_media_request_is_delegated
           {[ getCacheKey "celebrity/song.mp3" :=
                new_Response
                  (Some (BodyBytes (Sample.zero_filled (Num 1000)))) 200
                  (buildResponseHeaders "audio/mpeg" (Num 1000)
                                        Sample.cacheControl "MISS") ]}
           (Sample.ranged "bytes=100-199")
           {| bucket := Some (Sample.store 1000 "audio/mpeg");
              KV := Some Sample.empty_kv |}
           (Sample.store 1000 "audio/mpeg") "celebrity/song.mp3"
           "bytes=100-199"
           {| info_size := Num 1000;
              info_contentType := Some "audio/mpeg" |}).
  - discriminate.
  - reflexivity.
  - reflexivity.
  - reflexivity.
  - reflexivity.
  - reflexivity.
  - reflexivity.
Defined.

Section CacheKeys.

Lemma string_length_append (x y : string) :
  String.length (x +:+ y) = (String.length x + String.length y)%nat.
Proof. induction x as [| c x IH]; simpl; [reflexivity | now rewrite IH]. Qed.

Lemma append_cancel_r (s x y : string) : x +:+ s = y +:+ s -> x = y.
Proof.
  revert y. induction x as [| c x IH]; intros [| c' y] H.
  - reflexivity.
  - apply (f_equal String.length) in H.
    change (String c' y +:+ s) with (String c' (y +:+ s)) in H.
    simpl in H. rewrite !string_length_append in H. simpl in H. lia.
  - apply (f_equal String.length) in H.
    change (String c x +:+ s) with (String c (x +:+ s)) in H.
    simpl in H. rewrite !string_length_append in H. simpl in H. lia.
  - change (String c (x +:+ s) = String c' (y +:+ s)) in H.
    injection H as -> H. f_equal. now apply IH.
Qed.

Lemma last_digits_unfold (s : string) :
  last_digits s
  = if all_digits s then s
    else match s with
         | String _ s' => last_digits s'
         | EmptyString => EmptyString
         end.
Proof. destruct s; reflexivity. Qed.

Lemma all_digits_before_chunk (x d : string) :
  all_digits (x +:+ "?chunk=0-" +:+ d) = false.
Proof.
  induction x as [| c x IH]; [reflexivity |].
  change (String c x +:+ "?chunk=0-" +:+ d)
    with (String c (x +:+ "?chunk=0-" +:+ d)).
  cbn [all_digits]. rewrite IH. apply andb_false_r.
Qed.

Lemma last_digits_of_chunk_url (x d : string) :
  all_digits d = true -> last_digits (x +:+ "?chunk=0-" +:+ d) = d.
Proof.
  intros Hd. induction x as [| c x IH].
  - change (EmptyString +:+ "?chunk=0-" +:+ d)
      with (String "?" (String "c" (String "h" (String "u" (String "n"
             (String "k" (String "=" (String "0" (String "-" d))))))))).
    do 7 (rewrite last_digits_unfold; cbn [all_digits is_digit digit_value
            N_of_ascii andb]; simpl (is_digit _ && _)).
    rewrite last_digits_unfold.
    replace (all_digits (String "0" (String "-" d))) with false
      by (cbn [all_digits]; now rewrite andb_false_r).
    rewrite last_digits_unfold.
    replace (all_digits (String "-" d)) with false by reflexivity.
    rewrite last_digits_unfold, Hd. reflexivity.
  - change (String c x +:+ "?chunk=0-" +:+ d)
      with (String c (x +:+ "?chunk=0-" +:+ d)).
    rewrite last_digits_unfold.
    change (String c (x +:+ "?chunk=0-" +:+ d))
      with (String c x +:+ "?chunk=0-" +:+ d) at 1.
    rewrite all_digits_before_chunk. exact IH.
Qed.

(** The key of a first chunk determines the file and the end offset. *)
Lemma rangeCacheUrl_inj_both (k1 k2 : string) (e1 e2 : Z) :
  0 <= e1 -> 0 <= e2 ->
  rangeCacheUrl k1 (Num e1) = rangeCacheUrl k2 (Num e2) ->
  k1 = k2 /\ e1 = e2.
Proof.
  intros H1 H2 H. unfold rangeCacheUrl in H.
  apply append_cancel_l in H.
  rewrite !toString_nonneg in H by assumption.
  assert (Hd : decimal e1 = decimal e2).
  { rewrite <- (last_digits_of_chunk_url k1 (decimal e1))
      by now apply decimal_all_digits.
    rewrite H. now apply last_digits_of_chunk_url, decimal_all_digits. }
  rewrite Hd in H. apply append_cancel_r in H.
  split; [exact H | now apply decimal_inj].
Qed.

(** The key of a whole object is never the key of a first chunk. *)
Lemma getCacheKey_not_range (k k' : string) (e : number) :
  getCacheKey k <> rangeCacheUrl k' e.
Proof. unfold getCacheKey, rangeCacheUrl. simpl. discriminate. Qed.

End CacheKeys.

Section EdgeCacheInvariant.

Variable caches : gmap string Response.
Variable request : Request.
Variable env : Env.
Variable fileKey : string.

Lemma serveWholeObject_puts b ct size cfg ck url r :
  In (CachePut url r)
     (Eff.trace (serveWholeObject env b fileKey ct size cfg ck)) ->
  url = ck.
Proof.
  unfold serveWholeObject, kvLookup. unfold_eff.
  repeat (break_match; simplify_eq/=);
    intuition (try discriminate; congruence).
Qed.

(** A write to the edge cache is either under the key of the whole object
    or one of the writes of [handleRangeRequest], called with the size
    [head] reported. *)
Lemma handleFileStream_puts (url : string) (r : Response) :
  In (CachePut url r)
     (Eff.trace (handleFileStream caches request env fileKey)) ->
  url = getCacheKey fileKey \/
  exists b info rh,
    bucket env = Some b /\
    r2_head b fileKey = Return (Some info) /\
    In (CachePut url r)
       (Eff.trace
          (handleRangeRequest caches request env fileKey rh
             (contentTypeOf info) (info_size info)
             (browserCache (getCacheConfig (contentTypeOf info))))).
Proof.
  unfold handleFileStream, handleFileStream_try, cache_match.
  unfold_eff.
  repeat (break_path; simplify_eq/=); try (intuition discriminate).
  all:
    match goal with
    | Hhead : r2_head ?b fileKey = Return (Some ?info)
      |- context [handleRangeRequest ?a1 ?a2 ?a3 ?a4 ?a5 ?a6 ?a7 ?a8] =>
        intros H; right; exists b, info, a5;
        split; [reflexivity |]; split; [exact Hhead |];
        destruct (handleRangeRequest a1 a2 a3 a4 a5 a6 a7 a8) as [t c];
        cbn in *; destruct H as [H | [H | H]]; try discriminate; exact H
    | |- context [serveWholeObject ?a1 ?a2 ?a3 ?a4 ?a5 ?a6 ?a7] =>
        pose proof (serveWholeObject_puts a2 a4 a5 a6 a7 url r) as Hput;
        destruct (serveWholeObject a1 a2 a3 a4 a5 a6 a7) as [t [a | e]];
        cbn in *; rewrite ?app_nil_r;
        intros [H | [H | H]]; try discriminate; left; auto
    end.
Qed.

End EdgeCacheInvariant.

(** X28. The first chunks held by the edge cache stay right, for file
    keys that URL normalisation leaves unchanged.  If every first chunk in
    the cache, of any file with such a key, is the 206 answer for that
    chunk of a file of the size [size_of] gives it, and [head] reports
    that size, a safe integer, for the requested file, then the same holds
    of the cache after a request for a file with such a key and the
    completion of its background writes: requests for other files and
    whole-object requests never overwrite a first chunk. *)
Theorem edge_cache_ok_preserved
  (size_of : string -> Z) (caches : gmap string Response)
  (request : Request) (env : Env) (fileKey : string) :
  url_stable_key fileKey = true ->
  0 <= size_of fileKey <= MAX_SAFE_INTEGER ->
  edge_cache_ok size_of caches ->
  (forall b info,
     bucket env = Some b ->
     r2_head b fileKey = Return (Some info) ->
     info_size info = Num (size_of fileKey)) ->
  edge_cache_ok size_of
    (run_background
       (Eff.trace (handleFileStream caches request env fileKey)) caches).
Proof.
  intros _ _ Hok Hsize k Hk e chunk He Hlook.
  apply run_background_lookup in Hlook as [Hold | Hput].
  - now apply (Hok k Hk).
  - apply handleFileStream_puts in Hput
      as [Hwhole | (b & info & rh & Hb & Hhead & Hput)].
    + symmetry in Hwhole. now apply getCacheKey_not_range in Hwhole.
    + rewrite (Hsize b info Hb Hhead) in Hput.
      apply handleRangeRequest_puts in Hput
        as (e' & stream & He' & Hurl & ->).
      apply rangeCacheUrl_inj_both in Hurl as [-> ->];
        [| assumption | assumption].
      apply rangeResponse_partial_content.
Qed.

Lemma edge_cache_ok_preserved_witness :
  edge_cache_ok (fun _ => 1000)
    (run_background
       (Eff.trace
          (handleFileStream ∅ (Sample.ranged "bytes=0-99")
             {| bucket := Some (Sample.store 1000 "video/mp4");
                KV := None |}
             "celebrity/clip.mp4"))
       ∅).
Proof.
  apply (edge_cache_ok_preserved
           (fun _ => 1000) ∅ (Sample.ranged "bytes=0-99")
           {| bucket := Some (Sample.store 1000 "video/mp4"); KV := None |}
           "celebrity/clip.mp4").
  - reflexivity.
  - split; [lia | vm_compute; discriminate].
  - intros k _ e chunk _ Hhit. rewrite lookup_empty in Hhit. discriminate.
  - intros b info [= <-] [= <-]. reflexivity.
Defined.

(** A key with percent-encoded dot segments, which URL normalisation would
    rewrite, is not URL-stable. *)
Example encoded_dot_segments_are_not_url_stable :
  url_stable_key "%2e%2e/range/celebrity/clip.mp4?chunk=0-99" = false.
Proof. reflexivity. Qed.

Example first_chunk_in_cache_after_ranged_request :
  is_Some
    (run_background
       (Eff.trace
          (handleFileStream ∅ (Sample.ranged "bytes=0-99")
             {| bucket := Some (Sample.store 1000 "video/mp4");
                KV := None |}
             "celebrity/clip.mp4"))
       ∅
     !! rangeCacheUrl "celebrity/clip.mp4" (Num 99)).
Proof. vm_compute. eauto. Qed.

(** X29. A first chunk found in the edge cache is returned as it is,
    whatever size and content type the object has now: the key of a first
    chunk holds the file key and the end offset only, so an entry stored
    for an earlier version of the object is served unchanged. *)
Theorem cached_first_chunk_ignores_size_and_type
  (caches : gmap string Response) (request : Request) (env : Env)
  (fileKey contentType contentType' cacheControl : string) (B S S' : Z)
  (chunk : Response) :
  0 <= B -> 0 < S -> 0 < S' ->
  caches !! rangeCacheUrl fileKey (Num B) = Some chunk ->
  let h := "bytes=0-" +:+ toString (Num B) in
  handleRangeRequest caches request env fileKey h contentType (Num S)
                     cacheControl
  = ([CacheMatch (rangeCacheUrl fileKey (Num B))], Return chunk) /\
  handleRangeRequest caches request env fileKey h contentType' (Num S')
                     cacheControl
  = ([CacheMatch (rangeCacheUrl fileKey (Num B))], Return chunk).
Proof.
  intros HB HS HS' Hhit h. split.
  - apply handleRangeRequest_cached; try assumption.
    apply (parseRange_explicit contentType 0 B (Num S)); lia.
  - apply handleRangeRequest_cached; try assumption.
    apply (parseRange_explicit contentType' 0 B (Num S')); lia.
Qed.

Lemma cached_first_chunk_ignores_size_and_type_witness :
  let chunk :=
    rangeResponse "video/mp4" (Num 0) (Num 99) (Num 1000)
                  Sample.cacheControl (Sample.zero_filled (Num 100)) in
  let caches : gmap string Response :=
    {[ rangeCacheUrl "celebrity/clip.mp4" (Num 99) := chunk ]} in
  let env :=
    {| bucket := Some (Sample.store 500 "audio/mpeg"); KV := None |} in
  handleRangeRequest caches (Sample.ranged "bytes=0-99") env
    "celebrity/clip.mp4" ("bytes=0-" +:+ toString (Num 99)) "video/mp4"
    (Num 1000) Sample.cacheControl
  = ([CacheMatch (rangeCacheUrl "celebrity/clip.mp4" (Num 99))],
     Return chunk) /\
  handleRangeRequest caches (Sample.ranged "bytes=0-99") env
    "celebrity/clip.mp4" ("bytes=0-" +:+ toString (Num 99)) "audio/mpeg"
    (Num 500) Sample.cacheControl
  = ([CacheMatch (rangeCacheUrl "celebrity/clip.mp4" (Num 99))],
     Return chunk).
Proof.
  apply (cached_first_chunk_ignores_size_and_type
           {[ rangeCacheUrl "celebrity/clip.mp4" (Num 99) :=
                rangeResponse "video/mp4" (Num 0) (Num 99) (Num 1000)
                  Sample.cacheControl (Sample.zero_filled (Num 100)) ]}
           (Sample.ranged "bytes=0-99")
           {| bucket := Some (Sample.store 500 "audio/mpeg"); KV := None |}
           "celebrity/clip.mp4" "video/mp4" "audio/mpeg"
           Sample.cacheControl 99 1000 500).
  - lia.
  - lia.
  - lia.
  - apply lookup_singleton_eq.
Defined.

(** X30. When [head] finds the object but [get] then returns [null] or an
    object without body, and the key-value tier gives no hit, the answer
    is a 404 [File not found] and nothing is written to either cache. *)
Theorem vanished_object_404
  (caches : gmap string Response) (request : Request) (env : Env)
  (b : R2Bucket) (fileKey : string) (info : R2Object)
  (ro : option R2ObjectBody) :
  whole_object_request caches request env b fileKey info ->
  (forall kv data,
     KV env = Some kv ->
     kv_get kv (getKVKey fileKey) <> Return (Some data)) ->
  r2_get b fileKey = Return ro ->
  ro ≫= obj_body = None ->
  exists response,
    Eff.result (handleFileStream caches request env fileKey)
    = Return response /\
    status response = 404 /\
    resp_body response = Some (BodyJson [ ("error", "File not found") ]) /\
    existsb is_write
      (Eff.trace (handleFileStream caches request env fileKey)) = false.
Proof.
  intros Hreq Hnohit Hget Hnone.
  rewrite (handleFileStream_whole_object caches request env fileKey b info
             Hreq).
  exists (jsonResponse [ ("error", "File not found") ] 404).
  unfold serveWholeObject, kvLookup. rewrite Hget. unfold_eff.
  cbn. rewrite Hnone.
  repeat (break_match; simplify_eq/=);
    try (repeat split; reflexivity).
  all: exfalso; eapply Hnohit; eauto.
Qed.

Lemma vanished_object_404_witness :
  let vanishing : R2Bucket :=
    {| r2_head := r2_head (Sample.store 100 "image/webp");
       r2_get := fun _ => Return None;
       r2_get_range := fun _ _ _ => Return None |} in
  let outcome :=
    handleFileStream ∅ Sample.plain
      {| bucket := Some vanishing; KV := Some Sample.empty_kv |}
      "celebrity/photo.webp" in
  exists response,
    Eff.result outcome = Return response /\
    status response = 404 /\
    resp_body response = Some (BodyJson [ ("error", "File not found") ]) /\
    existsb is_write (Eff.trace outcome) = false.
Proof.
  apply (vanished_object_404
           ∅ Sample.plain
           {| bucket :=
                Some {| r2_head := r2_head (Sample.store 100 "image/webp");
                        r2_get := fun _ => Return None;
                        r2_get_range := fun _ _ _ => Return None |};
              KV := Some Sample.empty_kv |}
           {| r2_head := r2_head (Sample.store 100 "image/webp");
              r2_get := fun _ => Return None;
              r2_get_range := fun _ _ _ => Return None |}
           "celebrity/photo.webp"
           {| info_size := Num 100; info_contentType := Some "image/webp" |}
           None).
  - split; [reflexivity |]. split; [reflexivity |].
    split; [right; apply lookup_empty |].
    split; [reflexivity |]. split; reflexivity.
  - intros kv data [= <-]. discriminate.
  - reflexivity.
  - reflexivity.
Defined.
